(** * node-open311: a shallow embedding of [open311.js]

    The client library is a thin layer over three collaborators it does not
    own: the HTTP transport ([request]), the XML parser ([xml2js], configured
    with [emptyTag: null, explicitArray: false]) and [JSON.parse].  The
    embedding keeps the shape of the JavaScript source:

    - JavaScript values are a tree type [value]; objects keep their
      properties in insertion order (an association list), because
      [for ... in] and lodash's iterators observe that order;
    - every public operation is a computation in a small state-and-exception
      monad [M] over a [world] (the client object [this], the caller's object
      store, and a log of observable events: HTTP requests issued, caller
      callback invocations, console output);
    - an operation is asynchronous: its synchronous part either throws or
      issues one HTTP request and returns the response handler
      ([response -> M unit]) that the transport runs later;
    - the caller's [data] object of [submitRequest] lives in a store of
      mutable objects addressed by location, so that the deep clone and the
      later in-place updates can be told apart from the caller's object. *)

From stdpp Require Import gmap strings list pretty.
From Stdlib Require Import Ascii DecimalString.

Open Scope Z_scope.
Set Warnings "-register-all".

(** ** JavaScript values *)

(** Thrown exceptions: [new Error(msg)] raised by the source itself, and the
    run-time's [TypeError] / [SyntaxError]. *)
Inductive exn :=
| Error (msg : string)
| TypeError (msg : string)
| SyntaxError (msg : string).

(** Values without mutable structure of interest: the primitives, and the
    host objects the source only passes around ([Date], [Error], functions).
    A number is an integer here; no operation of the source depends on a
    fractional part. *)
Inductive atom :=
| AUndef
| ANull
| ABool (b : bool)
| ANum (n : Z)
| AStr (s : string)
| ADate (t : option Z)       (* time value in ms; [None] is Invalid Date *)
| AError (e : exn)
| AFun (f : nat).            (* a function, named by a tag *)

(** Tree-shaped values: what the parsers produce and what the client passes
    to callbacks.  Such objects are fresh and unshared, so value semantics is
    adequate for them. *)
Inductive value :=
| VAtom (a : atom)
| VArr (elems : list value)
| VObj (props : list (string * value)).

Abbreviation VUndef := (VAtom AUndef).
Abbreviation VNull := (VAtom ANull).
Abbreviation VBool b := (VAtom (ABool b)).
Abbreviation VNum n := (VAtom (ANum n)).
Abbreviation VStr s := (VAtom (AStr s)).
Abbreviation VDate t := (VAtom (ADate t)).
Abbreviation VError e := (VAtom (AError e)).
Abbreviation VFun f := (VAtom (AFun f)).

(** Outcome of a (sub)computation: a value or a thrown exception. *)
Inductive result (A : Type) :=
| Ok (a : A)
| Throw (e : exn).
Arguments Ok {A} a.
Arguments Throw {A} e.

(** An XML element as the SAX parser reports it: name, attributes,
    accumulated character data, child elements in document order. *)
Inductive xml :=
| Element (name : string) (attrs : list (string * string))
          (text : string) (children : list xml).

(** What [xml2js] can say about a body. *)
Inductive xml_doc :=
| XmlError (msg : string)     (* not well-formed *)
| XmlEmpty                    (* blank input: the parser reports [null] *)
| XmlRoot (root : xml).

(** The collaborators the library treats as black boxes. *)
Record Host := {
  JSON_parse : string -> option value;     (* [None]: throws SyntaxError *)
  xml_read : string -> xml_doc;
  Date_parse : string -> option Z;         (* [None]: NaN *)
  Date_toString : option Z -> string;
  Function_toString : nat -> string;
  (* [pathLib.extname(urlLib.parse(u).pathname).slice(1)], or the exception
     the two libraries raise on [u] *)
  url_extname : value -> result string;
}.

(** ** Primitive operations of the language *)

(** [typeof v === 'undefined'] *)
Definition is_undefined (v : value) : bool :=
  match v with VUndef => true | _ => false end.

(** ToBoolean *)
Definition atom_truthy (a : atom) : bool :=
  match a with
  | AUndef | ANull => false
  | ABool b => b
  | ANum n => negb (n =? 0)
  | AStr s => negb (String.eqb s "")
  | ADate _ | AError _ | AFun _ => true
  end.

Definition truthy (v : value) : bool :=
  match v with
  | VAtom a => atom_truthy a
  | VArr _ | VObj _ => true
  end.

(** [a || b] *)
Definition js_or (a b : value) : value := if truthy a then a else b.

(** [a === b].  Primitives compare by value.  Objects compare by identity;
    every comparison in the source has a literal or a caller option on one
    side and a freshly parsed value on the other, so two objects are never
    the same one. *)
Definition atom_strict_eq (a b : atom) : bool :=
  match a, b with
  | AUndef, AUndef => true
  | ANull, ANull => true
  | ABool x, ABool y => Bool.eqb x y
  | ANum x, ANum y => x =? y
  | AStr x, AStr y => String.eqb x y
  | AFun f, AFun g => Nat.eqb f g
  | _, _ => false
  end.

Definition strict_eq (a b : value) : bool :=
  match a, b with
  | VAtom x, VAtom y => atom_strict_eq x y
  | _, _ => false
  end.

Definition exn_name (e : exn) : string :=
  match e with
  | Error _ => "Error"
  | TypeError _ => "TypeError"
  | SyntaxError _ => "SyntaxError"
  end.

Definition exn_message (e : exn) : string :=
  match e with Error m | TypeError m | SyntaxError m => m end.

Fixpoint join (sep : string) (l : list string) : string :=
  match l with
  | [] => ""
  | [s] => s
  | s :: rest => s +:+ sep +:+ join sep rest
  end.

Section WithHost.
Context (host : Host).

(** ToString.  Numbers are the integers, printed in full; JavaScript
    prints magnitudes from 1e21 on in exponent form, and those and the
    non-integers are not in the domain of this model. *)
Definition atom_to_string (a : atom) : string :=
  match a with
  | AUndef => "undefined"
  | ANull => "null"
  | ABool true => "true"
  | ABool false => "false"
  | ANum n => pretty n
  | AStr s => s
  | ADate t => Date_toString host t
  | AError e => exn_name e +:+ ": " +:+ exn_message e
  | AFun f => Function_toString host f
  end.

(** ToString on any value; an array prints as its [join(',')], where
    [null] and [undefined] elements print as the empty string. *)
Fixpoint to_string (v : value) : string :=
  match v with
  | VAtom a => atom_to_string a
  | VArr l =>
      join "," (map (fun x => match x with
                              | VUndef | VNull => ""
                              | _ => to_string x
                              end) l)
  | VObj _ => "[object Object]"
  end.

(** [a + b] where one operand is a string: concatenation. *)
Definition js_concat (a b : value) : string := to_string a +:+ to_string b.

(** [Array.prototype.join] *)
Definition array_join (sep : string) (l : list value) : string :=
  join sep (map (fun x => match x with
                          | VUndef | VNull => ""
                          | _ => to_string x
                          end) l).

End WithHost.

(** ** Property access on tree values *)

(** A canonical array index: decimal digits without a leading zero. *)
Definition index_of_key (k : string) : option nat :=
  match NilEmpty.uint_of_string k with
  | Some u => let n := Nat.of_uint u in
              if String.eqb (pretty n) k then Some n else None
  | None => None
  end.

Fixpoint assoc {A} (k : string) (props : list (string * A)) : option A :=
  match props with
  | [] => None
  | (k', x) :: rest => if String.eqb k' k then Some x else assoc k rest
  end.

(** Assignment keeps the position of an existing key and appends a new one,
    which is the enumeration order of a JavaScript object. *)
Fixpoint assoc_set {A} (k : string) (x : A) (props : list (string * A))
  : list (string * A) :=
  match props with
  | [] => [(k, x)]
  | (k', y) :: rest =>
      if String.eqb k' k then (k, x) :: rest else (k', y) :: assoc_set k x rest
  end.

Fixpoint assoc_delete {A} (k : string) (props : list (string * A))
  : list (string * A) :=
  match props with
  | [] => []
  | (k', y) :: rest =>
      if String.eqb k' k then assoc_delete k rest else (k', y) :: assoc_delete k rest
  end.

Definition string_chars (s : string) : list value :=
  map (fun c => VStr (String c EmptyString)) (String.list_ascii_of_string s).

Definition cannot_read (k : string) (what : string) : exn :=
  TypeError ("Cannot read property '" +:+ k +:+ "' of " +:+ what).

Definition cannot_set (k : string) (what : string) : exn :=
  TypeError ("Cannot set property '" +:+ k +:+ "' of " +:+ what).

(** Reading a property of a primitive or host object: strings have
    [length] and indexed characters.  Inherited (prototype) members are not
    represented: every name the source reads is a data field. *)
Definition atom_get_prop (a : atom) (k : string) : result atom :=
  match a with
  | AUndef => Throw (cannot_read k "undefined")
  | ANull => Throw (cannot_read k "null")
  | AStr s =>
      if String.eqb k "length" then Ok (ANum (Z.of_nat (String.length s)))
      else Ok (match index_of_key k with
               | Some i => match String.get i s with
                           | Some c => AStr (String c EmptyString)
                           | None => AUndef
                           end
               | None => AUndef
               end)
  | _ => Ok AUndef
  end.

(** [v.k] / [v[k]].  Reading from [undefined] or [null] throws. *)
Definition get_prop (v : value) (k : string) : result value :=
  match v with
  | VAtom a =>
      match atom_get_prop a k with
      | Ok x => Ok (VAtom x)
      | Throw e => Throw e
      end
  | VObj props => Ok (default VUndef (assoc k props))
  | VArr l =>
      if String.eqb k "length" then Ok (VNum (Z.of_nat (length l)))
      else Ok (match index_of_key k with
               | Some i => nth i l VUndef
               | None => VUndef
               end)
  end.

(** [v.k = x], giving the updated object.  Assigning to a property of a
    primitive is silently ignored (the module is not in strict mode).  The
    source only ever assigns data-field names, never an array index; a named
    property put on an array is not represented. *)
Definition set_prop (v : value) (k : string) (x : value) : result value :=
  match v with
  | VUndef => Throw (cannot_set k "undefined")
  | VNull => Throw (cannot_set k "null")
  | VObj props => Ok (VObj (assoc_set k x props))
  | VArr _ | VAtom _ => Ok v
  end.

(** ** lodash *)

Definition isObject (v : value) : bool :=
  match v with
  | VArr _ | VObj _ | VDate _ | VError _ | VFun _ => true
  | _ => false
  end.

Definition isArray (v : value) : bool :=
  match v with VArr _ => true | _ => false end.

Definition isFunction (v : value) : bool :=
  match v with VFun _ => true | _ => false end.

(** Own enumerable properties, as [for ... in] and [_.extend] see them. *)
Definition own_props (v : value) : list (string * value) :=
  match v with
  | VObj props => props
  | VArr l => imap (fun i x => (pretty i, x)) l
  | _ => []
  end.

(** [_.extend(target, source)] on property lists. *)
Definition extend (target : list (string * value)) (source : value)
  : list (string * value) :=
  fold_left (fun acc kv => assoc_set kv.1 kv.2 acc) (own_props source) target.

(** The elements a lodash collection iterator visits: array elements, own
    property values of an object, characters of a string.  (An object with a
    numeric [length] field, which lodash walks by index like an array, is
    not in the domain of this model.) *)
Definition collection_values (v : value) : list value :=
  match v with
  | VArr l => l
  | VObj props => map snd props
  | VStr s => string_chars s
  | _ => []
  end.

(** [_.indexOf(array, x)]: first index holding a value [=== x], else -1. *)
Fixpoint index_from (i : Z) (l : list value) (x : value) : Z :=
  match l with
  | [] => -1
  | y :: rest => if strict_eq y x then i else index_from (i + 1) rest x
  end.

Definition indexOf (array : value) (x : value) : Z :=
  match array with
  | VArr l => index_from 0 l x
  | _ => -1
  end.

(** ** xml2js with [{emptyTag: null, explicitArray: false}]

    The conversion of a parsed element, following the parser's closing-tag
    rule: children are assigned to their parent under their tag name; a
    second child of the same name turns the entry into an array
    ([explicitArray: false] means a single child is NOT wrapped); an element
    holding only character data becomes that string; an element holding
    nothing becomes [emptyTag].  Character data sits under the key [_] and
    attributes under [$]; element names are taken to differ from these two
    reserved keys. *)

Definition is_space (c : ascii) : bool :=
  let n := nat_of_ascii c in
  (Nat.eqb n 32 || (Nat.leb 9 n && Nat.leb n 13))%bool.

Definition is_blank (s : string) : bool :=
  forallb is_space (String.list_ascii_of_string s).

Definition xml_name (x : xml) : string :=
  match x with Element n _ _ _ => n end.

(** [assignOrPush] *)
Definition assignOrPush (obj : list (string * value)) (key : string)
  (newValue : value) : list (string * value) :=
  match assoc key obj with
  | None => assoc_set key newValue obj
  | Some (VArr l) => assoc_set key (VArr (l ++ [newValue])) obj
  | Some old => assoc_set key (VArr [old; newValue]) obj
  end.

Fixpoint xml2js_element (x : xml) : value :=
  match x with
  | Element _ attrs text children =>
      let chars := if is_blank text then [] else [("_"%string, VStr text)] in
      let attr := match attrs with
                  | [] => []
                  | _ => [("$"%string,
                           VObj (map (fun kv => (kv.1, VStr kv.2)) attrs))]
                  end in
      match attrs, children with
      | [], [] => if is_blank text then VNull else VStr text
      | _, _ =>
          VObj (fold_left (fun obj kv => assignOrPush obj kv.1 kv.2)
                  (map (fun c => (xml_name c, xml2js_element c)) children)
                  (chars ++ attr))
      end
  end.

(** [explicitRoot] (default): the document is an object keyed by the root
    element's name. *)
Definition xml2js_document (root : xml) : value :=
  VObj [(xml_name root, xml2js_element root)].

(** ** The caller's object store

    Objects the caller owns (the [data] argument of [submitRequest]) are
    mutable and may be shared or cyclic, so they live in a store addressed by
    location.  An object has named fields in enumeration order; an array has
    its elements as well. *)

Inductive hval :=
| HAtom (a : atom)
| HRef (l : positive).

Record hobj := HObject {
  elements : option (list hval);          (* [Some] for an array *)
  fields : list (string * hval);
}.

Abbreviation heap := (gmap positive hobj).

Definition hundefined : hval := HAtom AUndef.

Definition deref (h : heap) (l : positive) : hobj :=
  default (HObject None []) (h !! l).

Definition obj_get (o : hobj) (k : string) : hval :=
  match elements o with
  | Some l =>
      if String.eqb k "length" then HAtom (ANum (Z.of_nat (length l)))
      else match index_of_key k with
           | Some i => nth i l hundefined
           | None => default hundefined (assoc k (fields o))
           end
  | None => default hundefined (assoc k (fields o))
  end.

(** Assignment; an index beyond the end of an array extends it. *)
Definition obj_set (o : hobj) (k : string) (x : hval) : hobj :=
  match elements o, index_of_key k with
  | Some l, Some i =>
      HObject
        (Some (if (i <? length l)%nat then <[i := x]> l
               else l ++ replicate (i - length l)%nat hundefined ++ [x]))
        (fields o)
  | _, _ => HObject (elements o) (assoc_set k x (fields o))
  end.

Definition obj_delete (o : hobj) (k : string) : hobj :=
  HObject (elements o) (assoc_delete k (fields o)).

(** Keys in [for ... in] order: indices first, then named fields. *)
Definition obj_keys (o : hobj) : list string :=
  match elements o with
  | Some l => imap (fun i _ => pretty i) l
  | None => []
  end ++ map fst (fields o).

Definition hget_prop (h : heap) (v : hval) (k : string) : result hval :=
  match v with
  | HAtom a =>
      match atom_get_prop a k with
      | Ok x => Ok (HAtom x)
      | Throw e => Throw e
      end
  | HRef l => Ok (obj_get (deref h l) k)
  end.

Definition hset_prop (h : heap) (v : hval) (k : string) (x : hval)
  : result heap :=
  match v with
  | HAtom AUndef => Throw (cannot_set k "undefined")
  | HAtom ANull => Throw (cannot_set k "null")
  | HAtom _ => Ok h
  | HRef l => Ok (<[l := obj_set (deref h l) k x]> h)
  end.

(** [delete v.k] *)
Definition hdelete_prop (h : heap) (v : hval) (k : string) : result heap :=
  match v with
  | HAtom AUndef =>
      Throw (TypeError ("Cannot convert undefined or null to object"))
  | HAtom ANull =>
      Throw (TypeError ("Cannot convert undefined or null to object"))
  | HAtom _ => Ok h
  | HRef l => Ok (<[l := obj_delete (deref h l) k]> h)
  end.

Definition hisObject (v : hval) : bool :=
  match v with
  | HRef _ => true
  | HAtom a => isObject (VAtom a)
  end.

(** Keys [for (k in v)] enumerates. *)
Definition hkeys (h : heap) (v : hval) : list string :=
  match v with
  | HRef l => obj_keys (deref h l)
  | HAtom (AStr s) => imap (fun i _ => pretty i) (String.list_ascii_of_string s)
  | HAtom _ => []
  end.

(** Storing a tree value as a fresh object graph. *)
Definition alloc_list (rec : value -> heap -> hval * heap)
  : list value -> heap -> list hval * heap :=
  fix go (l : list value) (h : heap) : list hval * heap :=
    match l with
    | [] => ([], h)
    | x :: rest =>
        let '(x', h1) := rec x h in
        let '(rest', h2) := go rest h1 in
        (x' :: rest', h2)
    end.

Definition alloc_props (rec : value -> heap -> hval * heap)
  : list (string * value) -> heap -> list (string * hval) * heap :=
  fix go (l : list (string * value)) (h : heap)
    : list (string * hval) * heap :=
    match l with
    | [] => ([], h)
    | (k, x) :: rest =>
        let '(x', h1) := rec x h in
        let '(rest', h2) := go rest h1 in
        ((k, x') :: rest', h2)
    end.

Fixpoint alloc_value (v : value) (h : heap) : hval * heap :=
  match v with
  | VAtom a => (HAtom a, h)
  | VArr l =>
      let '(xs, h1) := alloc_list alloc_value l h in
      let r := fresh (dom h1) in
      (HRef r, <[r := HObject (Some xs) []]> h1)
  | VObj props =>
      let '(ps, h1) := alloc_props alloc_value props h in
      let r := fresh (dom h1) in
      (HRef r, <[r := HObject None ps]> h1)
  end.

(** *** [_.clone(value, true)]

    lodash's deep clone walks the object graph depth first.  It keeps a stack
    of (source, clone) pairs, shared by the whole walk, and returns the
    recorded clone when it meets a source again, which preserves sharing and
    makes cyclic structures terminate.  A clone is created empty
    ([{}] or [Array(length)]) and filled property by property.  Primitives
    and the host objects of [atom] are returned as they are. *)

Definition clone_state : Type := list (positive * positive) * heap.

Fixpoint stack_find (l : positive) (stack : list (positive * positive))
  : option positive :=
  match stack with
  | [] => None
  | (a, b) :: rest => if Pos.eqb a l then Some b else stack_find l rest
  end.

Definition clone_shell (o : hobj) : hobj :=
  HObject ((fun l => replicate (length l) hundefined) <$> elements o) [].

(** The own entries [forEach] (arrays) or [forOwn] (objects) visits. *)
Definition clone_entries (o : hobj) : list (string * hval) :=
  match elements o with
  | Some l => imap (fun i x => (pretty i, x)) l
  | None => fields o
  end.

Fixpoint clone_each (rec : hval -> clone_state -> option (hval * clone_state))
  (result : positive) (entries : list (string * hval)) (st : clone_state)
  : option clone_state :=
  match entries with
  | [] => Some st
  | (key, objValue) :: rest =>
      match rec objValue st with
      | None => None
      | Some (x, (stack, h)) =>
          clone_each rec result rest
            (stack, <[result := obj_set (deref h result) key x]> h)
      end
  end.

Fixpoint baseClone (fuel : nat) (v : hval) (st : clone_state)
  : option (hval * clone_state) :=
  match fuel with
  | O => None
  | S fuel =>
      match v with
      | HAtom a => Some (HAtom a, st)
      | HRef l =>
          let '(stack, h) := st in
          match stack_find l stack with
          | Some l' => Some (HRef l', st)
          | None =>
              let o := deref h l in
              let result := fresh (dom h) in
              match clone_each (baseClone fuel) result (clone_entries o)
                      ((l, result) :: stack, <[result := clone_shell o]> h) with
              | None => None
              | Some st' => Some (HRef result, st')
              end
          end
      end
  end.

(** The walk never nests deeper than the number of stored objects, so this
    much fuel always suffices on a store without dangling references (lemma
    [baseClone_total] below). *)
Definition clone_deep (v : hval) (h : heap) : hval * heap :=
  match baseClone (S (S (size h))) v ([], h) with
  | Some (v', (_, h')) => (v', h')
  | None => (v, h)
  end.

(** ** The client, the world, and the monad of operations *)

(** The client object [this]: the configuration fields the source reads.  A
    field that was never set holds [undefined]. *)
Record client := Client {
  endpoint : value;
  format : value;
  jurisdiction : value;
  apiKey : value;
  discovery : value;
}.

Inductive http_method := GET | POST.

(** The options object handed to [request.get] / [request.post]. *)
Record http_request := HttpRequest {
  req_method : http_method;
  req_url : value;
  req_qs : value;
  req_form : option hval;
}.

(** What the transport hands back: [res.statusCode] and [body]. *)
Record response := Response {
  statusCode : Z;
  body : string;
}.

(** Observable events, in the order they happen. *)
Inductive event :=
| Requested (r : http_request)             (* an HTTP request is issued *)
| Called (f : nat) (err res : value)       (* the caller's callback runs *)
| ConsoleError (v : value).                (* [console.error] *)

Record world := World {
  self : client;
  store : heap;
  log : list event;
}.

Definition M (A : Type) : Type := world -> result A * world.

#[global] Instance M_ret : MRet M := fun A a w => (Ok a, w).

#[global] Instance M_bind : MBind M := fun A B f m w =>
  match m w with
  | (Ok a, w') => f a w'
  | (Throw e, w') => (Throw e, w')
  end.

Definition throw {A} (e : exn) : M A := fun w => (Throw e, w).

Definition lift {A} (r : result A) : M A := fun w => (r, w).

Definition this : M client := fun w => (Ok (self w), w).

Definition emit (e : event) : M unit :=
  fun w => (Ok tt, World (self w) (store w) (log w ++ [e])).

Definition set_endpoint (v : value) : M unit :=
  fun w =>
    let c := self w in
    (Ok tt, World (Client v (format c) (jurisdiction c) (apiKey c) (discovery c))
                  (store w) (log w)).

Definition set_format (v : value) : M unit :=
  fun w =>
    let c := self w in
    (Ok tt, World (Client (endpoint c) v (jurisdiction c) (apiKey c) (discovery c))
                  (store w) (log w)).

Definition get_store : M heap := fun w => (Ok (store w), w).

Definition put_store (h : heap) : M unit :=
  fun w => (Ok tt, World (self w) h (log w)).

(** The part of an operation that runs when the response arrives. *)
Definition handler : Type := response -> M unit.

(** Invoking the caller's callback.  The callback itself is the caller's
    code: it is recorded, and taken to return normally without touching the
    client. *)
Definition call (callback : value) (err res : value) : M unit :=
  match callback with
  | VFun f => emit (Called f err res)
  | _ => throw (TypeError "callback is not a function")
  end.

(** [request.get(options, k)] / [request.post(options, k)]: the request goes
    out now, [k] runs when the response is there. *)
Definition request (r : http_request) (k : handler) : M handler :=
  _ ← emit (Requested r); mret k.

Fixpoint split_dot (s : string) : list string :=
  match s with
  | EmptyString => [EmptyString]
  | String c rest =>
      if Ascii.eqb c "." then EmptyString :: split_dot rest
      else match split_dot rest with
           | x :: xs => String c x :: xs
           | [] => [String c EmptyString]
           end
  end.

(** [u.split('.')] followed by taking the last piece. *)
Definition last_dot_piece (u : value) : result value :=
  match u with
  | VStr s => Ok (VStr (List.last (split_dot s) EmptyString))
  | VUndef => Throw (cannot_read "split" "undefined")
  | VNull => Throw (cannot_read "split" "null")
  | _ => Throw (TypeError "split is not a function")
  end.

(** [v.slice(-1)] *)
Definition slice_last (v : value) : result value :=
  match v with
  | VStr s =>
      Ok (VStr (match List.last (map Some (String.list_ascii_of_string s)) None with
                | Some c => String c EmptyString
                | None => EmptyString
                end))
  | VArr l =>
      Ok (VArr (match List.last (map Some l) None with
                | Some x => [x]
                | None => []
                end))
  | VUndef => Throw (cannot_read "slice" "undefined")
  | VNull => Throw (cannot_read "slice" "null")
  | _ => Throw (TypeError "slice is not a function")
  end.

(** A predicate that may throw, run over a list as [_.filter] does. *)
Fixpoint filter_result (pred : value -> result bool) (l : list value)
  : result (list value) :=
  match l with
  | [] => Ok []
  | x :: rest =>
      match pred x with
      | Throw e => Throw e
      | Ok b =>
          match filter_result pred rest with
          | Throw e => Throw e
          | Ok kept => Ok (if b then x :: kept else kept)
          end
      end
  end.

(** An in-place update of every element, run in order as [_.each] does. *)
Fixpoint each_result (f : value -> result value) (l : list value)
  : result (list value) :=
  match l with
  | [] => Ok []
  | x :: rest =>
      match f x with
      | Throw e => Throw e
      | Ok x' =>
          match each_result f rest with
          | Throw e => Throw e
          | Ok rest' => Ok (x' :: rest')
          end
      end
  end.

#[global] Instance result_ret : MRet result := fun A a => Ok a.

#[global] Instance result_bind : MBind result := fun A B f r =>
  match r with
  | Ok a => f a
  | Throw e => Throw e
  end.

(** ** open311.js *)

Definition dquote : string := String (ascii_of_nat 34) EmptyString.

Definition endpoint_missing : exn :=
  Error ("You must set set an endpoint URL in your Open311({endpoint: "
         +:+ dquote +:+ "<URL>" +:+ dquote +:+ "}) object").

Definition discovery_missing : exn :=
  Error ("You must set set a discovery URL in your Open311({discovery: "
         +:+ dquote +:+ "URL" +:+ dquote +:+ "}) object").

Definition apiKey_missing : exn :=
  Error "Submitting a Service Request requires an API Key".

Definition client_of_props (props : list (string * value)) : client :=
  let field k := default VUndef (assoc k props) in
  Client (field "endpoint") (field "format") (field "jurisdiction")
         (field "apiKey") (field "discovery").

(** [v == null]: [undefined] or [null]. *)
Definition is_nullish (v : value) : bool :=
  match v with
  | VUndef | VNull => true
  | _ => false
  end.

(** [_.defaults(this, {format: 'json'})]: the default is assigned when
    [this.format == null], that is, when the field is missing or holds
    [undefined] or [null]. *)
Definition defaults_format (props : list (string * value))
  : list (string * value) :=
  if is_nullish (default VUndef (assoc "format" props))
  then assoc_set "format" (VStr "json") props
  else props.

Section Open311.
Context (host : Host).

(** The registry [require('./cities')], a table of preset configurations,
    is not part of the source file; it is a parameter. *)
Context (Cities : list (list (string * value))).

(** The constructor.  [this] starts out empty; only the configuration fields
    of the resulting object are kept. *)
Definition Open311 (options : value) : result client :=
  if isObject options then
    Ok (client_of_props (defaults_format (extend [] options)))
  else
    let id := options in
    match List.find (fun city =>
                       strict_eq (default VUndef (assoc "id" city)) id) Cities with
    | None =>
        Throw (Error (dquote +:+ to_string host id +:+ dquote
                      +:+ " is not in our list of prepopulatable endpoints"))
    | Some city =>
        Ok (client_of_props (defaults_format (extend [] (VObj city))))
    end.

Definition JSON_parse_body (text : string) : M value :=
  match JSON_parse host text with
  | Some v => mret v
  | None => throw (SyntaxError "Unexpected token in JSON")
  end.

(** [xml2jsParser.parseString(body, k)]: [k] runs once, synchronously, with
    [(err)] on a parse error and with [(null, document)] otherwise; what [k]
    throws propagates. *)
Definition xml2jsParser_parseString (text : string)
  (k : value -> value -> M unit) : M unit :=
  match xml_read host text with
  | XmlError msg => k (VError (Error msg)) VUndef
  | XmlEmpty => k VNull VNull
  | XmlRoot root => k VNull (xml2js_document root)
  end.

(** [new Date(v)] *)
Definition new_Date (v : value) : value :=
  VDate (match v with
         | VUndef => None
         | VNull => Some 0
         | VBool b => Some (if b then 1 else 0)
         | VNum n => if Z.abs n <=? 8640000000000000 then Some n else None
         | VStr s => Date_parse host s
         | VDate t => t
         | _ => Date_parse host (to_string host v)
         end).

Definition opt (options : list (string * value)) (k : string) : value :=
  default VUndef (assoc k options).

(** [v[key]] with a computed key.  A number that is a non-negative integer
    is an array index as it stands; any other key is a property name. *)
Definition get_elem (v key : value) : result value :=
  match v, key with
  | VArr l, VNum n =>
      Ok (if 0 <=? n then nth (Z.to_nat n) l VUndef else VUndef)
  | _, _ => get_prop v (to_string host key)
  end.

(** The filter callback of [_cacheOptions]. *)
Definition endpoint_matches (options : list (string * value))
  (endpoint : value) : result bool :=
  specification ← get_prop endpoint "specification";
  if strict_eq specification (opt options "specification") then
    type ← get_prop endpoint "type";
    mret (strict_eq type (opt options "type"))
  else mret false.

(** [_cacheOptions.call(this, responseData, options, callback)] *)
Definition _cacheOptions (responseData : value)
  (options : list (string * value)) (callback : M unit) : M unit :=
  if negb (truthy (opt options "cache")) then callback
  else
    all ← lift (get_prop responseData "endpoints");
    endpoints ← lift (filter_result (endpoint_matches options)
                        (collection_values all));
    endpoint ← lift (get_elem (VArr endpoints) (opt options "index"));
    url ← lift (get_prop endpoint "url");
    _ ← set_endpoint url;
    last ← lift (slice_last url);
    _ ← (if negb (strict_eq last (VStr "/"))
         then set_endpoint (VStr (js_concat host url (VStr "/")))
         else mret tt);
    formats ← lift (get_prop endpoint "formats");
    _ ← (if truthy (VNum (indexOf formats
                            (VBool (negb (strict_eq (VStr "application/json")
                                                    (VNum (-1)))))))
         then set_format (VStr "json")
         else set_format (VStr "xml"));
    callback.

Definition discovery_defaults : list (string * value) :=
  [("cache", VBool false);
   ("type", VStr "production");
   ("specification", VStr "http://wiki.open311.org/GeoReport_v2");
   ("index", VNum 0)].

Definition discovery_failed (status : Z) : string :=
  "There was an error connecting to the Open311 Discovery API: "
  +:+ pretty status.

Definition serviceDiscovery (options callback : value) : M handler :=
  let '(options, callback) :=
    if isFunction options then (VObj [], options) else (options, callback) in
  let options := extend discovery_defaults options in
  self ← this;
  if is_undefined (discovery self) then throw discovery_missing
  else
    _ ← lift (url_extname host (discovery self));
    request (HttpRequest GET (discovery self) VUndef None) (fun res =>
      if negb (statusCode res =? 200) then
        call callback (VNum (statusCode res))
             (VStr (discovery_failed (statusCode res)))
      else
        self ← this;
        piece ← lift (last_dot_piece (discovery self));
        if strict_eq piece (VStr "xml") then
          xml2jsParser_parseString (body res) (fun err data =>
            _ ← (if truthy err then call callback err VUndef else mret tt);
            _cacheOptions data options (call callback VNull data))
        else
          data ← JSON_parse_body (body res);
          _cacheOptions data options (call callback VNull data)).

Definition api_failed (status : Z) : string :=
  "There was an error connecting to the Open311 API: " +:+ pretty status.

(** [(this.jurisdiction) && (params.jurisdiction_id = params.jurisdiction_id
    || this.jurisdiction)] *)
Definition with_jurisdiction (self : client) (params : value) : result value :=
  if truthy (jurisdiction self) then
    given ← get_prop params "jurisdiction_id";
    set_prop params "jurisdiction_id" (js_or given (jurisdiction self))
  else mret params.

Definition api_url (self : client) (path : string) : value :=
  VStr (to_string host (endpoint self) +:+ path +:+ "."
        +:+ to_string host (format self)).

(** [this._get(path, params, callback)].  Callers that pass the callback in
    second position pass [None] for [params], which then is [{}]. *)
Definition _get (path : string) (params : option value)
  (callback : value -> value -> M unit) : M handler :=
  let params := default (VObj []) params in
  self ← this;
  params ← lift (with_jurisdiction self params);
  request (HttpRequest GET (api_url self path) params None) (fun res =>
    if negb (statusCode res =? 200) then
      callback (VBool true) (VStr (api_failed (statusCode res)))
    else callback (VBool false) (VStr (body res))).

(** [this._post(path, form, params, callback)] *)
Definition _post (path : string) (form : hval) (params : option value)
  (callback : value -> value -> M unit) : M handler :=
  let params := default (VObj []) params in
  self ← this;
  params ← lift (with_jurisdiction self params);
  request (HttpRequest POST (api_url self path) params (Some form)) (fun res =>
    if 300 <=? statusCode res then
      callback (VNum (statusCode res))
               (VStr (api_failed (statusCode res) +:+ "; " +:+ body res))
    else callback (VBool false) (VStr (body res))).

Definition body_text (b : value) : string :=
  match b with VStr s => s | _ => EmptyString end.

Definition serviceList (callback : value) : M handler :=
  self ← this;
  if is_undefined (endpoint self) then throw endpoint_missing
  else
    _get "services" None (fun err body =>
      if truthy err then call callback err body
      else
        self ← this;
        if strict_eq (format self) (VStr "xml") then
          xml2jsParser_parseString (body_text body) (fun err data =>
            _ ← (if truthy err then call callback err VUndef else mret tt);
            services ← lift (get_prop data "services");
            data ← lift (get_prop services "service");
            call callback VNull data)
        else
          data ← JSON_parse_body (body_text body);
          call callback VNull data).

Definition serviceDefinition (service_code callback : value) : M handler :=
  self ← this;
  if is_undefined (endpoint self) then throw endpoint_missing
  else
    _get ("services/" +:+ to_string host service_code) None (fun err body =>
      if truthy err then call callback err body
      else
        self ← this;
        if strict_eq (format self) (VStr "xml") then
          xml2jsParser_parseString (body_text body) (fun err data =>
            _ ← (if truthy err then call callback err VUndef else mret tt);
            data ← lift (get_prop data "service_definition");
            attributes ← lift (get_prop data "attributes");
            attribute ← lift (get_prop attributes "attribute");
            data ← lift (set_prop data "attributes" attribute);
            call callback VNull data)
        else
          data ← JSON_parse_body (body_text body);
          call callback VNull data).

(** The [for (attribute in data.attributes)] loop of [submitRequest]. *)
Fixpoint flatten_attributes (data : hval) (keys : list string) (h : heap)
  : result heap :=
  match keys with
  | [] => Ok h
  | attribute :: rest =>
      attributes ← hget_prop h data "attributes";
      x ← hget_prop h attributes attribute;
      h' ← hset_prop h data ("attribute[" +:+ attribute +:+ "]") x;
      flatten_attributes data rest h'
  end.

(** Lines 234-249: the form is prepared on a deep clone of [data]. *)
Definition prepare_form (self : client) (data : hval) : M hval :=
  h ← get_store;
  let '(data, h) := clone_deep data h in
  _ ← put_store h;
  if is_undefined (apiKey self) then throw apiKey_missing
  else
    let '(key, h) := alloc_value (apiKey self) h in
    h ← lift (hset_prop h data "api_key" key);
    _ ← put_store h;
    attributes ← lift (hget_prop h data "attributes");
    h ← (if hisObject attributes
         then lift (flatten_attributes data (hkeys h attributes) h)
         else mret h);
    h ← lift (hdelete_prop h data "attributes");
    _ ← put_store h;
    mret data.

Definition submitRequest (data : hval) (callback : value) : M handler :=
  self ← this;
  if is_undefined (endpoint self) then throw endpoint_missing
  else
    data ← prepare_form self data;
    _post "requests" data None (fun err body =>
      if truthy err then call callback err body
      else
        self ← this;
        if strict_eq (format self) (VStr "xml") then
          xml2jsParser_parseString (body_text body) (fun err resData =>
            _ ← (if truthy err then emit (ConsoleError err) else mret tt);
            service_requests ← lift (get_prop resData "service_requests");
            request ← lift (get_prop service_requests "request");
            call callback VNull (VArr [request]))
        else
          resData ← JSON_parse_body (body_text body);
          call callback VNull resData).

Definition token (token callback : value) : M handler :=
  self ← this;
  if is_undefined (endpoint self) then throw endpoint_missing
  else
    _get ("tokens/" +:+ to_string host token) None (fun err body =>
      if truthy err then call callback err body
      else
        self ← this;
        if strict_eq (format self) (VStr "xml") then
          xml2jsParser_parseString (body_text body) (fun err data =>
            _ ← (if truthy err then call callback err VUndef else mret tt);
            service_requests ← lift (get_prop data "service_requests");
            request ← lift (get_prop service_requests "request");
            call callback VNull request)
        else
          data ← JSON_parse_body (body_text body);
          call callback VNull data).

(** The body of the [_.each] callback in [_convertDates]. *)
Definition convert_request (request : value) : result value :=
  requested ← get_prop request "requested_datetime";
  request ← (if truthy requested
             then set_prop request "requested_datetime" (new_Date requested)
             else mret request);
  requested ← get_prop request "requested_datetime";
  request ← (if truthy requested
             then updated ← get_prop request "updated_datetime";
                  set_prop request "updated_datetime" (new_Date updated)
             else mret request);
  expected ← get_prop request "expected_datetime";
  request ← (if truthy expected
             then set_prop request "expected_datetime" (new_Date expected)
             else mret request);
  mret request.

(** [_convertDates(requestData)]: every element [_.each] visits is updated
    in place, and the same collection is returned.  (A mapping with a
    numeric [length] field, which [_.each] walks by index like an array, is
    not in the domain of this model.) *)
Definition _convertDates (requestData : value) : result value :=
  match requestData with
  | VArr l =>
      converted ← each_result convert_request l;
      mret (VArr converted)
  | VObj props =>
      values ← each_result convert_request (map snd props);
      mret (VObj (zip_with (fun kv x => (kv.1, x)) props values))
  | VStr s =>
      _ ← each_result convert_request (string_chars s);
      mret requestData
  | _ => mret requestData
  end.

Definition serviceRequests (serviceRequestId params callback : value)
  : M handler :=
  self ← this;
  if is_undefined (endpoint self) then throw endpoint_missing
  else
    let '(serviceRequestId, params, callback) :=
      if (isObject serviceRequestId && negb (isArray serviceRequestId))%bool
      then (VBool false, serviceRequestId, params)
      else (serviceRequestId, params, callback) in
    let '(params, callback) :=
      if isFunction params then (VObj [], params) else (params, callback) in
    let url :=
      if (truthy serviceRequestId && negb (isArray serviceRequestId))%bool
      then "requests/" +:+ to_string host serviceRequestId
      else "requests"%string in
    params ← (if (truthy serviceRequestId && isArray serviceRequestId)%bool
              then lift (set_prop params "service_request_id"
                           (VStr (array_join host ","
                                    (collection_values serviceRequestId))))
              else mret params);
    _get url (Some params) (fun err body =>
      if truthy err then call callback err body
      else
        self ← this;
        if strict_eq (format self) (VStr "xml") then
          xml2jsParser_parseString (body_text body) (fun err data =>
            _ ← (if truthy err then call callback err VUndef else mret tt);
            service_requests ← lift (get_prop data "service_requests");
            data ← lift (get_prop service_requests "request");
            data ← lift (_convertDates data);
            call callback VNull data)
        else
          data ← JSON_parse_body (body_text body);
          data ← lift (_convertDates data);
          call callback VNull data).

End Open311.

(** ** Running an operation *)

(** A call of one of the six public operations, with its arguments as the
    caller passes them (positionally; an omitted argument is [undefined]). *)
Inductive invocation :=
| ServiceDiscovery (options callback : value)
| ServiceList (callback : value)
| ServiceDefinition (service_code callback : value)
| SubmitRequest (data : hval) (callback : value)
| Token (token callback : value)
| ServiceRequests (serviceRequestId params callback : value).

Definition invoke (host : Host) (i : invocation) : M handler :=
  match i with
  | ServiceDiscovery options callback => serviceDiscovery host options callback
  | ServiceList callback => serviceList host callback
  | ServiceDefinition service_code callback =>
      serviceDefinition host service_code callback
  | SubmitRequest data callback => submitRequest host data callback
  | Token t callback => token host t callback
  | ServiceRequests serviceRequestId params callback =>
      serviceRequests host serviceRequestId params callback
  end.

(** The whole life of a call: the synchronous part, then (if a request went
    out) the handler on the transport's response. *)
Definition run (m : M handler) (res : response) (w : world)
  : result unit * world :=
  match m w with
  | (Ok k, w') => k res w'
  | (Throw e, w') => (Throw e, w')
  end.

(** The callback invocations recorded in a log. *)
Definition calls (l : list event) : list (nat * value * value) :=
  omap (fun e => match e with
                 | Called f err res => Some (f, err, res)
                 | _ => None
                 end) l.

(** The HTTP requests recorded in a log. *)
Definition requests (l : list event) : list http_request :=
  omap (fun e => match e with
                 | Requested r => Some r
                 | _ => None
                 end) l.

(** Does a string end in a slash? *)
Definition ends_with_slash (v : value) : bool :=
  match v with
  | VStr s =>
      match List.last (map Some (String.list_ascii_of_string s)) None with
      | Some c => Ascii.eqb c "/"
      | None => false
      end
  | _ => false
  end.

(** A configuration field this call requires is missing: [discovery] for
    discovery, [endpoint] for the rest, and [apiKey] as well for a
    submission. *)
Definition misconfigured (c : client) (i : invocation) : bool :=
  match i with
  | ServiceDiscovery _ _ => is_undefined (discovery c)
  | SubmitRequest _ _ => is_undefined (endpoint c) || is_undefined (apiKey c)
  | _ => is_undefined (endpoint c)
  end.

(** Is the XML decoder the one this call runs on a successful response?
    serviceDiscovery goes by the last dot-separated piece of the discovery
    URL, the other operations by the client's format. *)
Definition decodes_xml (i : invocation) (c : client) : bool :=
  match i with
  | ServiceDiscovery _ _ =>
      match last_dot_piece (discovery c) with
      | Ok piece => strict_eq piece (VStr "xml")
      | Throw _ => false
      end
  | _ => strict_eq (format c) (VStr "xml")
  end.

(** Does the transport adapter take this response for a success?  A GET
    must return 200; a POST anything below 300. *)
Definition transport_ok (i : invocation) (res : response) : bool :=
  match i with
  | SubmitRequest _ _ => negb (300 <=? statusCode res)
  | _ => statusCode res =? 200
  end.

(** The document the response handler of serviceDiscovery hands to
    [_cacheOptions] when the body decodes. *)
Definition discovery_data (host : Host) (c : client) (res : response)
  : option value :=
  match last_dot_piece (discovery c) with
  | Ok piece =>
      if strict_eq piece (VStr "xml") then
        match xml_read host (body res) with
        | XmlError _ => None
        | XmlEmpty => Some VNull
        | XmlRoot root => Some (xml2js_document root)
        end
      else JSON_parse host (body res)
  | Throw _ => None
  end.

(** ** Vocabulary for the callback discipline *)

(** A computation that records no event. *)
Definition silent {A} (m : M A) : Prop :=
  forall w r w', m w = (r, w') -> log w' = log w.

(** A computation that, run in [w], invokes the caller's callback exactly
    once when it completes, not at all when it throws, and records nothing
    else. *)
Definition calls_back_once_at (w : world) (m : M unit) : Prop :=
  forall r w', m w = (r, w') ->
    (r = Ok tt /\ exists f e v, log w' = log w ++ [Called f e v]) \/
    (exists e, r = Throw e /\ log w' = log w).

Definition calls_back_once (m : M unit) : Prop :=
  forall w, calls_back_once_at w m.

(** ** Vocabulary for the caller's store *)

(** A stored value is closed in [h] when it does not dangle. *)
Definition hval_closed (h : heap) (v : hval) : Prop :=
  match v with
  | HRef l => is_Some (h !! l)
  | HAtom _ => True
  end.

Definition hobj_values (o : hobj) : list hval :=
  default [] (elements o) ++ map snd (fields o).

(** A store without dangling references, as every JavaScript heap is. *)
Definition store_closed (h : heap) : Prop :=
  forall l o, h !! l = Some o -> Forall (hval_closed h) (hobj_values o).

(** The invariant of the deep clone's walk over a store that extends [h0]:
    the objects of [h0] are as they were, and every clone recorded on the
    stack is an object [h0] did not have. *)
Definition clone_inv (h0 : heap) (st : clone_state) : Prop :=
  h0 ⊆ st.2 /\
  forall a b, stack_find a st.1 = Some b -> h0 !! b = None.

(** A value that does not point into [h0]. *)
Definition outside (h0 : heap) (v : hval) : Prop :=
  match v with
  | HRef l => h0 !! l = None
  | HAtom _ => True
  end.

(** The sources the walk has already met. *)
Definition stack_keys (stack : list (positive * positive)) : gset positive :=
  list_to_set (stack.*1).

(** How many objects of [h0] the walk has not met yet; the depth of the
    walk is bounded by it. *)
Definition unvisited (h0 : heap) (stack : list (positive * positive)) : nat :=
  size (dom h0 ∖ stack_keys stack).

(** A computation that leaves the caller's store alone and issues no HTTP
    request. *)
Definition offline {A} (m : M A) : Prop :=
  forall w r w', m w = (r, w') ->
    store w' = store w /\ requests (log w') = requests (log w).

(** ** Fixtures for the worked examples *)

Definition quoted (s : string) : string := dquote +:+ s +:+ dquote.

(** The text of a discovery document and its parse: one GeoReport v2
    production endpoint, advertising both wire formats, its URL written
    without a trailing slash. *)
Definition discovery_json : string :=
  "{" +:+ quoted "endpoints" +:+ ":[{"
  +:+ quoted "specification" +:+ ":" +:+ quoted "http://wiki.open311.org/GeoReport_v2" +:+ ","
  +:+ quoted "url" +:+ ":" +:+ quoted "http://example.org/v2" +:+ ","
  +:+ quoted "type" +:+ ":" +:+ quoted "production" +:+ ","
  +:+ quoted "formats" +:+ ":[" +:+ quoted "text/xml" +:+ ","
  +:+ quoted "application/json" +:+ "]}]}".

Definition discovery_document : value :=
  VObj [("endpoints",
         VArr [VObj [("specification", VStr "http://wiki.open311.org/GeoReport_v2");
                     ("url", VStr "http://example.org/v2");
                     ("type", VStr "production");
                     ("formats", VArr [VStr "text/xml";
                                       VStr "application/json"])]])].

(** A host whose parsers know a handful of bodies. *)
Definition one_service : xml :=
  Element "service" [] ""
    [Element "service_code" [] "001" [];
     Element "service_name" [] "Pothole" []].

Definition other_service : xml :=
  Element "service" [] ""
    [Element "service_code" [] "002" [];
     Element "service_name" [] "Graffiti" []].

Definition one_service_xml : string :=
  "<services><service><service_code>001</service_code><service_name>Pothole</service_name></service></services>".

Definition example_host : Host := {|
  JSON_parse := fun text =>
    if String.eqb text "[]" then Some (VArr [])
    else if String.eqb text discovery_json then Some discovery_document
    else if String.eqb text "{}" then Some (VObj [])
    else None;
  xml_read := fun text =>
    if String.eqb text one_service_xml then XmlRoot (Element "services" [] "" [one_service])
    else if String.eqb text "" then XmlEmpty
    else XmlError "Non-whitespace before first tag.";
  Date_parse := fun text =>
    if String.eqb text "1970-01-01T00:00:01Z" then Some 1000 else None;
  Date_toString := fun t =>
    match t with
    | Some n => pretty n
    | None => "Invalid Date"
    end;
  Function_toString := fun _ => "function () {}";
  url_extname := fun u =>
    match u with
    | VStr s => Ok (List.last (split_dot s) EmptyString)
    | _ => Throw (TypeError "Parameter 'url' must be a string")
    end;
|}.

Definition example_client : client :=
  Client (VStr "http://example.org/api/") (VStr "json") VUndef
         (VStr "secret") (VStr "http://example.org/discovery.json").

Definition example_world : world := World example_client ∅ [].

(** The caller's [data] of the README: a request with two attributes, as
    two objects in the store. *)
Definition example_store : heap :=
  {[ 1%positive := HObject None [("service_code", HAtom (AStr "001"));
                                 ("attributes", HRef 2%positive)];
     2%positive := HObject None [("A", HAtom (AStr "1"));
                                 ("B", HAtom (AStr "2"))] ]}.

Definition example_data : hval := HRef 1%positive.

Definition example_world_with_data : world :=
  World example_client example_store [].

(** A parsed discovery document with one GeoReport v2 production endpoint
    that advertises XML only. *)
Definition xml_only_endpoint : value :=
  VObj [("specification", VStr "http://wiki.open311.org/GeoReport_v2");
        ("url", VStr "http://example.org/v2");
        ("type", VStr "production");
        ("formats", VArr [VStr "text/xml"])].

Definition xml_only_discovery : value :=
  VObj [("changeset", VStr "2011-02-03 14:18");
        ("endpoints", VArr [xml_only_endpoint])].

Definition cache_options : list (string * value) :=
  extend discovery_defaults (VObj [("cache", VBool true)]).

Definition cache_options_index_1 : list (string * value) :=
  extend discovery_defaults (VObj [("cache", VBool true); ("index", VNum 1)]).

Definition xml_client : client :=
  Client (VStr "http://example.org/api/") (VStr "xml") VUndef
         (VStr "secret") (VStr "http://example.org/discovery.xml").

Definition xml_world : world := World xml_client ∅ [].

(** A registry of two preset cities, in the shape of [cities.js]. *)
Definition example_cities : list (list (string * value)) :=
  [[("id", VStr "baltimore");
    ("name", VStr "Baltimore");
    ("endpoint", VStr "http://311.baltimorecity.gov/open311/v2/");
    ("format", VStr "xml");
    ("jurisdiction", VStr "baltimorecity.gov")];
   [("id", VStr "bloomington");
    ("name", VStr "Bloomington, IN");
    ("endpoint", VStr "https://bloomington.in.gov/crm/open311/v2/");
    ("jurisdiction", VStr "bloomington.in.gov")]].

(** A computation that leaves the client object alone. *)
Definition keeps_client {A} (m : M A) : Prop :=
  forall w r w', m w = (r, w') -> self w' = self w.

(** The operations that go to the configured endpoint, that is, all but
    serviceDiscovery. *)
Definition endpoint_operation (i : invocation) : bool :=
  match i with
  | ServiceDiscovery _ _ => false
  | _ => true
  end.

Definition is_submission (i : invocation) : bool :=
  match i with
  | SubmitRequest _ _ => true
  | _ => false
  end.

(** The call passes function [f] as its callback, with the other arguments
    of the shapes the documentation gives (an id or a list of ids, a
    parameter object). *)
Definition calls_back (f : nat) (i : invocation) : Prop :=
  match i with
  | ServiceDiscovery options callback =>
      isFunction options = false /\ callback = VFun f
  | ServiceList callback
  | ServiceDefinition _ callback
  | SubmitRequest _ callback
  | Token _ callback => callback = VFun f
  | ServiceRequests serviceRequestId params callback =>
      (isObject serviceRequestId && negb (isArray serviceRequestId))%bool = false
      /\ isFunction params = false /\ callback = VFun f
  end.

(** What an operation does to a decoded JSON result before handing it on:
    serviceRequests coerces the dates, the others nothing. *)
Definition post_process (host : Host) (i : invocation) (data : value)
  : result value :=
  match i with
  | ServiceRequests _ _ _ => _convertDates host data
  | _ => Ok data
  end.

(** The first field an endpoint operation reads off a decoded XML
    document. *)
Definition xml_root_field (i : invocation) : string :=
  match i with
  | ServiceList _ => "services"
  | ServiceDefinition _ _ => "service_definition"
  | _ => "service_requests"
  end.

(** The operations that unwrap [service_requests.request], and what each
    hands to the callback for the unwrapped value. *)
Definition unwraps_request (i : invocation) : bool :=
  match i with
  | SubmitRequest _ _ | Token _ _ | ServiceRequests _ _ _ => true
  | _ => false
  end.

Definition xml_request_result (host : Host) (i : invocation) (request : value)
  : result value :=
  match i with
  | SubmitRequest _ _ => Ok (VArr [request])
  | ServiceRequests _ _ _ => _convertDates host request
  | _ => Ok request
  end.

(** A host that reads two more XML bodies: a request response and a service
    list without services. *)
Definition request_xml : string :=
  "<service_requests><request><service_request_id>293944</service_request_id></request></service_requests>".

Definition request_root : xml :=
  Element "service_requests" [] ""
    [Element "request" [] ""
       [Element "service_request_id" [] "293944" []]].

Definition xml_host : Host := {|
  JSON_parse := JSON_parse example_host;
  xml_read := fun text =>
    if String.eqb text request_xml then XmlRoot request_root
    else if String.eqb text "<services/>"
    then XmlRoot (Element "services" [] "" [])
    else xml_read example_host text;
  Date_parse := Date_parse example_host;
  Date_toString := Date_toString example_host;
  Function_toString := Function_toString example_host;
  url_extname := url_extname example_host;
|}.

Definition discovery_candidate : value :=
  VObj [("specification", VStr "http://wiki.open311.org/GeoReport_v2");
        ("url", VStr "http://example.org/v2");
        ("type", VStr "production");
        ("formats", VArr [VStr "text/xml"; VStr "application/json"])].

(** The query parameters [_get] and [_post] send for the caller's parameter
    object [props]: the client's jurisdiction is added as [jurisdiction_id]
    unless the caller gave a truthy one. *)
Definition sent_params (c : client) (props : list (string * value))
  : list (string * value) :=
  if truthy (jurisdiction c)
  then assoc_set "jurisdiction_id"
         (js_or (opt props "jurisdiction_id") (jurisdiction c)) props
  else props.

(** How a request mapping and its date-coerced version are related on the
    fields the first and third blocks of [_convertDates] handle, and on the
    fields none of its blocks names. *)
Definition dates_coerced (host : Host) (before after : value) : Prop :=
  exists props props',
    before = VObj props /\ after = VObj props' /\
    opt props' "requested_datetime" =
      (if truthy (opt props "requested_datetime")
       then new_Date host (opt props "requested_datetime")
       else opt props "requested_datetime") /\
    opt props' "expected_datetime" =
      (if truthy (opt props "expected_datetime")
       then new_Date host (opt props "expected_datetime")
       else opt props "expected_datetime") /\
    forall key,
      key <> "requested_datetime"%string ->
      key <> "updated_datetime"%string ->
      key <> "expected_datetime"%string ->
      opt props' key = opt props key.

(** The name of the form field the [for ... in] loop of [submitRequest]
    writes for the attribute [k]. *)
Definition attribute_field (k : string) : string :=
  "attribute[" +:+ k +:+ "]".

(** A property name that is neither an array index nor [length]: on every
    object, array or not, it names a field. *)
Definition plain_key (k : string) : Prop :=
  index_of_key k = None /\ String.eqb k "length" = false.

(** The operations that are a single GET without caller parameters, with
    the path each asks for. *)
Definition get_path (host : Host) (i : invocation) : option string :=
  match i with
  | ServiceList _ => Some "services"%string
  | ServiceDefinition service_code _ =>
      Some ("services/" +:+ to_string host service_code)
  | Token t _ => Some ("tokens/" +:+ to_string host t)
  | _ => None
  end.

(** What an endpoint operation does with the error of the XML parser before
    it goes on: submitRequest prints it, the others hand it to the
    callback. *)
Definition parse_error_event (f : nat) (i : invocation) (err : value)
  : event :=
  match i with
  | SubmitRequest _ _ => ConsoleError err
  | _ => Called f err VUndef
  end.

(** Two service definitions as XML, one with a single attribute and one
    without an attributes element, and a host that reads them. *)
Definition definition_xml : string :=
  "<service_definition><service_code>DMV66</service_code><attributes><attribute><code>WHISHETN</code></attribute></attributes></service_definition>".

Definition definition_root : xml :=
  Element "service_definition" [] ""
    [Element "service_code" [] "DMV66" [];
     Element "attributes" [] ""
       [Element "attribute" [] "" [Element "code" [] "WHISHETN" []]]].

Definition bare_definition_xml : string :=
  "<service_definition><service_code>DMV66</service_code></service_definition>".

Definition bare_definition_root : xml :=
  Element "service_definition" [] ""
    [Element "service_code" [] "DMV66" []].

Definition definition_host : Host := {|
  JSON_parse := JSON_parse example_host;
  xml_read := fun text =>
    if String.eqb text definition_xml then XmlRoot definition_root
    else if String.eqb text bare_definition_xml
    then XmlRoot bare_definition_root
    else xml_read example_host text;
  Date_parse := Date_parse example_host;
  Date_toString := Date_toString example_host;
  Function_toString := Function_toString example_host;
  url_extname := url_extname example_host;
|}.

(** * Properties *)

Set Warnings "-clear-no-such-hyp".

Ltac munfold :=
  unfold mbind, mret, M_bind, M_ret, result_bind, result_ret, lift, throw,
    this, emit, set_endpoint, set_format, get_store, put_store in *.

(** ** Basic facts about the monad's primitives *)

Lemma call_spec (callback err res : value) (w : world) :
  (exists f, callback = VFun f /\
     call callback err res w =
       (Ok tt, World (self w) (store w) (log w ++ [Called f err res])))
  \/ (exists e, call callback err res w = (Throw e, w)).
Proof.
  destruct callback as [[]| |]; simpl; eauto.
Qed.

Lemma call_keeps_self (callback err res : value) (w : world) :
  self (call callback err res w).2 = self w.
Proof.
  destruct (call_spec callback err res w) as [(f & _ & ->)|(e & ->)]; reflexivity.
Qed.

Lemma cacheOptions_uncached host responseData options (callback : M unit) :
  truthy (opt options "cache") = false ->
  _cacheOptions host responseData options callback = callback.
Proof. intros H. unfold _cacheOptions. now rewrite H. Qed.

(** C9: for every server response and every options object whose [cache]
    is false (the default options included: [cache] defaults to false),
    a serviceDiscovery call, from its synchronous part to the end of its
    response handler, leaves the client's endpoint and format fields exactly
    as they were. *)
Theorem discovery_uncached_keeps_config (host : Host)
  (options callback : value) (res : response) (w : world) :
  truthy (opt (extend discovery_defaults
                 (if isFunction options then VObj [] else options)) "cache")
    = false ->
  let w' := (run (serviceDiscovery host options callback) res w).2 in
  endpoint (self w') = endpoint (self w) /\ format (self w') = format (self w).
Proof.
  intros Hcache w'.
  assert (self w' = self w) as ->; [|done].
  subst w'. unfold run, serviceDiscovery.
  destruct (isFunction options) eqn:Hf.
  all: munfold; simpl.
  all: destruct (is_undefined (discovery (self w))); simpl; try reflexivity.
  all: destruct (url_extname host (discovery (self w))); simpl; try reflexivity.
  all: destruct (statusCode res =? 200); simpl;
    [|rewrite call_keeps_self; reflexivity].
  all: destruct (last_dot_piece (discovery (self w))) as [piece|]; simpl;
    [|reflexivity].
  all: destruct (strict_eq piece (VStr "xml")); simpl.
  all: unfold xml2jsParser_parseString, JSON_parse_body.
  all: rewrite ?(cacheOptions_uncached _ _ _ _ Hcache).
  all: try (destruct (xml_read host (body res)); simpl; munfold; simpl).
  all: try (destruct (JSON_parse host (body res)); simpl; munfold; simpl).
  all: try reflexivity.
  all: rewrite ?(cacheOptions_uncached _ _ _ _ Hcache).
  all: try (rewrite call_keeps_self; reflexivity).
  all: match goal with
       | |- context [call ?c (VError ?e) ?r ?w] =>
           destruct (call_spec c (VError e) r w) as [(f & _ & ->)|(e' & ->)]; simpl
       end.
  all: try reflexivity.
  all: rewrite call_keeps_self; reflexivity.
Qed.

(** C3: an operation called with a missing required configuration field
    ([discovery] for serviceDiscovery, [endpoint] for the other five,
    [apiKey] for submitRequest) throws an [Error] from its synchronous part:
    no handler is produced, and the log of events, hence the list of HTTP
    requests issued, is what it was before the call. *)
Theorem configuration_error_is_synchronous (host : Host) (i : invocation)
  (w : world) :
  misconfigured (self w) i = true ->
  exists msg w',
    invoke host i w = (Throw (Error msg), w') /\
    self w' = self w /\
    log w' = log w /\
    requests (log w') = requests (log w).
Proof.
  intros H.
  cut (exists msg w', invoke host i w = (Throw (Error msg), w') /\
                      self w' = self w /\ log w' = log w).
  { intros (msg & w' & ? & ? & Hl). exists msg, w'. rewrite Hl. auto. }
  destruct i; simpl in *.
  - unfold serviceDiscovery.
    destruct (isFunction options); munfold; simpl; rewrite H; eauto.
  - unfold serviceList. munfold. simpl. rewrite H. eauto.
  - unfold serviceDefinition. munfold. simpl. rewrite H. eauto.
  - unfold submitRequest. munfold. simpl.
    destruct (is_undefined (endpoint (self w))) eqn:He; [eauto|].
    simpl in H. unfold prepare_form. munfold. simpl.
    destruct (clone_deep data (store w)) as [data' h'].
    simpl. rewrite H. simpl. eauto.
  - unfold token. munfold. simpl. rewrite H. eauto.
  - unfold serviceRequests. munfold. simpl. rewrite H. eauto.
Qed.

Lemma configuration_error_is_synchronous_witness :
  exists msg w',
    invoke example_host (ServiceList (VFun 0))
      (World (Client VUndef (VStr "json") VUndef VUndef VUndef) ∅ []) =
      (Throw (Error msg), w') /\
    self w' = Client VUndef (VStr "json") VUndef VUndef VUndef /\
    log w' = [] /\
    requests (log w') = requests [].
Proof.
  apply (configuration_error_is_synchronous example_host (ServiceList (VFun 0))
           (World (Client VUndef (VStr "json") VUndef VUndef VUndef) ∅ [])).
  reflexivity.
Defined.

Lemma discovery_uncached_keeps_config_witness :
  let w' := (run (serviceDiscovery example_host
                    (VObj [("cache", VBool false)]) (VFun 0))
               (Response 200 discovery_json) example_world).2 in
  endpoint (self w') = endpoint (self example_world) /\
  format (self w') = format (self example_world).
Proof.
  apply (discovery_uncached_keeps_config example_host
           (VObj [("cache", VBool false)]) (VFun 0)
           (Response 200 discovery_json) example_world).
  reflexivity.
Defined.

(** ** The transport adapter *)

Lemma get_inv host path params (cb : value -> value -> M unit) w r w1 :
  _get host path params cb w = (r, w1) ->
  (exists e, r = Throw e /\ w1 = w) \/
  (exists q,
      r = Ok (fun res : response =>
                if negb (statusCode res =? 200)
                then cb (VBool true) (VStr (api_failed (statusCode res)))
                else cb (VBool false) (VStr (body res))) /\
      w1 = World (self w) (store w)
             (log w ++ [Requested (HttpRequest GET (api_url host (self w) path)
                                     q None)])).
Proof.
  unfold _get, request. munfold. simpl.
  destruct (with_jurisdiction (self w) (default (VObj []) params)) as [q|e];
    simpl; intros [= <- <-]; eauto.
Qed.

Lemma post_inv host path form params (cb : value -> value -> M unit) w r w1 :
  _post host path form params cb w = (r, w1) ->
  (exists e, r = Throw e /\ w1 = w) \/
  (exists q,
      r = Ok (fun res : response =>
                if 300 <=? statusCode res
                then cb (VNum (statusCode res))
                       (VStr (api_failed (statusCode res) +:+ "; " +:+ body res))
                else cb (VBool false) (VStr (body res))) /\
      w1 = World (self w) (store w)
             (log w ++ [Requested (HttpRequest POST (api_url host (self w) path)
                                     q (Some form))])).
Proof.
  unfold _post, request. munfold. simpl.
  destruct (with_jurisdiction (self w) (default (VObj []) params)) as [q|e];
    simpl; intros [= <- <-]; eauto.
Qed.

(** C8 (as amended): for every POST made by submitRequest, a response whose
    status is 300 or more, 302 included, is a transport error: the callback
    is invoked once, with the status code as its (truthy) error and a message
    made of the status code and the body; nothing is decoded. *)
Theorem post_status_300_or_more_is_error (host : Host) (data : hval) (f : nat)
  (w w1 : world) (k : handler) (res : response) :
  300 <= statusCode res ->
  submitRequest host data (VFun f) w = (Ok k, w1) ->
  truthy (VNum (statusCode res)) = true /\
  k res w1 =
    (Ok tt,
     World (self w1) (store w1)
       (log w1 ++
        [Called f (VNum (statusCode res))
           (VStr (api_failed (statusCode res) +:+ "; " +:+ body res))])).
Proof.
  intros Hs Hk.
  assert (truthy (VNum (statusCode res)) = true) as Ht.
  { simpl. destruct (Z.eqb_spec (statusCode res) 0); [lia|reflexivity]. }
  split; [exact Ht|].
  unfold submitRequest in Hk. munfold. simpl in Hk.
  destruct (is_undefined (endpoint (self w))); [discriminate|].
  destruct (prepare_form (self w) data w) as [[form|e] w0]; [|discriminate].
  apply post_inv in Hk as [(e & [=] & _)|(q & [= ->] & ->)]. simpl.
  destruct (Z.leb_spec 300 (statusCode res)); [|lia].
  simpl in Ht. rewrite Ht. reflexivity.
Qed.

Lemma post_status_300_or_more_is_error_witness :
  truthy (VNum 302) = true /\
  exists k w1,
    submitRequest example_host example_data (VFun 0) example_world_with_data
      = (Ok k, w1) /\
    k (Response 302 "Found") w1 =
      (Ok tt,
       World (self w1) (store w1)
         (log w1 ++
          [Called 0%nat (VNum 302)
             (VStr "There was an error connecting to the Open311 API: 302; Found")])).
Proof.
  destruct (submitRequest example_host example_data (VFun 0)
              example_world_with_data) as [[k|e] w1] eqn:Hk;
    [|vm_compute in Hk; discriminate].
  destruct (post_status_300_or_more_is_error example_host example_data 0
              example_world_with_data w1 k (Response 302 "Found")) as [Ht Hr];
    [simpl; lia | exact Hk |].
  split; [exact Ht|]. exists k, w1. split; [reflexivity|exact Hr].
Defined.

(** C8, the claim as stated, fails: on a 302 response to the POST of
    submitRequest the callback is handed the truthy error 302 and an error
    message, not a falsy error and the raw body. *)
Lemma post_302_is_not_success :
  let w' := (run (submitRequest example_host example_data (VFun 0))
               (Response 302 "Found") example_world_with_data).2 in
  calls (log w') =
    [(0%nat, VNum 302,
      VStr "There was an error connecting to the Open311 API: 302; Found")] /\
  ~ (exists err, truthy err = false /\
                 calls (log w') = [(0%nat, err, VStr "Found")]).
Proof.
  split; [vm_compute; reflexivity|].
  intros (err & Hf & Hc). vm_compute in Hc. discriminate.
Qed.

(** ** Discovery caching *)

Lemma request_run (q : http_request) (k : handler) (w : world) :
  request q k w = (Ok k, World (self w) (store w) (log w ++ [Requested q])).
Proof. reflexivity. Qed.

(** C1 (the code departs from the claim): the candidate below advertises
    only text/xml, so its formats do not contain application/json, yet
    caching it sets the client's format to json.  The test on line 142 looks
    up the constant [true] ('application/json' !== -1) in the formats and
    takes the -1 of "not found" as truthy. *)
Theorem cacheOptions_sets_json_without_json_format (host : Host) (w : world) :
  indexOf (VArr [VStr "text/xml"]) (VStr "application/json") = -1 /\
  let w' := (_cacheOptions host xml_only_discovery cache_options (mret tt) w).2 in
  format (self w') = VStr "json" /\
  endpoint (self w') = VStr "http://example.org/v2/".
Proof. repeat split. Qed.

(** Asked for a candidate that is not there, [_cacheOptions] throws before
    it assigns anything. *)
Lemma cacheOptions_out_of_range (host : Host)
  (responseData : value) (options : list (string * value))
  (callback : M unit) (w : world)
  (all : value) (endpoints : list value) (n : Z) :
  truthy (opt options "cache") = true ->
  get_prop responseData "endpoints" = Ok all ->
  filter_result (endpoint_matches options) (collection_values all)
    = Ok endpoints ->
  opt options "index" = VNum n ->
  Z.of_nat (length endpoints) <= n ->
  _cacheOptions host responseData options callback w
    = (Throw (cannot_read "url" "undefined"), w).
Proof.
  intros Hc Hall Hf Hi Hn.
  unfold _cacheOptions. rewrite Hc. munfold. simpl.
  rewrite Hall, Hf, Hi. simpl.
  destruct (Z.leb_spec 0 n); [|reflexivity].
  rewrite nth_overflow; [reflexivity|lia].
Qed.

(** C5: when the discovery document has exactly N candidates matching the
    requested specification and type, a serviceDiscovery call with cache:true
    and an index of N or more ends in an error: the response handler throws
    the TypeError of reading [url] off the missing candidate.  Nothing was
    assigned before that, so the client (endpoint and format included) is as
    it was, and the callback that would report success is not invoked: the log
    holds the discovery request and nothing else. *)
Theorem selection_out_of_range_is_an_error (host : Host)
  (options callback : value) (res : response) (w : world)
  (ext : string) (data all : value) (endpoints : list value) (n : Z) :
  isFunction options = false ->
  truthy (opt (extend discovery_defaults options) "cache") = true ->
  opt (extend discovery_defaults options) "index" = VNum n ->
  is_undefined (discovery (self w)) = false ->
  url_extname host (discovery (self w)) = Ok ext ->
  statusCode res = 200 ->
  discovery_data host (self w) res = Some data ->
  get_prop data "endpoints" = Ok all ->
  filter_result (endpoint_matches (extend discovery_defaults options))
    (collection_values all) = Ok endpoints ->
  Z.of_nat (length endpoints) <= n ->
  run (serviceDiscovery host options callback) res w =
    (Throw (cannot_read "url" "undefined"),
     World (self w) (store w)
       (log w ++ [Requested (HttpRequest GET (discovery (self w)) VUndef None)])).
Proof.
  intros Hf Hc Hi Hd Hext Hs Hdata Hall Hfilter Hn.
  unfold run, serviceDiscovery. rewrite Hf.
  unfold mbind at 1, M_bind at 1, this at 1. rewrite Hd.
  unfold mbind at 1, M_bind at 1, lift at 1. rewrite Hext.
  rewrite request_run, Hs. cbn [Z.eqb Pos.eqb negb].
  unfold mbind at 1, M_bind at 1, this at 1. cbn [self].
  unfold discovery_data in Hdata.
  unfold mbind at 1, M_bind at 1, lift at 1.
  destruct (last_dot_piece (discovery (self w))) as [piece|]; [|discriminate].
  destruct (strict_eq piece (VStr "xml")).
  - unfold xml2jsParser_parseString.
    destruct (xml_read host (body res)) as [msg| |root]; [discriminate| |];
      injection Hdata as <-; cbn [truthy atom_truthy];
      unfold mbind at 1, M_bind at 1, mret at 1, M_ret at 1;
      apply (cacheOptions_out_of_range _ _ _ _ _ _ _ _ Hc Hall Hfilter Hi Hn).
  - unfold mbind at 1, M_bind at 1, JSON_parse_body. rewrite Hdata.
    unfold mret at 1, M_ret at 1.
    apply (cacheOptions_out_of_range _ _ _ _ _ _ _ _ Hc Hall Hfilter Hi Hn).
Qed.

Lemma selection_out_of_range_is_an_error_witness :
  run (serviceDiscovery example_host
         (VObj [("cache", VBool true); ("index", VNum 1)]) (VFun 0))
      (Response 200 discovery_json) example_world =
    (Throw (cannot_read "url" "undefined"),
     World (self example_world) (store example_world)
       (log example_world ++
        [Requested (HttpRequest GET (discovery (self example_world))
                      VUndef None)])).
Proof.
  apply (selection_out_of_range_is_an_error example_host
           (VObj [("cache", VBool true); ("index", VNum 1)]) (VFun 0)
           (Response 200 discovery_json) example_world
           "json" discovery_document
           (VArr [VObj [("specification",
                         VStr "http://wiki.open311.org/GeoReport_v2");
                        ("url", VStr "http://example.org/v2");
                        ("type", VStr "production");
                        ("formats", VArr [VStr "text/xml";
                                          VStr "application/json"])]])
           [VObj [("specification",
                   VStr "http://wiki.open311.org/GeoReport_v2");
                  ("url", VStr "http://example.org/v2");
                  ("type", VStr "production");
                  ("formats", VArr [VStr "text/xml";
                                    VStr "application/json"])]]
           1).
  - reflexivity.
  - reflexivity.
  - reflexivity.
  - reflexivity.
  - reflexivity.
  - reflexivity.
  - reflexivity.
  - reflexivity.
  - reflexivity.
  - simpl. lia.
Defined.

Lemma last_char_split (s : string) (c : ascii) :
  List.last (map Some (String.list_ascii_of_string s)) None = Some c ->
  exists t, s = t +:+ String c EmptyString.
Proof.
  induction s as [|a s IH]; [discriminate|].
  destruct s as [|b s'].
  - intros [= ->]. now exists EmptyString.
  - intros H. destruct (IH H) as [t Ht]. exists (String a t).
    change (String a (String b s') = String a (t +:+ String c EmptyString)).
    now rewrite <- Ht.
Qed.

Lemma slice_last_slash (url : value) (last : value) :
  slice_last url = Ok last ->
  strict_eq last (VStr "/") = true ->
  exists s, url = VStr (s +:+ "/").
Proof.
  destruct url as [[]| |]; simpl; try discriminate.
  - intros [= <-].
    destruct (List.last _ None) as [c|] eqn:Hc; simpl; [|discriminate].
    intros Heq. destruct (Ascii.eqb_spec c "/") as [->|]; [|discriminate].
    destruct (last_char_split _ _ Hc) as [t ->]. now exists t.
  - intros [= <-]. discriminate.
Qed.

(** Inversion of a sequenced computation that ran to completion. *)
Lemma bind_Ok_inv {A B} (m : M A) (f : A -> M B) (w w' : world) (b : B) :
  (m ≫= f) w = (Ok b, w') ->
  exists a w1, m w = (Ok a, w1) /\ f a w1 = (Ok b, w').
Proof.
  unfold mbind, M_bind. destruct (m w) as [[a|e] w1]; [eauto|discriminate].
Qed.

Lemma bind_inv {A B} (m : M A) (f : A -> M B) (w w' : world) (r : result B) :
  (m ≫= f) w = (r, w') ->
  (exists a w1, m w = (Ok a, w1) /\ f a w1 = (r, w')) \/
  (exists e, m w = (Throw e, w') /\ r = Throw e).
Proof.
  unfold mbind, M_bind. destruct (m w) as [[a|e] w1]; [eauto|].
  intros [= <- <-]. eauto.
Qed.

Lemma lift_inv {A} (r r' : result A) (w w' : world) :
  lift r w = (r', w') -> r' = r /\ w' = w.
Proof. now intros [= <- <-]. Qed.

Lemma set_format_endpoint (v : value) (w : world) :
  endpoint (self (set_format v w).2) = endpoint (self w).
Proof. reflexivity. Qed.

(** After a completed caching the endpoint is a string ending in a slash. *)
Lemma cacheOptions_endpoint (host : Host) (responseData : value)
  (options : list (string * value)) (callback err res : value) (w w' : world) :
  truthy (opt options "cache") = true ->
  _cacheOptions host responseData options (call callback err res) w
    = (Ok tt, w') ->
  exists s, endpoint (self w') = VStr (s +:+ "/").
Proof.
  intros Hc. unfold _cacheOptions. rewrite Hc. cbn [negb].
  intros H.
  apply bind_Ok_inv in H as (all & w1 & _ & H).
  apply bind_Ok_inv in H as (endpoints & w2 & _ & H).
  apply bind_Ok_inv in H as (candidate & w3 & _ & H).
  apply bind_Ok_inv in H as (url & w4 & _ & H).
  apply bind_Ok_inv in H as ([] & w5 & Hset & H).
  apply bind_Ok_inv in H as (last & w6 & Hlast & H).
  apply lift_inv in Hlast as [Hlast ->].
  apply bind_Ok_inv in H as ([] & w7 & Hfix & H).
  apply bind_Ok_inv in H as (formats & w8 & Hformats & H).
  apply lift_inv in Hformats as [_ ->].
  apply bind_Ok_inv in H as ([] & w9 & Hfmt & H).
  pose proof (call_keeps_self callback err res w9) as Hself.
  rewrite H in Hself. simpl in Hself. rewrite Hself.
  assert (endpoint (self w9) = endpoint (self w7)) as ->.
  { unfold set_format in Hfmt.
    match type of Hfmt with
    | (if ?c then _ else _) _ = _ => destruct c
    end; injection Hfmt as <-; reflexivity. }
  unfold set_endpoint, mret, M_ret in *.
  injection Hset as <-.
  destruct (strict_eq last (VStr "/")) eqn:Hs; simpl in Hfix;
    injection Hfix as <-; simpl.
  - apply (slice_last_slash url last); [now symmetry|exact Hs].
  - exists (to_string host url). reflexivity.
Qed.

(** C4 (as amended): in every client state reached by a serviceDiscovery
    call with cache:true that ran to completion on a 200 response, the
    endpoint field is a non-empty string ending in a slash, and the URL of
    every later Transport Adapter call is that string followed by the path,
    a dot and the format.  (An endpoint supplied by the caller at
    construction is used exactly as given; see the counterexample.) *)
Theorem cached_endpoint_ends_with_slash (host : Host)
  (options callback : value) (res : response) (w w' : world) :
  isFunction options = false ->
  truthy (opt (extend discovery_defaults options) "cache") = true ->
  statusCode res = 200 ->
  run (serviceDiscovery host options callback) res w = (Ok tt, w') ->
  exists s,
    endpoint (self w') = VStr (s +:+ "/") /\
    ends_with_slash (endpoint (self w')) = true /\
    forall path,
      api_url host (self w') path =
        VStr ((s +:+ "/") +:+ path +:+ "." +:+ to_string host (format (self w'))).
Proof.
  intros Hf Hc Hs Hrun.
  cut (exists s, endpoint (self w') = VStr (s +:+ "/")).
  { intros [s Hs']. exists s. split; [exact Hs'|]. split.
    - rewrite Hs'. clear. simpl.
      induction s as [|c s IH]; [reflexivity|].
      simpl. destruct s; [reflexivity|exact IH].
    - intros path. unfold api_url. rewrite Hs'. reflexivity. }
  unfold run, serviceDiscovery in Hrun. rewrite Hf in Hrun.
  match type of Hrun with
  | (let (_, _) := ?m w in _) = _ => destruct (m w) as [[k|e] w0] eqn:Hsync
  end; [|discriminate].
  apply bind_Ok_inv in Hsync as (c & w1 & _ & Hsync).
  destruct (is_undefined (discovery c)); [discriminate|].
  apply bind_Ok_inv in Hsync as (ext & w2 & _ & Hsync).
  unfold request in Hsync.
  apply bind_Ok_inv in Hsync as ([] & w3 & _ & Hsync).
  injection Hsync as <- <-.
  rewrite Hs in Hrun. cbn [Z.eqb Pos.eqb negb] in Hrun.
  apply bind_Ok_inv in Hrun as (c' & w4 & _ & Hrun).
  apply bind_Ok_inv in Hrun as (piece & w5 & _ & Hrun).
  destruct (strict_eq piece (VStr "xml")).
  - unfold xml2jsParser_parseString in Hrun.
    destruct (xml_read host (body res));
      apply bind_Ok_inv in Hrun as ([] & w6 & _ & Hrun);
      apply (cacheOptions_endpoint _ _ _ _ _ _ _ _ Hc Hrun).
  - apply bind_Ok_inv in Hrun as (data & w6 & _ & Hrun).
    apply (cacheOptions_endpoint _ _ _ _ _ _ _ _ Hc Hrun).
Qed.

Lemma cached_endpoint_ends_with_slash_witness :
  exists w' s,
    run (serviceDiscovery example_host (VObj [("cache", VBool true)]) (VFun 0))
        (Response 200 discovery_json) example_world = (Ok tt, w') /\
    endpoint (self w') = VStr (s +:+ "/") /\
    ends_with_slash (endpoint (self w')) = true /\
    forall path,
      api_url example_host (self w') path =
        VStr ((s +:+ "/") +:+ path +:+ "."
              +:+ to_string example_host (format (self w'))).
Proof.
  destruct (run (serviceDiscovery example_host (VObj [("cache", VBool true)])
                   (VFun 0)) (Response 200 discovery_json) example_world)
    as [r w'] eqn:Hrun.
  assert (r = Ok tt) as -> by (vm_compute in Hrun; congruence).
  destruct (cached_endpoint_ends_with_slash example_host
              (VObj [("cache", VBool true)]) (VFun 0)
              (Response 200 discovery_json) example_world w')
    as (s & H1 & H2 & H3).
  - reflexivity.
  - reflexivity.
  - reflexivity.
  - exact Hrun.
  - exists w', s. auto.
Defined.

(** C4, the claim as stated, fails for an endpoint supplied at
    construction: the constructor stores it unchanged, serviceList accepts it
    (it is not undefined) and issues its GET while the endpoint does not end
    in a slash. *)
Lemma caller_endpoint_is_not_normalized :
  exists c k w1,
    Open311 example_host [] (VObj [("endpoint", VStr "http://example.org/api")])
      = Ok c /\
    serviceList example_host (VFun 0) (World c ∅ []) = (Ok k, w1) /\
    requests (log w1) =
      [HttpRequest GET (VStr "http://example.org/apiservices.json")
         (VObj []) None] /\
    endpoint (self w1) = VStr "http://example.org/api" /\
    ends_with_slash (endpoint (self w1)) = false.
Proof.
  eexists _, _, _. repeat split; reflexivity.
Qed.

(** ** Date coercion *)

(** C7 (the code departs from the claim): the second test of
    [_convertDates] (line 382) asks for [requested_datetime] where it means
    [updated_datetime].  So a request that has a [requested_datetime] and no
    [updated_datetime] comes out WITH an [updated_datetime], the Invalid Date
    made from [undefined]; and a request that has only an [updated_datetime]
    string keeps it as a string. *)
Theorem convertDates_tests_the_wrong_field (host : Host) :
  _convertDates host
    (VArr [VObj [("requested_datetime", VStr "1970-01-01T00:00:01Z")]])
  = Ok (VArr [VObj [("requested_datetime",
                     VDate (Date_parse host "1970-01-01T00:00:01Z"));
                    ("updated_datetime", VDate None)]])
  /\
  _convertDates host
    (VArr [VObj [("updated_datetime", VStr "1970-01-01T00:00:01Z")]])
  = Ok (VArr [VObj [("updated_datetime", VStr "1970-01-01T00:00:01Z")]]).
Proof. split; reflexivity. Qed.

(** ** Decoding an XML service list *)

Lemma assoc_set_same {A} (k : string) (x : A) (props : list (string * A)) :
  assoc k (assoc_set k x props) = Some x.
Proof.
  induction props as [|[k' y] props IH]; simpl.
  - now rewrite String.eqb_refl.
  - destruct (String.eqb k' k) eqn:E; simpl.
    + now rewrite String.eqb_refl.
    + now rewrite E.
Qed.

Lemma xml2js_element_not_array (x : xml) (l : list value) :
  xml2js_element x <> VArr l.
Proof.
  destruct x as [name attrs text children]. simpl.
  destruct attrs, children; try discriminate.
  destruct (is_blank text); discriminate.
Qed.

(** Once a key holds an array, further children of that name are pushed. *)
Lemma assignOrPush_push (k : string) (vs l : list value)
  (obj : list (string * value)) :
  assoc k obj = Some (VArr l) ->
  assoc k (fold_left (fun obj kv => assignOrPush obj kv.1 kv.2)
             (map (fun v => (k, v)) vs) obj)
  = Some (VArr (l ++ vs)).
Proof.
  revert l obj. induction vs as [|v vs IH]; intros l obj H; simpl.
  - now rewrite app_nil_r.
  - unfold assignOrPush at 2. rewrite H.
    rewrite (IH (l ++ [v])); [|apply assoc_set_same].
    now rewrite <- app_assoc.
Qed.

(** [explicitArray: false]: one child stays as it is, two or more children
    of the same name become an array. *)
Lemma assignOrPush_children (k : string) (v : value) (vs : list value)
  (obj : list (string * value)) :
  assoc k obj = None ->
  (forall l, v <> VArr l) ->
  assoc k (fold_left (fun obj kv => assignOrPush obj kv.1 kv.2)
             (map (fun v => (k, v)) (v :: vs)) obj)
  = Some (match vs with
          | [] => v
          | _ => VArr (v :: vs)
          end).
Proof.
  intros Hnone Hv. simpl. unfold assignOrPush at 2. rewrite Hnone.
  destruct vs as [|v2 vs]; simpl.
  - apply assoc_set_same.
  - unfold assignOrPush at 2. rewrite assoc_set_same.
    destruct v as [a|l|p]; try (now contradiction (Hv l)).
    + rewrite (assignOrPush_push k vs [VAtom a; v2]); [reflexivity|].
      apply assoc_set_same.
    + rewrite (assignOrPush_push k vs [VObj p; v2]); [reflexivity|].
      apply assoc_set_same.
Qed.

Lemma with_jurisdiction_object (c : client) (props : list (string * value)) :
  exists q, with_jurisdiction c (VObj props) = Ok q.
Proof.
  unfold with_jurisdiction. destruct (truthy (jurisdiction c)); simpl; eauto.
Qed.

Lemma calls_app (l1 l2 : list event) : calls (l1 ++ l2) = calls l1 ++ calls l2.
Proof. apply omap_app. Qed.

(** Called without [params], the GET helper always gets its request out. *)
Lemma get_no_params host path (cb : value -> value -> M unit) w :
  exists q,
    _get host path None cb w =
      (Ok (fun res : response =>
             if negb (statusCode res =? 200)
             then cb (VBool true) (VStr (api_failed (statusCode res)))
             else cb (VBool false) (VStr (body res))),
       World (self w) (store w)
         (log w ++ [Requested (HttpRequest GET (api_url host (self w) path)
                                 q None)])).
Proof.
  destruct (with_jurisdiction_object (self w) []) as [q Hq]. exists q.
  unfold _get, request. munfold. simpl. rewrite Hq. reflexivity.
Qed.

(** What serviceList hands over for an XML service list, by the number of
    <service> elements (the behaviour behind C6): a root with two or more
    yields the sequence of their conversions in document order, but a root
    with exactly one yields that service's own conversion, which is not a
    sequence (the parser runs with explicitArray: false and serviceList
    passes [data.services.service] on untouched). *)
Theorem xml_service_list_single_is_unwrapped (host : Host) (f : nat)
  (res : response) (w : world) (text : string) (first : xml) (rest : list xml) :
  is_undefined (endpoint (self w)) = false ->
  strict_eq (format (self w)) (VStr "xml") = true ->
  statusCode res = 200 ->
  xml_read host (body res)
    = XmlRoot (Element "services" [] text (first :: rest)) ->
  Forall (fun x => xml_name x = "service"%string) (first :: rest) ->
  let '(r, w') := run (serviceList host (VFun f)) res w in
  r = Ok tt /\
  calls (log w') =
    calls (log w) ++
    [(f, VNull, match rest with
                | [] => xml2js_element first
                | _ => VArr (map xml2js_element (first :: rest))
                end)] /\
  (rest = [] -> forall l, xml2js_element first <> VArr l).
Proof.
  intros He Hx Hs Hbody Hnames.
  unfold run, serviceList.
  unfold mbind at 1, M_bind at 1, this at 1. rewrite He.
  match goal with
  | |- context [_get host ?p None ?cb w] =>
      destruct (get_no_params host p cb w) as [q ->]
  end.
  rewrite Hs. cbn [Z.eqb Pos.eqb negb truthy atom_truthy].
  unfold mbind at 1, M_bind at 1, this at 1. cbn [self].
  rewrite Hx. unfold xml2jsParser_parseString. cbn [body_text]. rewrite Hbody.
  cbn [truthy atom_truthy]. unfold mbind at 1, M_bind at 1, mret at 1, M_ret at 1.
  assert (get_prop (xml2js_document (Element "services" [] text (first :: rest)))
            "services"
          = Ok (xml2js_element (Element "services" [] text (first :: rest))))
    as Hroot by reflexivity.
  unfold mbind at 1, M_bind at 1, lift at 1. rewrite Hroot.
  assert (get_prop (xml2js_element (Element "services" [] text (first :: rest)))
            "service"
          = Ok (match rest with
                | [] => xml2js_element first
                | _ => VArr (map xml2js_element (first :: rest))
                end)) as Hsvc.
  { cbn [xml2js_element]. unfold get_prop. f_equal.
    assert (map (fun c => (xml_name c, xml2js_element c)) (first :: rest)
            = map (fun v => ("service"%string, v))
                (xml2js_element first :: map xml2js_element rest)) as ->.
    { clear -Hnames. change (xml2js_element first :: map xml2js_element rest)
        with (map xml2js_element (first :: rest)).
      induction Hnames as [|x l Hx _ IH]; [reflexivity|].
      simpl. rewrite Hx. f_equal. exact IH. }
    rewrite assignOrPush_children.
    - destruct rest; reflexivity.
    - destruct (is_blank text); reflexivity.
    - apply xml2js_element_not_array. }
  unfold mbind at 1, M_bind at 1, lift at 1. rewrite Hsvc.
  simpl. split; [reflexivity|]. split.
  - rewrite !calls_app. simpl. now rewrite app_nil_r.
  - intros _. apply xml2js_element_not_array.
Qed.

Lemma xml_service_list_single_is_unwrapped_witness :
  let '(r, w') := run (serviceList example_host (VFun 0))
                    (Response 200 one_service_xml) xml_world in
  r = Ok tt /\
  calls (log w') =
    calls (log xml_world) ++ [(0%nat, VNull, xml2js_element one_service)] /\
  (@nil xml = [] -> forall l, xml2js_element one_service <> VArr l).
Proof.
  apply (xml_service_list_single_is_unwrapped example_host 0
           (Response 200 one_service_xml) xml_world "" one_service []).
  - reflexivity.
  - reflexivity.
  - reflexivity.
  - reflexivity.
  - repeat constructor.
Defined.

(** C6 (the code departs from the claim): a body with exactly one
    <service> element is decoded to that service's mapping itself, not to a
    one-element sequence.  Nothing normalizes the cardinality that
    explicitArray: false collapses, although the JSON branch and a body with
    several services give a sequence, and submitRequest wraps its single
    request in one (line 260). *)
Lemma single_service_is_not_a_sequence :
  let w' := (run (serviceList example_host (VFun 0))
               (Response 200 one_service_xml) xml_world).2 in
  calls (log w') =
    [(0%nat, VNull,
      VObj [("service_code", VStr "001"); ("service_name", VStr "Pothole")])] /\
  ~ (exists services, calls (log w') = [(0%nat, VNull, VArr services)]).
Proof.
  split; [reflexivity|].
  intros [services H]. vm_compute in H. discriminate.
Qed.

(** ** The callback discipline *)

Lemma call_once (callback err res : value) :
  calls_back_once (call callback err res).
Proof.
  intros w r w' H.
  destruct (call_spec callback err res w) as [(f & _ & E)|(e & E)];
    rewrite E in H; injection H as <- <-; simpl; eauto 8.
Qed.

Lemma silent_bind_once {A} (m : M A) (f : A -> M unit) :
  silent m -> (forall a, calls_back_once (f a)) -> calls_back_once (m ≫= f).
Proof.
  intros Hm Hf w r w' H.
  apply bind_inv in H as [(a & w1 & H1 & H2)|(e & H1 & ->)].
  - apply Hm in H1. apply Hf in H2. now rewrite H1 in H2.
  - apply Hm in H1. right. eauto.
Qed.

Lemma silent_lift {A} (r : result A) : silent (lift r).
Proof. now intros w r' w' [= _ <-]. Qed.

Lemma silent_ret {A} (a : A) : silent (mret a : M A).
Proof. now intros w r' w' [= _ <-]. Qed.

Lemma silent_this : silent this.
Proof. now intros w r' w' [= _ <-]. Qed.

Lemma silent_set_endpoint (v : value) : silent (set_endpoint v).
Proof. now intros w r' w' [= _ <-]. Qed.

Lemma silent_set_format (v : value) : silent (set_format v).
Proof. now intros w r' w' [= _ <-]. Qed.

Lemma silent_JSON_parse_body host (text : string) :
  silent (JSON_parse_body host text).
Proof.
  unfold JSON_parse_body.
  destruct (JSON_parse host text); now intros w r' w' [= _ <-].
Qed.

Ltac silence :=
  repeat first
    [ apply silent_lift | apply silent_ret | apply silent_this
    | apply silent_set_endpoint | apply silent_set_format
    | apply silent_JSON_parse_body
    | match goal with
      | |- silent (if ?b then _ else _) => destruct b
      end ].

Lemma cacheOptions_once host (responseData : value)
  (options : list (string * value)) (callback err res : value) :
  calls_back_once
    (_cacheOptions host responseData options (call callback err res)).
Proof.
  unfold _cacheOptions.
  destruct (negb (truthy (opt options "cache"))); [apply call_once|].
  repeat (apply silent_bind_once; [silence|intros ?]).
  apply call_once.
Qed.

Ltac discipline :=
  repeat first
    [ apply call_once
    | apply cacheOptions_once
    | apply silent_bind_once; [silence|intros ?] ].

(** The decoding step shared by the five endpoint operations. *)
Lemma decode_discipline host (text : string)
  (K : value -> value -> M unit) (J : M unit) (w : world) r w' :
  (forall data, calls_back_once (K VNull data)) ->
  calls_back_once J ->
  (this ≫= (fun self : client =>
              if strict_eq (format self) (VStr "xml")
              then xml2jsParser_parseString host text K
              else J)) w = (r, w') ->
  (r = Ok tt /\ exists f e v, log w' = log w ++ [Called f e v]) \/
  (exists e, r = Throw e /\ log w' = log w) \/
  (strict_eq (format (self w)) (VStr "xml") = true /\
   exists msg, xml_read host text = XmlError msg).
Proof.
  intros HK HJ. unfold mbind, M_bind, this.
  destruct (strict_eq (format (self w)) (VStr "xml")) eqn:Hx.
  - unfold xml2jsParser_parseString.
    destruct (xml_read host text) as [msg| |root]; intros H.
    + right. right. eauto.
    + apply HK in H. tauto.
    + apply HK in H. tauto.
  - intros H. apply HJ in H. tauto.
Qed.

Lemma after_request (w w1 w' : world) (q : http_request) (r : result unit)
  (P0 P : Prop) :
  (P0 -> P) ->
  log w1 = log w ++ [Requested q] ->
  (r = Ok tt /\ exists f e v, log w' = log w1 ++ [Called f e v]) \/
  (exists e, r = Throw e /\ log w' = log w1) \/ P0 ->
  (r = Ok tt /\ exists f e v, calls (log w') = calls (log w) ++ [(f, e, v)]) \/
  (exists e, r = Throw e /\ calls (log w') = calls (log w)) \/ P.
Proof.
  intros HP H1 [(-> & f & e & v & H2)|[(e & -> & H2)|H0]].
  - left. split; [reflexivity|]. exists f, e, v.
    rewrite H2, H1, !calls_app. simpl. now rewrite app_nil_r.
  - right. left. exists e. split; [reflexivity|].
    rewrite H2, H1, calls_app. simpl. now rewrite app_nil_r.
  - right. right. auto.
Qed.

Ltac handler_discipline H :=
  cbn beta iota in H; cbn [negb truthy atom_truthy body_text] in H;
  first
    [ apply call_once in H; eapply (after_request _ _ _ _ _ False); cycle 2;
      [ destruct H as [H|H]; [left; exact H|right; left; exact H]
      | intros []
      | reflexivity ]
    | apply decode_discipline in H;
      [ eapply after_request; cycle 2;
        [ exact H
        | cbn [self]; intros [? ?]; repeat split; assumption
        | reflexivity ]
      | intros ?; cbn [truthy atom_truthy]; discipline
      | discipline ] ].

Lemma silent_bind {A B} (m : M A) (f : A -> M B) :
  silent m -> (forall a, silent (f a)) -> silent (m ≫= f).
Proof.
  intros Hm Hf w r w' H.
  apply bind_inv in H as [(a & w1 & H1 & H2)|(e & H1 & ->)].
  - apply Hm in H1. apply Hf in H2. congruence.
  - now apply Hm in H1.
Qed.

Lemma silent_throw {A} (e : exn) : silent (throw e : M A).
Proof. now intros w r' w' [= _ <-]. Qed.

Lemma silent_get_store : silent get_store.
Proof. now intros w r' w' [= _ <-]. Qed.

Lemma silent_put_store (h : heap) : silent (put_store h).
Proof. now intros w r' w' [= _ <-]. Qed.

Lemma silent_prepare_form (c : client) (data : hval) :
  silent (prepare_form c data).
Proof.
  unfold prepare_form.
  apply silent_bind; [apply silent_get_store|intros h].
  destruct (clone_deep data h) as [data' h'].
  apply silent_bind; [apply silent_put_store|intros _].
  destruct (is_undefined (apiKey c)); [apply silent_throw|].
  destruct (alloc_value (apiKey c) h') as [key h''].
  repeat (apply silent_bind;
          [first [apply silent_put_store | silence]|intros ?]).
  apply silent_ret.
Qed.

Lemma prepare_form_keeps_self (c : client) (data : hval) (w w0 : world)
  (r : result hval) :
  prepare_form c data w = (r, w0) -> self w0 = self w.
Proof.
  unfold prepare_form. munfold. simpl.
  destruct (clone_deep data (store w)) as [data' h'].
  destruct (is_undefined (apiKey c)); [now intros [= _ <-]|].
  destruct (alloc_value (apiKey c) h') as [key h''].
  destruct (hset_prop h'' data' "api_key" key) as [h1|]; simpl;
    [|now intros [= _ <-]].
  destruct (hget_prop h1 data' "attributes") as [attributes|]; simpl;
    [|now intros [= _ <-]].
  destruct (hisObject attributes); simpl.
  - destruct (flatten_attributes _ _ _) as [h2|]; simpl;
      [|now intros [= _ <-]].
    destruct (hdelete_prop h2 data' "attributes"); simpl; now intros [= _ <-].
  - destruct (hdelete_prop h1 data' "attributes"); simpl; now intros [= _ <-].
Qed.

Ltac service_requests_case :=
  match goal with
  | |- (let (_, _) := ?m ?w0 in _) = _ -> _ =>
      let Hsync := fresh "Hsync" in
      let Hp := fresh "Hp" in
      let Hget := fresh "Hget" in
      let H := fresh "H" in
      destruct (m w0) as [?r2 ?w2] eqn:Hsync;
      apply bind_inv in Hsync as [(?p' & ?w1 & Hp & Hget)|(?e' & Hp & ->)];
      [ match type of Hp with
        | (if ?c then _ else _) _ = (_, ?w1) =>
            assert (w1 = w0) as -> by (destruct c; now injection Hp as _ <-)
        end;
        apply get_inv in Hget as [(?e0 & -> & ->)|(?q' & -> & ->)];
        [ intros [= <- <-]; right; left; eauto
        | intros H;
          match type of H with
          | context [negb ?b] => destruct b
          end; handler_discipline H ]
      | match type of Hp with
        | (if ?c then _ else _) _ = (_, ?w1) =>
            assert (w1 = w0) as -> by (destruct c; now injection Hp as _ <-)
        end;
        intros [= <- <-]; right; left; eauto ]
  end.

(** C2 (as amended): for every public operation and every transport
    response that the XML decoder does not reject, the caller's callback is
    invoked at most once: exactly once when the call runs to completion
    (with the transport error, or with the decoded result), and not at all
    when an exception is thrown (a configuration error, a body JSON.parse
    rejects, a decoded value that lacks the shape the operation unwraps).
    Nothing is promised about a body the XML parser rejects. *)
Theorem callback_invoked_at_most_once (host : Host) (i : invocation)
  (res : response) (w : world) (r : result unit) (w' : world) :
  run (invoke host i) res w = (r, w') ->
  (r = Ok tt /\
   exists f e v, calls (log w') = calls (log w) ++ [(f, e, v)]) \/
  (exists e, r = Throw e /\ calls (log w') = calls (log w)) \/
  (decodes_xml i (self w) = true /\
   transport_ok i res = true /\
   exists msg, xml_read host (body res) = XmlError msg).
Proof.
  unfold run. destruct i; cbn [invoke decodes_xml transport_ok].
  - (* serviceDiscovery *)
    unfold serviceDiscovery.
    destruct (isFunction options).
    all: unfold mbind at 1, M_bind at 1, this at 1.
    all: destruct (is_undefined (discovery (self w)));
      [intros [= <- <-]; right; left; eauto|].
    all: unfold mbind at 1, M_bind at 1, lift at 1.
    all: destruct (url_extname host (discovery (self w)));
      [|intros [= <- <-]; right; left; eauto].
    all: rewrite request_run.
    all: destruct (statusCode res =? 200); cbn [negb];
      [|intros H; handler_discipline H].
    all: unfold mbind at 1, M_bind at 1, this at 1; cbn [self].
    all: unfold mbind at 1, M_bind at 1, lift at 1.
    all: destruct (last_dot_piece (discovery (self w))) as [piece|];
      [|intros [= <- <-]; right; left; eexists; split; [reflexivity|];
        cbn [log]; rewrite calls_app; simpl; now rewrite app_nil_r].
    all: destruct (strict_eq piece (VStr "xml")).
    all: try (unfold xml2jsParser_parseString;
              destruct (xml_read host (body res)) as [msg| |root];
              [intros _; right; right; repeat split; eexists; reflexivity| |]).
    all: cbn [truthy atom_truthy].
    all: intros Hrun; eapply (after_request _ _ _ _ _ False); cycle 2;
      [match type of Hrun with
       | ?m ?w0 = _ =>
           assert (calls_back_once m) as Hm by discipline;
           apply Hm in Hrun; destruct Hrun as [Hrun|Hrun];
           [left; exact Hrun|right; left; exact Hrun]
       end
      |intros []
      |reflexivity].
  - unfold serviceList. unfold mbind at 1, M_bind at 1, this at 1.
    destruct (is_undefined (endpoint (self w))).
    { intros [= <- <-]. right. left. eauto. }
    match goal with
    | |- context [_get host ?p None ?cb w] =>
        destruct (get_no_params host p cb w) as [q ->]
    end.
    intros H. destruct (statusCode res =? 200); handler_discipline H.
  - unfold serviceDefinition. unfold mbind at 1, M_bind at 1, this at 1.
    destruct (is_undefined (endpoint (self w))).
    { intros [= <- <-]. right. left. eauto. }
    match goal with
    | |- context [_get host ?p None ?cb w] =>
        destruct (get_no_params host p cb w) as [q ->]
    end.
    intros H. destruct (statusCode res =? 200); handler_discipline H.
  - (* submitRequest *)
    unfold submitRequest. unfold mbind at 1, M_bind at 1, this at 1.
    destruct (is_undefined (endpoint (self w))).
    { intros [= <- <-]. right. left. eauto. }
    unfold mbind at 1, M_bind at 1.
    destruct (prepare_form (self w) data w) as [[form|e] w0] eqn:Hprep.
    2:{ intros [= <- <-]. right. left. exists e. split; [reflexivity|].
        now rewrite (silent_prepare_form _ _ _ _ _ Hprep). }
    pose proof (silent_prepare_form _ _ _ _ _ Hprep) as Hlog.
    pose proof (prepare_form_keeps_self _ _ _ _ _ Hprep) as Hself.
    destruct (_post host "requests" form None _ w0) as [r0 w1] eqn:Hpost.
    apply post_inv in Hpost as [(e & -> & ->)|(q & -> & ->)].
    { intros [= <- <-]. right. left. exists e. now rewrite Hlog. }
    rewrite <- Hlog, <- Hself.
    intros H. destruct (Z.leb_spec 300 (statusCode res)).
    + assert (negb (statusCode res =? 0) = true) as Ht.
      { destruct (Z.eqb_spec (statusCode res) 0); [lia|reflexivity]. }
      cbn beta iota in H. cbn [truthy atom_truthy] in H. rewrite Ht in H.
      handler_discipline H.
    + handler_discipline H.
  - unfold token. unfold mbind at 1, M_bind at 1, this at 1.
    destruct (is_undefined (endpoint (self w))).
    { intros [= <- <-]. right. left. eauto. }
    match goal with
    | |- context [_get host ?p None ?cb w] =>
        destruct (get_no_params host p cb w) as [q ->]
    end.
    intros H. destruct (statusCode res =? 200); handler_discipline H.
  - (* serviceRequests *)
    unfold serviceRequests. unfold mbind at 1, M_bind at 1, this at 1.
    destruct (is_undefined (endpoint (self w))).
    { intros [= <- <-]. right. left. eauto. }
    destruct (isObject serviceRequestId && negb (isArray serviceRequestId))%bool.
    all: match goal with
         | |- context [if isFunction ?p then _ else _] =>
             destruct (isFunction p)
         end.
    all: service_requests_case.
Qed.

Lemma callback_invoked_at_most_once_witness :
  exists r w',
    run (invoke example_host (ServiceList (VFun 0))) (Response 200 "[]")
        example_world = (r, w') /\
    ((r = Ok tt /\
      exists f e v, calls (log w') = calls (log example_world) ++ [(f, e, v)]) \/
     (exists e, r = Throw e /\ calls (log w') = calls (log example_world)) \/
     (decodes_xml (ServiceList (VFun 0)) (self example_world) = true /\
      transport_ok (ServiceList (VFun 0)) (Response 200 "[]") = true /\
      exists msg, xml_read example_host (body (Response 200 "[]"))
                  = XmlError msg)).
Proof.
  destruct (run (invoke example_host (ServiceList (VFun 0))) (Response 200 "[]")
              example_world) as [r w'] eqn:Hrun.
  exists r, w'. split; [reflexivity|].
  apply (callback_invoked_at_most_once example_host (ServiceList (VFun 0))
           (Response 200 "[]") example_world r w').
  exact Hrun.
Defined.

(** C2, the claim as stated, fails: on a 200 response whose body
    JSON.parse rejects, serviceList throws the SyntaxError out of its
    response handler and the callback is not invoked at all. *)
Lemma malformed_json_skips_the_callback :
  let '(r, w') := run (invoke example_host (ServiceList (VFun 0)))
                    (Response 200 "<html>") example_world in
  r = Throw (SyntaxError "Unexpected token in JSON") /\
  calls (log w') = [] /\
  length (calls (log w')) <> 1%nat.
Proof. repeat split. simpl. discriminate. Qed.

(** The other way the claim fails, by the missing [return] after
    [if (err) callback(err)]: an XML discovery document the parser rejects
    makes the uncached serviceDiscovery invoke the callback twice, first with
    the parse error, then with [(null, undefined)]. *)
Lemma rejected_xml_discovery_calls_back_twice :
  let '(r, w') := run (invoke example_host (ServiceDiscovery (VFun 0) VUndef))
                    (Response 200 "<html") xml_world in
  r = Ok tt /\
  calls (log w') =
    [(0%nat, VError (Error "Non-whitespace before first tag."), VUndef);
     (0%nat, VNull, VUndef)].
Proof. repeat split. Qed.

(** ** The deep clone and the caller's store *)

Lemma fresh_outside (h0 h : heap) :
  h0 ⊆ h -> h0 !! fresh (dom h) = None.
Proof.
  intros Hsub. apply not_elem_of_dom.
  intros Hin. apply (is_fresh (dom h)).
  now apply (subseteq_dom _ _ Hsub).
Qed.

Lemma write_outside (h0 h : heap) (l : positive) (o : hobj) :
  h0 ⊆ h -> h0 !! l = None -> h0 ⊆ <[l := o]> h.
Proof. intros Hsub Hl. now apply insert_subseteq_r. Qed.

Lemma clone_each_frame (h0 : heap)
  (rec : hval -> clone_state -> option (hval * clone_state))
  (result : positive) :
  (forall v st v' st',
      rec v st = Some (v', st') -> clone_inv h0 st -> clone_inv h0 st') ->
  h0 !! result = None ->
  forall entries st st',
    clone_each rec result entries st = Some st' ->
    clone_inv h0 st -> clone_inv h0 st'.
Proof.
  intros Hrec Hres entries.
  induction entries as [|[key x] entries IH]; intros st st' H Hinv; simpl in H.
  - now injection H as <-.
  - destruct (rec x st) as [[x' [stack h]]|] eqn:Hx; [|discriminate].
    apply Hrec in Hx; [|exact Hinv].
    apply IH in H; [exact H|].
    destruct Hx as [Hsub Hstack]. split; simpl in *.
    + now apply write_outside.
    + exact Hstack.
Qed.

Lemma baseClone_frame (h0 : heap) (fuel : nat) :
  forall v st v' st',
    baseClone fuel v st = Some (v', st') ->
    clone_inv h0 st ->
    clone_inv h0 st' /\ outside h0 v'.
Proof.
  induction fuel as [|fuel IH]; intros v st v' st' H Hinv; [discriminate|].
  simpl in H. destruct v as [a|l].
  - injection H as <- <-. split; [exact Hinv|exact I].
  - destruct st as [stack h].
    destruct (stack_find l stack) as [l'|] eqn:Hfind.
    + injection H as <- <-. split; [exact Hinv|].
      apply (proj2 Hinv l l' Hfind).
    + destruct (clone_each _ _ _ _) as [st1|] eqn:Heach; [|discriminate].
      injection H as <- <-.
      destruct Hinv as [Hsub Hstack]. simpl in Hsub, Hstack.
      pose proof (fresh_outside h0 h Hsub) as Hfresh.
      split; [|exact Hfresh].
      eapply clone_each_frame; [| |exact Heach|].
      * intros v st v' st' Hv Hi. now apply (IH v st v' st').
      * exact Hfresh.
      * split; simpl.
        -- now apply write_outside.
        -- intros a b. destruct (Pos.eqb l a); [|apply Hstack].
           intros [= E]. now rewrite <- E.
Qed.

Lemma stack_find_None (l : positive) (stack : list (positive * positive)) :
  stack_find l stack = None -> l ∉ stack_keys stack.
Proof.
  unfold stack_keys. induction stack as [|[a b] stack IH]; simpl.
  - intros _. set_solver.
  - destruct (Pos.eqb_spec a l) as [->|Hne]; [discriminate|].
    intros H. specialize (IH H). set_solver.
Qed.

Lemma unvisited_mono (h0 : heap) (stack stack' : list (positive * positive)) :
  stack_keys stack ⊆ stack_keys stack' ->
  (unvisited h0 stack' <= unvisited h0 stack)%nat.
Proof. intros H. apply subseteq_size. set_solver. Qed.

Lemma unvisited_push (h0 : heap) (stack : list (positive * positive))
  (l r : positive) :
  is_Some (h0 !! l) -> l ∉ stack_keys stack ->
  (unvisited h0 ((l, r) :: stack) < unvisited h0 stack)%nat.
Proof.
  intros Hl Hnot. apply subset_size.
  apply elem_of_dom in Hl. unfold stack_keys in *. simpl.
  split; [set_solver|].
  intros Hsub. assert (l ∈ dom h0 ∖ list_to_set (stack.*1)) as Hin by set_solver.
  apply Hsub in Hin. set_solver.
Qed.

Lemma map_snd_imap {A} (f : nat -> string) (l : list A) :
  map snd (imap (fun i x => (f i, x)) l) = l.
Proof.
  revert f. induction l as [|x l IH]; intros f; [reflexivity|].
  simpl. f_equal. exact (IH (f ∘ S)).
Qed.

Lemma clone_entries_closed (h0 : heap) (o : hobj) :
  Forall (hval_closed h0) (hobj_values o) ->
  Forall (hval_closed h0) (map snd (clone_entries o)).
Proof.
  unfold hobj_values, clone_entries. intros H.
  apply Forall_app in H as [He Hf].
  destruct (elements o) as [l|]; [|exact Hf].
  simpl in He. now rewrite map_snd_imap.
Qed.

Lemma clone_each_total (h0 : heap) (n : nat)
  (rec : hval -> clone_state -> option (hval * clone_state))
  (result : positive) :
  (forall v stack h,
      clone_inv h0 (stack, h) -> hval_closed h0 v ->
      (unvisited h0 stack < n)%nat ->
      exists v' stack' h',
        rec v (stack, h) = Some (v', (stack', h')) /\
        clone_inv h0 (stack', h') /\
        stack_keys stack ⊆ stack_keys stack') ->
  h0 !! result = None ->
  forall entries stack h,
    Forall (hval_closed h0) (map snd entries) ->
    clone_inv h0 (stack, h) ->
    (unvisited h0 stack < n)%nat ->
    exists stack' h',
      clone_each rec result entries (stack, h) = Some (stack', h') /\
      stack_keys stack ⊆ stack_keys stack'.
Proof.
  intros Hrec Hres entries.
  induction entries as [|[key x] entries IH]; intros stack h Hcl Hinv Hn; simpl.
  - eauto.
  - apply Forall_cons in Hcl as [Hx Hcl].
    destruct (Hrec x stack h Hinv Hx Hn)
      as (x' & stack1 & h1 & -> & [Hsub Hstack] & Hkeys).
    destruct (IH stack1 (<[result := obj_set (deref h1 result) key x']> h1))
      as (stack' & h' & -> & Hkeys'); [exact Hcl| | |].
    + split; simpl; [now apply write_outside|exact Hstack].
    + pose proof (unvisited_mono h0 _ _ Hkeys). lia.
    + exists stack', h'. split; [reflexivity|]. set_solver.
Qed.

Lemma baseClone_total (h0 : heap) :
  store_closed h0 ->
  forall fuel v stack h,
    clone_inv h0 (stack, h) -> hval_closed h0 v ->
    (unvisited h0 stack < fuel)%nat ->
    exists v' stack' h',
      baseClone fuel v (stack, h) = Some (v', (stack', h')) /\
      clone_inv h0 (stack', h') /\
      stack_keys stack ⊆ stack_keys stack'.
Proof.
  intros Hclosed fuel.
  induction fuel as [|fuel IH]; intros v stack h Hinv Hv Hfuel; [lia|].
  simpl. destruct v as [a|l].
  - exists (HAtom a), stack, h. auto.
  - destruct (stack_find l stack) as [l'|] eqn:Hfind.
    + exists (HRef l'), stack, h. auto.
    + destruct Hv as [o Ho].
      pose proof Hinv as [Hsub Hstack]. simpl in Hsub, Hstack.
      assert (deref h l = o) as ->.
      { unfold deref. now rewrite (lookup_weaken _ _ _ _ Ho Hsub). }
      pose proof (fresh_outside h0 h Hsub) as Hfresh.
      pose proof (stack_find_None _ _ Hfind) as Hnot.
      pose proof (unvisited_push h0 stack l (fresh (dom h))
                    (ex_intro _ o Ho) Hnot) as Hless.
      destruct (clone_each_total h0 fuel (baseClone fuel) (fresh (dom h)) IH
                  Hfresh (clone_entries o) ((l, fresh (dom h)) :: stack)
                  (<[fresh (dom h) := clone_shell o]> h))
        as (stack' & h' & Heach & Hkeys).
      * apply clone_entries_closed. exact (Hclosed l o Ho).
      * split; simpl; [now apply write_outside|].
        intros a b. destruct (Pos.eqb l a); [|apply Hstack].
        intros [= E]. now rewrite <- E.
      * lia.
      * rewrite Heach. exists (HRef (fresh (dom h))), stack', h'.
        split; [reflexivity|]. split.
        -- eapply clone_each_frame; [| |exact Heach|].
           ++ intros v st v' st' Hvv Hi.
              now apply (baseClone_frame h0 fuel v st v' st').
           ++ exact Hfresh.
           ++ split; simpl; [now apply write_outside|].
              intros a b. destruct (Pos.eqb l a); [|apply Hstack].
              intros [= E]. now rewrite <- E.
        -- unfold stack_keys in *. simpl in Hkeys. set_solver.
Qed.

Lemma clone_deep_frame (h : heap) (data : hval) :
  store_closed h -> hval_closed h data ->
  forall data' h',
    clone_deep data h = (data', h') -> h ⊆ h' /\ outside h data'.
Proof.
  intros Hclosed Hdata data' h'. unfold clone_deep.
  destruct (baseClone_total h Hclosed (S (S (size h))) data [] h)
    as (v' & stack' & h1 & Hclone & _ & _).
  - split; simpl; [reflexivity|discriminate].
  - exact Hdata.
  - unfold unvisited, stack_keys. simpl.
    rewrite difference_empty_L, size_dom. lia.
  - rewrite Hclone. intros [= <- <-].
    destruct (baseClone_frame h _ _ _ _ _ Hclone) as [[Hsub _] Hout].
    + split; simpl; [reflexivity|discriminate].
    + auto.
Qed.

(** Induction on tree values, through the lists they nest. *)
Lemma value_nested_ind (P : value -> Prop) :
  (forall a, P (VAtom a)) ->
  (forall l, Forall P l -> P (VArr l)) ->
  (forall props, Forall (fun kv => P kv.2) props -> P (VObj props)) ->
  forall v, P v.
Proof.
  intros Hatom Harr Hobj.
  fix IH 1. intros [a|l|props].
  - apply Hatom.
  - apply Harr. induction l as [|x l IHl]; constructor; [apply IH|exact IHl].
  - apply Hobj. induction props as [|[k x] props IHp]; constructor;
      [apply IH|exact IHp].
Qed.

Lemma alloc_list_frame (rec : value -> heap -> hval * heap) (l : list value) :
  Forall (fun x => forall h, h ⊆ (rec x h).2) l ->
  forall h, h ⊆ (alloc_list rec l h).2.
Proof.
  induction 1 as [|x l Hx _ IH]; intros h; simpl; [reflexivity|].
  destruct (rec x h) as [x' h1] eqn:E1.
  destruct (alloc_list rec l h1) as [rest' h2] eqn:E2. simpl.
  transitivity h1; [specialize (Hx h); now rewrite E1 in Hx|].
  specialize (IH h1). now rewrite E2 in IH.
Qed.

Lemma alloc_props_frame (rec : value -> heap -> hval * heap)
  (l : list (string * value)) :
  Forall (fun kv => forall h, h ⊆ (rec kv.2 h).2) l ->
  forall h, h ⊆ (alloc_props rec l h).2.
Proof.
  induction 1 as [|[k x] l Hx _ IH]; intros h; simpl; [reflexivity|].
  destruct (rec x h) as [x' h1] eqn:E1.
  destruct (alloc_props rec l h1) as [rest' h2] eqn:E2. simpl.
  transitivity h1; [specialize (Hx h); simpl in Hx; now rewrite E1 in Hx|].
  specialize (IH h1). now rewrite E2 in IH.
Qed.

Lemma alloc_value_frame (v : value) :
  forall h, h ⊆ (alloc_value v h).2.
Proof.
  induction v as [a|l IH|props IH] using value_nested_ind; intros h.
  - reflexivity.
  - cbn [alloc_value].
    pose proof (alloc_list_frame alloc_value l IH h) as Hgo.
    destruct (alloc_list alloc_value l h) as [xs h1]. simpl in *.
    apply insert_subseteq_r; [|exact Hgo].
    apply fresh_outside. exact Hgo.
  - cbn [alloc_value].
    pose proof (alloc_props_frame alloc_value props IH h) as Hgo.
    destruct (alloc_props alloc_value props h) as [ps h1]. simpl in *.
    apply insert_subseteq_r; [|exact Hgo].
    apply fresh_outside. exact Hgo.
Qed.

Lemma hset_prop_frame (h0 h h' : heap) (v : hval) (k : string) (x : hval) :
  hset_prop h v k x = Ok h' -> h0 ⊆ h -> outside h0 v -> h0 ⊆ h'.
Proof.
  destruct v as [[]|l]; simpl; try discriminate; try (now intros [= <-]).
  intros [= <-] Hsub Hout. now apply write_outside.
Qed.

Lemma hdelete_prop_frame (h0 h h' : heap) (v : hval) (k : string) :
  hdelete_prop h v k = Ok h' -> h0 ⊆ h -> outside h0 v -> h0 ⊆ h'.
Proof.
  destruct v as [[]|l]; simpl; try discriminate; try (now intros [= <-]).
  intros [= <-] Hsub Hout. now apply write_outside.
Qed.

Lemma flatten_attributes_frame (h0 : heap) (data : hval) (keys : list string) :
  outside h0 data ->
  forall h h', flatten_attributes data keys h = Ok h' -> h0 ⊆ h -> h0 ⊆ h'.
Proof.
  intros Hout. induction keys as [|key keys IH]; intros h h'; simpl.
  - now intros [= <-].
  - unfold mbind, result_bind.
    destruct (hget_prop h data "attributes") as [attributes|]; [|discriminate].
    destruct (hget_prop h attributes key) as [x|]; [|discriminate].
    destruct (hset_prop h data _ x) as [h1|] eqn:Hset; [|discriminate].
    intros H Hsub. apply (IH h1 h' H).
    eapply hset_prop_frame; eauto.
Qed.

Lemma prepare_form_frame (c : client) (data : hval) (w w1 : world)
  (r : result hval) :
  store_closed (store w) -> hval_closed (store w) data ->
  prepare_form c data w = (r, w1) ->
  store w ⊆ store w1 /\ (forall form, r = Ok form -> outside (store w) form).
Proof.
  intros Hclosed Hdata. unfold prepare_form. munfold. simpl.
  destruct (clone_deep data (store w)) as [data' h'] eqn:Hclone.
  destruct (clone_deep_frame _ _ Hclosed Hdata _ _ Hclone) as [Hsub Hout].
  destruct (is_undefined (apiKey c)).
  { intros [= <- <-]. split; [exact Hsub|discriminate]. }
  pose proof (alloc_value_frame (apiKey c) h') as Halloc.
  destruct (alloc_value (apiKey c) h') as [key h''].
  simpl in Halloc. assert (store w ⊆ h'') as Hsub2 by (etransitivity; eauto).
  destruct (hset_prop h'' data' "api_key" key) as [h1|] eqn:Hset; simpl.
  2:{ intros [= <- <-]. split; [exact Hsub|discriminate]. }
  pose proof (hset_prop_frame _ _ _ _ _ _ Hset Hsub2 Hout) as Hsub3.
  destruct (hget_prop h1 data' "attributes") as [attributes|]; simpl.
  2:{ intros [= <- <-]. split; [exact Hsub3|discriminate]. }
  destruct (hisObject attributes); simpl.
  - destruct (flatten_attributes _ _ _) as [h2|] eqn:Hflat; simpl.
    2:{ intros [= <- <-]. split; [exact Hsub3|discriminate]. }
    pose proof (flatten_attributes_frame _ _ _ Hout _ _ Hflat Hsub3) as Hsub4.
    destruct (hdelete_prop h2 data' "attributes") as [h3|] eqn:Hdel; simpl;
      intros [= <- <-]; (split; [|try discriminate]).
    + eapply hdelete_prop_frame; eauto.
    + now intros form [= <-].
    + exact Hsub3.
  - destruct (hdelete_prop h1 data' "attributes") as [h3|] eqn:Hdel; simpl;
      intros [= <- <-]; (split; [|try discriminate]).
    + eapply hdelete_prop_frame; eauto.
    + now intros form [= <-].
    + exact Hsub3.
Qed.

Lemma requests_app (l1 l2 : list event) :
  requests (l1 ++ l2) = requests l1 ++ requests l2.
Proof. apply omap_app. Qed.

Lemma offline_bind {A B} (m : M A) (f : A -> M B) :
  offline m -> (forall a, offline (f a)) -> offline (m ≫= f).
Proof.
  intros Hm Hf w r w' H.
  apply bind_inv in H as [(a & w1 & H1 & H2)|(e & H1 & ->)].
  - apply Hm in H1 as [? ?]. apply Hf in H2 as [? ?]. split; congruence.
  - now apply Hm in H1.
Qed.

Lemma offline_lift {A} (r : result A) : offline (lift r).
Proof. now intros w r' w' [= _ <-]. Qed.

Lemma offline_ret {A} (a : A) : offline (mret a : M A).
Proof. now intros w r' w' [= _ <-]. Qed.

Lemma offline_this : offline this.
Proof. now intros w r' w' [= _ <-]. Qed.

Lemma offline_console (v : value) : offline (emit (ConsoleError v)).
Proof.
  intros w r' w' [= _ <-]. simpl. split; [reflexivity|].
  rewrite requests_app. simpl. now rewrite app_nil_r.
Qed.

Lemma offline_call (callback err res : value) :
  offline (call callback err res).
Proof.
  intros w r w' H.
  destruct (call_spec callback err res w) as [(f & _ & E)|(e & E)];
    rewrite E in H; injection H as _ <-; [|auto].
  simpl. split; [reflexivity|].
  rewrite requests_app. simpl. now rewrite app_nil_r.
Qed.

Lemma offline_JSON_parse_body host (text : string) :
  offline (JSON_parse_body host text).
Proof.
  unfold JSON_parse_body.
  destruct (JSON_parse host text); now intros w r' w' [= _ <-].
Qed.

Ltac offline_steps :=
  repeat first
    [ apply offline_call | apply offline_console
    | apply offline_lift | apply offline_ret | apply offline_this
    | apply offline_JSON_parse_body
    | apply offline_bind; [|intros ?]
    | match goal with
      | |- offline (if ?b then _ else _) => destruct b
      | |- offline (xml2jsParser_parseString ?h ?t ?k) =>
          unfold xml2jsParser_parseString; destruct (xml_read h t)
      end ].

(** C10: for every caller-supplied data object in a store without dangling
    references, a submitRequest call, from its synchronous part to the end of
    its response handler, leaves every object of the caller's store as it
    was: the api_key injection, the attribute[...] keys and the deletion of
    attributes all land on the deep clone, which is made of objects the
    store did not have before; the form handed to the transport is that
    clone. *)
Theorem submitRequest_leaves_caller_data (host : Host) (data : hval)
  (callback : value) (res : response) (w : world) :
  store_closed (store w) ->
  hval_closed (store w) data ->
  let w' := (run (submitRequest host data callback) res w).2 in
  (forall l o, store w !! l = Some o -> store w' !! l = Some o) /\
  (forall q form,
      requests (log w') = requests (log w) ++ [q] ->
      req_form q = Some form -> outside (store w) form).
Proof.
  intros Hclosed Hdata. cbv zeta.
  destruct (run (submitRequest host data callback) res w) as [r w'] eqn:Hrun.
  cbn [snd].
  assert (forall (w0 : world) (x : http_request),
             log w0 = log w -> requests (log w0) <> requests (log w) ++ [x])
    as Hnone.
  { intros w0 x -> H. apply (f_equal length) in H.
    rewrite length_app in H. simpl in H. lia. }
  unfold run, submitRequest in Hrun.
  match type of Hrun with
  | (let (_, _) := ?m w in _) = _ => destruct (m w) as [[k|e] w1] eqn:Hsync
  end.
  - apply bind_Ok_inv in Hsync as (c & w0 & [= <- <-] & Hsync).
    destruct (is_undefined (endpoint (self w))); [discriminate|].
    apply bind_Ok_inv in Hsync as (form & w2 & Hprep & Hpost).
    destruct (prepare_form_frame _ _ _ _ _ Hclosed Hdata Hprep) as [Hsub Hout].
    specialize (Hout form eq_refl).
    pose proof (silent_prepare_form _ _ _ _ _ Hprep) as Hlog.
    apply post_inv in Hpost as [(e & [=] & _)|(q & [= ->] & ->)].
    assert (store w' = store w2 /\
            requests (log w') = requests (log w) ++
              [HttpRequest POST (api_url host (self w2) "requests") q
                 (Some form)]) as [Hstore Hreq].
    { cbn beta in Hrun.
      match type of Hrun with
      | ?m ?w0 = _ =>
          assert (offline m) as Hoff
            by (destruct (300 <=? statusCode res); cbn beta; offline_steps)
      end.
      apply Hoff in Hrun as [Hs Hr]. split; [exact Hs|].
      rewrite Hr. simpl. rewrite requests_app, Hlog. reflexivity. }
    rewrite Hstore. split.
    + intros l o Hl. now apply (lookup_weaken _ _ _ _ Hl Hsub).
    + intros q0 form' H. rewrite Hreq in H.
      apply app_inj_tail in H as [_ <-]. simpl. now intros [= <-].
  - injection Hrun as <- <-.
    apply bind_inv in Hsync as [(c & w0 & [= <- <-] & Hsync)|(e' & [=] & _)].
    destruct (is_undefined (endpoint (self w))).
    { injection Hsync as _ <-. split; [auto|].
      intros q form H. now apply Hnone in H. }
    apply bind_inv in Hsync as [(form & w2 & Hprep & Hpost)|(e' & Hprep & _)].
    + destruct (prepare_form_frame _ _ _ _ _ Hclosed Hdata Hprep) as [Hsub _].
      pose proof (silent_prepare_form _ _ _ _ _ Hprep) as Hlog.
      apply post_inv in Hpost as [(e0 & _ & ->)|(q & [=] & _)].
      split; [intros l o Hl; now apply (lookup_weaken _ _ _ _ Hl Hsub)|].
      intros q form' H. now apply Hnone in H.
    + destruct (prepare_form_frame _ _ _ _ _ Hclosed Hdata Hprep) as [Hsub _].
      pose proof (silent_prepare_form _ _ _ _ _ Hprep) as Hlog.
      split; [intros l o Hl; now apply (lookup_weaken _ _ _ _ Hl Hsub)|].
      intros q form' H. now apply Hnone in H.
Qed.

Lemma example_store_closed : store_closed example_store.
Proof.
  intros l o Hl. unfold example_store in Hl.
  apply lookup_insert_Some in Hl as [[<- <-]|[_ Hl]].
  - repeat constructor. now exists
      (HObject None [("A", HAtom (AStr "1")); ("B", HAtom (AStr "2"))]).
  - apply lookup_singleton_Some in Hl as [<- <-]. repeat constructor.
Qed.

Lemma submitRequest_leaves_caller_data_witness :
  let w' := (run (submitRequest example_host example_data (VFun 0))
               (Response 200 "{}") example_world_with_data).2 in
  (forall l o, store example_world_with_data !! l = Some o ->
               store w' !! l = Some o) /\
  (forall q form,
      requests (log w') = requests (log example_world_with_data) ++ [q] ->
      req_form q = Some form -> outside (store example_world_with_data) form).
Proof.
  apply (submitRequest_leaves_caller_data example_host example_data (VFun 0)
           (Response 200 "{}") example_world_with_data).
  - exact example_store_closed.
  - now exists (HObject None [("service_code", HAtom (AStr "001"));
                              ("attributes", HRef 2%positive)]).
Defined.

(** The README's submission, run: the caller's two objects are as they
    were, and the form is a clone carrying the key and the flattened
    attributes. *)
Example submitRequest_on_example_data :
  let w' := (run (submitRequest example_host example_data (VFun 0))
               (Response 200 "{}") example_world_with_data).2 in
  store w' !! 1%positive =
    Some (HObject None [("service_code", HAtom (AStr "001"));
                        ("attributes", HRef 2%positive)]) /\
  store w' !! 2%positive =
    Some (HObject None [("A", HAtom (AStr "1")); ("B", HAtom (AStr "2"))]) /\
  requests (log w') =
    [HttpRequest POST (VStr "http://example.org/api/requests.json") (VObj [])
       (Some (HRef 3%positive))] /\
  store w' !! 3%positive =
    Some (HObject None [("service_code", HAtom (AStr "001"));
                        ("api_key", HAtom (AStr "secret"));
                        ("attribute[A]", HAtom (AStr "1"));
                        ("attribute[B]", HAtom (AStr "2"))]) /\
  calls (log w') = [(0%nat, VNull, VObj [])].
Proof. vm_compute. repeat split. Qed.

(** * Further properties of the code *)

(** ** The constructor *)

Lemma assoc_set_other {A} (k k' : string) (x : A) (props : list (string * A)) :
  k <> k' -> assoc k' (assoc_set k x props) = assoc k' props.
Proof.
  intros Hne. induction props as [|[k0 y] props IH]; simpl.
  - destruct (String.eqb_spec k k'); [contradiction|reflexivity].
  - destruct (String.eqb_spec k0 k) as [->|Hk]; simpl.
    + destruct (String.eqb_spec k k'); [contradiction|reflexivity].
    + destruct (String.eqb_spec k0 k'); [reflexivity|exact IH].
Qed.

Lemma assoc_None_not_key {A} (k : string) (props : list (string * A)) :
  k ∉ map fst props -> assoc k props = None.
Proof.
  induction props as [|[k0 y] props IH]; simpl; [reflexivity|].
  intros Hnot. destruct (String.eqb_spec k0 k) as [->|Hk].
  - exfalso. apply Hnot. left.
  - apply IH. intros Hin. apply Hnot. now right.
Qed.

(** [_.extend]: a key of the source wins, any other key keeps the target's
    value. *)
Lemma assoc_extend (k : string) (props target : list (string * value)) :
  NoDup (map fst props) ->
  assoc k (extend target (VObj props)) =
    match assoc k props with
    | Some v => Some v
    | None => assoc k target
    end.
Proof.
  unfold extend. simpl. intros Hnd. revert target.
  induction props as [|[k1 v1] props IH]; intros target; simpl; [reflexivity|].
  apply NoDup_cons in Hnd as [Hnot Hnd]. rewrite (IH Hnd). simpl in Hnot.
  destruct (String.eqb_spec k1 k) as [->|Hk].
  - rewrite (assoc_None_not_key k props Hnot). apply assoc_set_same.
  - destruct (assoc k props); [reflexivity|]. now apply assoc_set_other.
Qed.

Lemma assoc_defaults_format (k : string) (props : list (string * value)) :
  assoc k (defaults_format props) =
    if String.eqb k "format"
    then Some (if is_nullish (opt props "format")
               then VStr "json" else opt props "format")
    else assoc k props.
Proof.
  unfold defaults_format, opt.
  destruct (String.eqb_spec k "format") as [->|Hk].
  - destruct (is_nullish (default VUndef (assoc "format" props))) eqn:Hu.
    + apply assoc_set_same.
    + destruct (assoc "format" props); [reflexivity|discriminate].
  - destruct (is_nullish _); [|reflexivity].
    apply assoc_set_other. congruence.
Qed.

Lemma client_of_options (props : list (string * value)) :
  NoDup (map fst props) ->
  client_of_props (defaults_format (extend [] (VObj props))) =
    Client (opt props "endpoint")
           (if is_nullish (opt props "format")
            then VStr "json" else opt props "format")
           (opt props "jurisdiction") (opt props "apiKey")
           (opt props "discovery").
Proof.
  intros Hnd. unfold client_of_props.
  rewrite !assoc_defaults_format. simpl.
  unfold opt. rewrite !(assoc_extend _ props [] Hnd). simpl.
  f_equal; destruct (assoc _ props); reflexivity.
Qed.

(** X1: constructed from a configuration object, the client holds the
    object's endpoint, jurisdiction, apiKey and discovery as given (undefined
    where the object has none), and its format, or "json" when the object
    gives no format or gives undefined or null for it. *)
Theorem constructor_copies_options (host : Host)
  (Cities : list (list (string * value))) (props : list (string * value)) :
  NoDup (map fst props) ->
  Open311 host Cities (VObj props) =
    Ok (Client (opt props "endpoint")
               (if is_nullish (opt props "format")
                then VStr "json" else opt props "format")
               (opt props "jurisdiction") (opt props "apiKey")
               (opt props "discovery")).
Proof.
  intros Hnd. unfold Open311. simpl. now rewrite client_of_options.
Qed.

Lemma constructor_copies_options_witness :
  Open311 example_host example_cities
    (VObj [("endpoint", VStr "http://example.org/api/");
           ("format", VNull); ("apiKey", VStr "k")])
  = Ok (Client (VStr "http://example.org/api/") (VStr "json") VUndef
               (VStr "k") VUndef).
Proof.
  apply (constructor_copies_options example_host example_cities
           [("endpoint", VStr "http://example.org/api/");
            ("format", VNull); ("apiKey", VStr "k")]).
  repeat constructor; set_solver.
Defined.

(** X2: constructed from a bare identifier, the client is the one
    constructed from the first registry entry whose id is that identifier:
    the entry's endpoint, jurisdiction, apiKey and discovery, and its format,
    or "json" when the entry gives no format or gives undefined or null for
    it. *)
Theorem constructor_uses_registry_entry (host : Host)
  (Cities : list (list (string * value))) (id : value)
  (city : list (string * value)) :
  isObject id = false ->
  List.find (fun city => strict_eq (opt city "id") id) Cities = Some city ->
  NoDup (map fst city) ->
  Open311 host Cities id =
    Ok (Client (opt city "endpoint")
               (if is_nullish (opt city "format")
                then VStr "json" else opt city "format")
               (opt city "jurisdiction") (opt city "apiKey")
               (opt city "discovery")).
Proof.
  intros Hid Hfind Hnd. unfold Open311. rewrite Hid.
  unfold opt in Hfind. rewrite Hfind. now rewrite client_of_options.
Qed.

Lemma constructor_uses_registry_entry_witness :
  Open311 example_host example_cities (VStr "bloomington") =
    Ok (Client (VStr "https://bloomington.in.gov/crm/open311/v2/")
               (VStr "json") (VStr "bloomington.in.gov") VUndef VUndef).
Proof.
  apply (constructor_uses_registry_entry example_host example_cities
           (VStr "bloomington")
           [("id", VStr "bloomington");
            ("name", VStr "Bloomington, IN");
            ("endpoint", VStr "https://bloomington.in.gov/crm/open311/v2/");
            ("jurisdiction", VStr "bloomington.in.gov")]).
  - reflexivity.
  - reflexivity.
  - repeat constructor; set_solver.
Defined.

(** X3: constructed from an identifier no registry entry has, the
    constructor throws an Error that quotes the identifier; no client comes
    into being. *)
Theorem constructor_rejects_unknown_id (host : Host)
  (Cities : list (list (string * value))) (id : value) :
  isObject id = false ->
  Forall (fun city => strict_eq (opt city "id") id = false) Cities ->
  Open311 host Cities id =
    Throw (Error (dquote +:+ to_string host id +:+ dquote
                  +:+ " is not in our list of prepopulatable endpoints")).
Proof.
  intros Hid Hall. unfold Open311. rewrite Hid.
  assert (List.find (fun city => strict_eq (default VUndef (assoc "id" city)) id)
            Cities = None) as ->; [|reflexivity].
  induction Hall as [|city l Hc _ IH]; simpl; [reflexivity|].
  unfold opt in Hc. now rewrite Hc.
Qed.

Lemma constructor_rejects_unknown_id_witness :
  Open311 example_host example_cities (VStr "atlantis") =
    Throw (Error (dquote +:+ "atlantis" +:+ dquote
                  +:+ " is not in our list of prepopulatable endpoints")).
Proof.
  apply (constructor_rejects_unknown_id example_host example_cities
           (VStr "atlantis")).
  - reflexivity.
  - repeat constructor.
Defined.

(** ** What an operation touches *)

Lemma offline_set_endpoint (v : value) : offline (set_endpoint v).
Proof. now intros w r' w' [= _ <-]. Qed.

Lemma offline_set_format (v : value) : offline (set_format v).
Proof. now intros w r' w' [= _ <-]. Qed.

Lemma offline_cacheOptions host (responseData : value)
  (options : list (string * value)) (callback err res : value) :
  offline (_cacheOptions host responseData options (call callback err res)).
Proof.
  unfold _cacheOptions.
  destruct (negb (truthy (opt options "cache"))); [apply offline_call|].
  repeat (apply offline_bind;
          [first [apply offline_lift | apply offline_set_endpoint
                 | apply offline_set_format
                 | match goal with
                   | |- offline (if ?b then _ else _) => destruct b
                   end;
                   first [apply offline_set_endpoint | apply offline_set_format
                         | apply offline_ret]]
          |intros ?]).
  apply offline_call.
Qed.

Ltac offline_all :=
  repeat first
    [ apply offline_cacheOptions | apply offline_call | apply offline_console
    | apply offline_lift | apply offline_ret | apply offline_this
    | apply offline_JSON_parse_body
    | apply offline_bind; [|intros ?]
    | match goal with
      | |- offline (if ?b then _ else _) => destruct b
      | |- offline (xml2jsParser_parseString ?h ?t ?k) =>
          unfold xml2jsParser_parseString; destruct (xml_read h t)
      end ].

Lemma keeps_client_bind {A B} (m : M A) (f : A -> M B) :
  keeps_client m -> (forall a, keeps_client (f a)) -> keeps_client (m ≫= f).
Proof.
  intros Hm Hf w r w' H.
  apply bind_inv in H as [(a & w1 & H1 & H2)|(e & H1 & ->)].
  - apply Hm in H1. apply Hf in H2. congruence.
  - now apply Hm in H1.
Qed.

Lemma keeps_client_lift {A} (r : result A) : keeps_client (lift r).
Proof. now intros w r' w' [= _ <-]. Qed.

Lemma keeps_client_ret {A} (a : A) : keeps_client (mret a : M A).
Proof. now intros w r' w' [= _ <-]. Qed.

Lemma keeps_client_this : keeps_client this.
Proof. now intros w r' w' [= _ <-]. Qed.

Lemma keeps_client_emit (e : event) : keeps_client (emit e).
Proof. now intros w r' w' [= _ <-]. Qed.

Lemma keeps_client_call (callback err res : value) :
  keeps_client (call callback err res).
Proof.
  intros w r w' H. pose proof (call_keeps_self callback err res w) as Hs.
  now rewrite H in Hs.
Qed.

Lemma keeps_client_JSON_parse_body host (text : string) :
  keeps_client (JSON_parse_body host text).
Proof.
  unfold JSON_parse_body.
  destruct (JSON_parse host text); now intros w r' w' [= _ <-].
Qed.

Ltac client_steps :=
  repeat first
    [ apply keeps_client_call | apply keeps_client_emit
    | apply keeps_client_lift | apply keeps_client_ret | apply keeps_client_this
    | apply keeps_client_JSON_parse_body
    | apply keeps_client_bind; [|intros ?]
    | match goal with
      | |- keeps_client (if ?b then _ else _) => destruct b
      | |- keeps_client (xml2jsParser_parseString ?h ?t ?k) =>
          unfold xml2jsParser_parseString; destruct (xml_read h t)
      end ].

(** The synchronous part of a call: it throws with nothing logged, or logs
    exactly its one HTTP request; it never touches the client, and only a
    submission touches the store. *)
Lemma invoke_sync (host : Host) (i : invocation) (w w1 : world)
  (r : result handler) :
  invoke host i w = (r, w1) ->
  self w1 = self w /\
  (is_submission i = false -> store w1 = store w) /\
  ((exists e, r = Throw e /\ log w1 = log w) \/
   (exists k q, r = Ok k /\ log w1 = log w ++ [Requested q])).
Proof.
  destruct i as [options callback|callback|service_code callback
                |data callback|tok callback|serviceRequestId params callback];
    cbn [invoke is_submission].
  - unfold serviceDiscovery. destruct (isFunction options).
    all: intros H.
    all: apply bind_inv in H as [(c & w0 & [= <- <-] & H)|(e & [=] & _)].
    all: destruct (is_undefined (discovery (self w)));
      [injection H as <- <-; eauto 7|].
    all: apply bind_inv in H as [(ext & w2 & [= _ <-] & H)|(e & [= _ <-] & ->)];
      [|eauto 7].
    all: rewrite request_run in H; injection H as <- <-; simpl; eauto 8.
  - unfold serviceList. intros H.
    apply bind_inv in H as [(c & w0 & [= <- <-] & H)|(e & [=] & _)].
    destruct (is_undefined (endpoint (self w))); [injection H as <- <-; eauto 7|].
    apply get_inv in H as [(e & -> & ->)|(q & -> & ->)]; simpl; eauto 8.
  - unfold serviceDefinition. intros H.
    apply bind_inv in H as [(c & w0 & [= <- <-] & H)|(e & [=] & _)].
    destruct (is_undefined (endpoint (self w))); [injection H as <- <-; eauto 7|].
    apply get_inv in H as [(e & -> & ->)|(q & -> & ->)]; simpl; eauto 8.
  - unfold submitRequest. intros H.
    apply bind_inv in H as [(c & w0 & [= <- <-] & H)|(e & [=] & _)].
    destruct (is_undefined (endpoint (self w))); [injection H as <- <-; eauto 7|].
    apply bind_inv in H as [(form & w2 & Hprep & H)|(e & Hprep & ->)].
    + pose proof (prepare_form_keeps_self _ _ _ _ _ Hprep) as Hs.
      pose proof (silent_prepare_form _ _ _ _ _ Hprep) as Hl.
      apply post_inv in H as [(e & -> & ->)|(q & -> & ->)]; simpl;
        rewrite Hl; (split; [exact Hs|]); (split; [discriminate|]); eauto 6.
    + pose proof (prepare_form_keeps_self _ _ _ _ _ Hprep) as Hs.
      pose proof (silent_prepare_form _ _ _ _ _ Hprep) as Hl.
      split; [exact Hs|]. split; [discriminate|]. eauto.
  - unfold token. intros H.
    apply bind_inv in H as [(c & w0 & [= <- <-] & H)|(e & [=] & _)].
    destruct (is_undefined (endpoint (self w))); [injection H as <- <-; eauto 7|].
    apply get_inv in H as [(e & -> & ->)|(q & -> & ->)]; simpl; eauto 8.
  - unfold serviceRequests. intros H.
    apply bind_inv in H as [(c & w0 & [= <- <-] & H)|(e & [=] & _)].
    destruct (is_undefined (endpoint (self w))); [injection H as <- <-; eauto 7|].
    destruct (isObject serviceRequestId && negb (isArray serviceRequestId))%bool.
    all: match type of H with
         | context [if isFunction ?p then _ else _] => destruct (isFunction p)
         end.
    all: apply bind_inv in H as [(p' & w2 & Hp & H)|(e & Hp & ->)].
    all: match type of Hp with
         | (if ?c then _ else _) _ = (_, ?w3) =>
             assert (w3 = w) as -> by (destruct c; now injection Hp as _ <-)
         end.
    all: try (apply get_inv in H as [(e & -> & ->)|(q & -> & ->)]; simpl).
    all: eauto 8.
Qed.

Ltac handler_cases H tac :=
  match type of H with
  | invoke _ ?i _ = _ =>
      destruct i as [?options ?callback|?callback|?service_code ?callback
                    |?data ?callback|?tok ?callback
                    |?serviceRequestId ?params ?callback];
      cbn [invoke endpoint_operation] in *
  end;
  [ unfold serviceDiscovery in H;
    match type of H with
    | context [if isFunction ?p then _ else _] => destruct (isFunction p)
    end;
    apply bind_Ok_inv in H as (?c & ?w0 & _ & H);
    (destruct (is_undefined (discovery _)); [discriminate|]);
    apply bind_Ok_inv in H as (?ext & ?w2 & _ & H);
    rewrite request_run in H; injection H as <- _
  | unfold serviceList in H;
    apply bind_Ok_inv in H as (?c & ?w0 & _ & H);
    (destruct (is_undefined (endpoint _)); [discriminate|]);
    apply get_inv in H as [(?e & [=] & _)|(?q & [= ->] & _)]
  | unfold serviceDefinition in H;
    apply bind_Ok_inv in H as (?c & ?w0 & _ & H);
    (destruct (is_undefined (endpoint _)); [discriminate|]);
    apply get_inv in H as [(?e & [=] & _)|(?q & [= ->] & _)]
  | unfold submitRequest in H;
    apply bind_Ok_inv in H as (?c & ?w0 & _ & H);
    (destruct (is_undefined (endpoint _)); [discriminate|]);
    apply bind_Ok_inv in H as (?form & ?w2 & _ & H);
    apply post_inv in H as [(?e & [=] & _)|(?q & [= ->] & _)]
  | unfold token in H;
    apply bind_Ok_inv in H as (?c & ?w0 & _ & H);
    (destruct (is_undefined (endpoint _)); [discriminate|]);
    apply get_inv in H as [(?e & [=] & _)|(?q & [= ->] & _)]
  | unfold serviceRequests in H;
    apply bind_Ok_inv in H as (?c & ?w0 & _ & H);
    (destruct (is_undefined (endpoint _)); [discriminate|]);
    match type of H with
    | context [if (isObject ?x && negb (isArray ?x))%bool then _ else _] =>
        destruct (isObject x && negb (isArray x))%bool
    end;
    match type of H with
    | context [if isFunction ?p then _ else _] => destruct (isFunction p)
    end;
    apply bind_Ok_inv in H as (?p' & ?w2 & _ & H);
    apply get_inv in H as [(?e & [=] & _)|(?q & [= ->] & _)] ];
  intros res; cbn beta;
  repeat match goal with
         | |- context [if negb ?b then _ else _] => destruct b; cbn [negb]
         | |- context [if 300 <=? ?s then _ else _] => destruct (300 <=? s)
         end;
  tac.

Lemma handler_offline (host : Host) (i : invocation) (w w1 : world)
  (k : handler) :
  invoke host i w = (Ok k, w1) -> forall res, offline (k res).
Proof. intros H. handler_cases H ltac:(offline_all). Qed.

Lemma handler_keeps_client (host : Host) (i : invocation) (w w1 : world)
  (k : handler) :
  endpoint_operation i = true ->
  invoke host i w = (Ok k, w1) -> forall res, keeps_client (k res).
Proof.
  intros He H. handler_cases H ltac:(try discriminate; client_steps).
Qed.

(** X4: serviceList, serviceDefinition, submitRequest, token and
    serviceRequests never modify the client: whatever the arguments and the
    response, endpoint, format, jurisdiction, apiKey and discovery are after
    the call what they were before.  Only serviceDiscovery writes to it. *)
Theorem endpoint_operations_keep_client (host : Host) (i : invocation)
  (res : response) (w : world) :
  endpoint_operation i = true ->
  self (run (invoke host i) res w).2 = self w.
Proof.
  intros He. unfold run.
  destruct (invoke host i w) as [[k|e] w1] eqn:Hsync.
  - destruct (invoke_sync _ _ _ _ _ Hsync) as (Hs & _ & _).
    destruct (k res w1) as [r w'] eqn:Hk.
    apply (handler_keeps_client _ _ _ _ _ He Hsync) in Hk. simpl. congruence.
  - now destruct (invoke_sync _ _ _ _ _ Hsync) as (Hs & _ & _).
Qed.

Lemma endpoint_operations_keep_client_witness :
  self (run (invoke example_host
               (ServiceRequests (VStr "101") (VObj []) (VFun 0)))
          (Response 200 "[]") example_world).2
  = self example_world.
Proof.
  apply (endpoint_operations_keep_client example_host
           (ServiceRequests (VStr "101") (VObj []) (VFun 0))
           (Response 200 "[]") example_world).
  reflexivity.
Defined.

(** X5: a call is a single round trip.  From its synchronous part to the
    end of its response handler an operation issues at most one HTTP request:
    exactly one when the synchronous part gets through, none when it throws. *)
Theorem one_request_per_call (host : Host) (i : invocation)
  (res : response) (w : world) :
  exists qs,
    requests (log (run (invoke host i) res w).2) = requests (log w) ++ qs /\
    (length qs <= 1)%nat /\
    (length qs = 1%nat <-> exists k w1, invoke host i w = (Ok k, w1)).
Proof.
  unfold run.
  destruct (invoke host i w) as [[k|e] w1] eqn:Hsync.
  - destruct (invoke_sync _ _ _ _ _ Hsync)
      as (_ & _ & [(e & [=] & _)|(k' & q & _ & Hlog)]).
    destruct (k res w1) as [r w'] eqn:Hk.
    apply (handler_offline _ _ _ _ _ Hsync) in Hk as [_ Hr].
    exists [q]. simpl. rewrite Hr, Hlog, requests_app. simpl.
    split; [reflexivity|]. split; [lia|]. split; eauto.
  - destruct (invoke_sync _ _ _ _ _ Hsync)
      as (_ & _ & [(e' & _ & Hlog)|(k' & q & [=] & _)]).
    exists []. simpl. rewrite Hlog, app_nil_r.
    split; [reflexivity|]. split; [lia|].
    split; [discriminate|]. intros (k & w2 & [=]).
Qed.

Lemma invoke_keeps_client_sync (host : Host) (i : invocation)
  (w w1 : world) (r : result handler) :
  invoke host i w = (r, w1) -> self w1 = self w.
Proof. intros H. now destruct (invoke_sync _ _ _ _ _ H) as (Hs & _). Qed.

(** The handler of a call that passes [f] as its callback. *)
Ltac handler_of H Hcb :=
  match type of H with
  | invoke _ ?i _ = _ =>
      destruct i as [?options ?callback|?callback|?service_code ?callback
                    |?data ?callback|?tok ?callback
                    |?serviceRequestId ?params ?callback];
      cbn [invoke calls_back endpoint_operation transport_ok post_process] in *
  end;
  [ unfold serviceDiscovery in H; destruct Hcb as [Hcb ->]; rewrite Hcb in H;
    apply bind_Ok_inv in H as (?c & ?w0 & _ & H);
    (destruct (is_undefined (discovery _)); [discriminate|]);
    apply bind_Ok_inv in H as (?ext & ?w2 & _ & H);
    rewrite request_run in H; injection H as <- _
  | unfold serviceList in H; subst;
    apply bind_Ok_inv in H as (?c & ?w0 & _ & H);
    (destruct (is_undefined (endpoint _)); [discriminate|]);
    apply get_inv in H as [(?e & [=] & _)|(?q & [= ->] & _)]
  | unfold serviceDefinition in H; subst;
    apply bind_Ok_inv in H as (?c & ?w0 & _ & H);
    (destruct (is_undefined (endpoint _)); [discriminate|]);
    apply get_inv in H as [(?e & [=] & _)|(?q & [= ->] & _)]
  | unfold submitRequest in H; subst;
    apply bind_Ok_inv in H as (?c & ?w0 & _ & H);
    (destruct (is_undefined (endpoint _)); [discriminate|]);
    apply bind_Ok_inv in H as (?form & ?w2 & _ & H);
    apply post_inv in H as [(?e & [=] & _)|(?q & [= ->] & _)]
  | unfold token in H; subst;
    apply bind_Ok_inv in H as (?c & ?w0 & _ & H);
    (destruct (is_undefined (endpoint _)); [discriminate|]);
    apply get_inv in H as [(?e & [=] & _)|(?q & [= ->] & _)]
  | unfold serviceRequests in H;
    destruct Hcb as (Hcb & ?Hparams & ->);
    apply bind_Ok_inv in H as (?c & ?w0 & _ & H);
    (destruct (is_undefined (endpoint _)); [discriminate|]);
    rewrite Hcb, Hparams in H;
    apply bind_Ok_inv in H as (?p' & ?w2 & _ & H);
    apply get_inv in H as [(?e & [=] & _)|(?q & [= ->] & _)] ];
  cbn beta.

(** X7: a GET that does not return status 200 (a 404 or 500, but a 201 or
    204 as well) is reported, never thrown: the callback of serviceList,
    serviceDefinition, token or serviceRequests is invoked once with the
    error [true] and the message that ends in the status code, and the body
    is not decoded. *)
Theorem get_failure_is_reported (host : Host) (i : invocation) (f : nat)
  (w w1 : world) (k : handler) (res : response) :
  calls_back f i ->
  endpoint_operation i = true ->
  is_submission i = false ->
  invoke host i w = (Ok k, w1) ->
  statusCode res <> 200 ->
  k res w1 =
    (Ok tt,
     World (self w1) (store w1)
       (log w1 ++ [Called f (VBool true) (VStr (api_failed (statusCode res)))])).
Proof.
  intros Hcb He Hs H Hstatus.
  handler_of H Hcb; try discriminate.
  all: destruct (Z.eqb_spec (statusCode res) 200); [contradiction|].
  all: reflexivity.
Qed.

Lemma get_failure_is_reported_witness :
  exists k w1,
    invoke example_host (ServiceList (VFun 0)) example_world = (Ok k, w1) /\
    k (Response 500 "oops") w1 =
      (Ok tt,
       World (self w1) (store w1)
         (log w1 ++
          [Called 0%nat (VBool true)
             (VStr "There was an error connecting to the Open311 API: 500")])).
Proof.
  destruct (invoke example_host (ServiceList (VFun 0)) example_world)
    as [[k|e] w1] eqn:H; [|vm_compute in H; discriminate].
  exists k, w1. split; [reflexivity|].
  apply (get_failure_is_reported example_host (ServiceList (VFun 0)) 0
           example_world w1 k (Response 500 "oops")).
  - reflexivity.
  - reflexivity.
  - reflexivity.
  - exact H.
  - simpl. lia.
Defined.

(** X8: a JSON success is passed through.  When the transport takes the
    response for a success (200 for a GET, below 300 for the POST), the
    client's format is not "xml" and JSON.parse accepts the body, the callback
    of an endpoint operation is invoked once with a null error and the parsed
    value; serviceRequests puts the value through _convertDates first. *)
Theorem json_success_is_passed_through (host : Host) (i : invocation) (f : nat)
  (w w1 : world) (k : handler) (res : response) (data data' : value) :
  calls_back f i ->
  endpoint_operation i = true ->
  invoke host i w = (Ok k, w1) ->
  transport_ok i res = true ->
  strict_eq (format (self w1)) (VStr "xml") = false ->
  JSON_parse host (body res) = Some data ->
  post_process host i data = Ok data' ->
  k res w1 =
    (Ok tt, World (self w1) (store w1) (log w1 ++ [Called f VNull data'])).
Proof.
  intros Hcb He H Hok Hfmt Hjson Hpost.
  handler_of H Hcb; try discriminate.
  all: try (apply negb_true_iff in Hok).
  all: rewrite Hok; cbn [negb truthy atom_truthy body_text].
  all: unfold mbind at 1, M_bind at 1, this at 1; rewrite Hfmt.
  all: unfold mbind at 1, M_bind at 1, JSON_parse_body; rewrite Hjson.
  all: unfold mret at 1, M_ret at 1.
  all: try (injection Hpost as <-; reflexivity).
  unfold mbind at 1, M_bind at 1, lift at 1. rewrite Hpost. reflexivity.
Qed.

Lemma json_success_is_passed_through_witness :
  exists k w1,
    invoke example_host (SubmitRequest example_data (VFun 0))
      example_world_with_data = (Ok k, w1) /\
    k (Response 201 "{}") w1 =
      (Ok tt, World (self w1) (store w1)
                (log w1 ++ [Called 0%nat VNull (VObj [])])).
Proof.
  destruct (invoke example_host (SubmitRequest example_data (VFun 0))
              example_world_with_data) as [[k|e] w1] eqn:H;
    [|vm_compute in H; discriminate].
  exists k, w1. split; [reflexivity|].
  apply (json_success_is_passed_through example_host
           (SubmitRequest example_data (VFun 0)) 0
           example_world_with_data w1 k (Response 201 "{}") (VObj []) (VObj [])).
  - reflexivity.
  - reflexivity.
  - exact H.
  - reflexivity.
  - pose proof (invoke_keeps_client_sync example_host
                  (SubmitRequest example_data (VFun 0))
                  example_world_with_data w1 (Ok k) H) as Hs.
    rewrite Hs. reflexivity.
  - reflexivity.
  - reflexivity.
Defined.

(** X9: decoding an XML request response.  submitRequest, token and
    serviceRequests all unwrap [service_requests.request]; submitRequest hands
    it to the callback wrapped in a one-element sequence, token hands it over
    as it is, serviceRequests puts it through _convertDates. *)
Theorem xml_request_is_unwrapped (host : Host) (i : invocation) (f : nat)
  (w w1 : world) (k : handler) (res : response)
  (root : xml) (service_requests request result : value) :
  calls_back f i ->
  unwraps_request i = true ->
  invoke host i w = (Ok k, w1) ->
  transport_ok i res = true ->
  strict_eq (format (self w1)) (VStr "xml") = true ->
  xml_read host (body res) = XmlRoot root ->
  get_prop (xml2js_document root) "service_requests" = Ok service_requests ->
  get_prop service_requests "request" = Ok request ->
  xml_request_result host i request = Ok result ->
  k res w1 =
    (Ok tt, World (self w1) (store w1) (log w1 ++ [Called f VNull result])).
Proof.
  intros Hcb Hu H Hok Hfmt Hxml Hsr Hrq Hres.
  handler_of H Hcb; try discriminate.
  all: cbn [xml_request_result] in Hres.
  all: try (apply negb_true_iff in Hok).
  all: rewrite Hok; cbn [negb truthy atom_truthy body_text].
  all: unfold mbind at 1, M_bind at 1, this at 1; rewrite Hfmt.
  all: unfold xml2jsParser_parseString; rewrite Hxml.
  all: cbn [truthy atom_truthy].
  all: unfold mbind at 1, M_bind at 1, mret at 1, M_ret at 1.
  all: unfold mbind at 1, M_bind at 1, lift at 1; rewrite Hsr.
  all: unfold mbind at 1, M_bind at 1, lift at 1; rewrite Hrq.
  all: try (injection Hres as <-; reflexivity).
  unfold mbind at 1, M_bind at 1, lift at 1. rewrite Hres. reflexivity.
Qed.

(** X10: an empty XML body is not survived.  When the transport reports a
    success, the format is "xml" and the body is blank, the parser yields
    null, and every endpoint operation throws the TypeError of reading its
    first field off null; the callback is not invoked. *)
Theorem blank_xml_body_throws (host : Host) (i : invocation) (f : nat)
  (w w1 : world) (k : handler) (res : response) :
  calls_back f i ->
  endpoint_operation i = true ->
  invoke host i w = (Ok k, w1) ->
  transport_ok i res = true ->
  strict_eq (format (self w1)) (VStr "xml") = true ->
  xml_read host (body res) = XmlEmpty ->
  k res w1 = (Throw (cannot_read (xml_root_field i) "null"), w1).
Proof.
  intros Hcb He H Hok Hfmt Hxml.
  handler_of H Hcb; try discriminate.
  all: cbn [xml_root_field].
  all: try (apply negb_true_iff in Hok).
  all: rewrite Hok; cbn [negb truthy atom_truthy body_text].
  all: unfold mbind at 1, M_bind at 1, this at 1; rewrite Hfmt.
  all: unfold xml2jsParser_parseString; rewrite Hxml.
  all: reflexivity.
Qed.

(** X11: an XML service list without services is not survived either.
    For a body whose <services> root has no child element and no text, the
    root decodes to null ([emptyTag: null]) and serviceList throws the
    TypeError of reading [service] off null instead of handing an empty
    sequence to the callback. *)
Theorem empty_xml_service_list_throws (host : Host) (f : nat)
  (w w1 : world) (k : handler) (res : response) (text : string) :
  serviceList host (VFun f) w = (Ok k, w1) ->
  statusCode res = 200 ->
  strict_eq (format (self w1)) (VStr "xml") = true ->
  xml_read host (body res) = XmlRoot (Element "services" [] text []) ->
  is_blank text = true ->
  k res w1 = (Throw (cannot_read "service" "null"), w1).
Proof.
  intros H Hs Hfmt Hxml Hblank.
  unfold serviceList in H.
  apply bind_Ok_inv in H as (c & w0 & _ & H).
  destruct (is_undefined (endpoint c)); [discriminate|].
  apply get_inv in H as [(e & [=] & _)|(q & [= ->] & _)].
  cbn beta. rewrite Hs. cbn [Z.eqb Pos.eqb negb truthy atom_truthy body_text].
  unfold mbind at 1, M_bind at 1, this at 1. rewrite Hfmt.
  unfold xml2jsParser_parseString. rewrite Hxml.
  cbn [truthy atom_truthy].
  unfold mbind at 1, M_bind at 1, mret at 1, M_ret at 1.
  unfold xml2js_document. cbn [xml_name xml2js_element]. rewrite Hblank.
  reflexivity.
Qed.

Lemma xml_request_is_unwrapped_witness :
  exists k w1,
    invoke xml_host (SubmitRequest (HAtom (AStr "x")) (VFun 0)) xml_world
      = (Ok k, w1) /\
    k (Response 201 request_xml) w1 =
      (Ok tt,
       World (self w1) (store w1)
         (log w1 ++
          [Called 0%nat VNull
             (VArr [VObj [("service_request_id", VStr "293944")]])])).
Proof.
  destruct (invoke xml_host (SubmitRequest (HAtom (AStr "x")) (VFun 0))
              xml_world) as [[k|e] w1] eqn:H;
    [|vm_compute in H; discriminate].
  exists k, w1. split; [reflexivity|].
  apply (xml_request_is_unwrapped xml_host
           (SubmitRequest (HAtom (AStr "x")) (VFun 0)) 0 xml_world w1 k
           (Response 201 request_xml) request_root
           (VObj [("request", VObj [("service_request_id", VStr "293944")])])
           (VObj [("service_request_id", VStr "293944")])).
  - reflexivity.
  - reflexivity.
  - exact H.
  - reflexivity.
  - rewrite (invoke_keeps_client_sync _ _ _ _ _ H). reflexivity.
  - reflexivity.
  - reflexivity.
  - reflexivity.
  - reflexivity.
Defined.

Lemma blank_xml_body_throws_witness :
  exists k w1,
    invoke example_host (ServiceList (VFun 0)) xml_world = (Ok k, w1) /\
    k (Response 200 "") w1 = (Throw (cannot_read "services" "null"), w1).
Proof.
  destruct (invoke example_host (ServiceList (VFun 0)) xml_world)
    as [[k|e] w1] eqn:H; [|vm_compute in H; discriminate].
  exists k, w1. split; [reflexivity|].
  apply (blank_xml_body_throws example_host (ServiceList (VFun 0)) 0
           xml_world w1 k (Response 200 "")).
  - reflexivity.
  - reflexivity.
  - exact H.
  - reflexivity.
  - rewrite (invoke_keeps_client_sync _ _ _ _ _ H). reflexivity.
  - reflexivity.
Defined.

Lemma empty_xml_service_list_throws_witness :
  exists k w1,
    serviceList xml_host (VFun 0) xml_world = (Ok k, w1) /\
    k (Response 200 "<services/>") w1
      = (Throw (cannot_read "service" "null"), w1).
Proof.
  destruct (serviceList xml_host (VFun 0) xml_world)
    as [[k|e] w1] eqn:H; [|vm_compute in H; discriminate].
  exists k, w1. split; [reflexivity|].
  apply (empty_xml_service_list_throws xml_host 0 xml_world w1 k
           (Response 200 "<services/>") "").
  - exact H.
  - reflexivity.
  - change (serviceList xml_host (VFun 0)) with
      (invoke xml_host (ServiceList (VFun 0))) in H.
    rewrite (invoke_keeps_client_sync _ _ _ _ _ H). reflexivity.
  - reflexivity.
  - reflexivity.
Defined.

(** ** Service discovery *)

Ltac discovery_handler H Hcb :=
  destruct Hcb as [Hcb ->];
  unfold serviceDiscovery in H; rewrite Hcb in H;
  apply bind_Ok_inv in H as (?c & ?w0 & _ & H);
  (destruct (is_undefined (discovery _)); [discriminate|]);
  apply bind_Ok_inv in H as (?ext & ?w2 & _ & H);
  rewrite request_run in H; injection H as <- _;
  cbn beta.

(** X12: a discovery response whose status is not 200 is reported through
    the callback, with the status code itself as the error and a message that
    ends in it; the body is not decoded and the client is not touched, also
    when caching was asked for. *)
Theorem discovery_failure_is_reported (host : Host)
  (options callback : value) (f : nat)
  (w w1 : world) (k : handler) (res : response) :
  calls_back f (ServiceDiscovery options callback) ->
  serviceDiscovery host options callback w = (Ok k, w1) ->
  statusCode res <> 200 ->
  k res w1 =
    (Ok tt,
     World (self w1) (store w1)
       (log w1 ++ [Called f (VNum (statusCode res))
                     (VStr (discovery_failed (statusCode res)))])).
Proof.
  intros Hcb H Hstatus. cbn [calls_back] in Hcb.
  discovery_handler H Hcb.
  destruct (Z.eqb_spec (statusCode res) 200); [contradiction|].
  reflexivity.
Qed.

Lemma discovery_failure_is_reported_witness :
  exists k w1,
    serviceDiscovery example_host (VObj [("cache", VBool true)]) (VFun 0)
      example_world = (Ok k, w1) /\
    k (Response 503 "down") w1 =
      (Ok tt,
       World (self w1) (store w1)
         (log w1 ++
          [Called 0%nat (VNum 503)
             (VStr "There was an error connecting to the Open311 Discovery API: 503")])).
Proof.
  destruct (serviceDiscovery example_host (VObj [("cache", VBool true)])
              (VFun 0) example_world) as [[k|e] w1] eqn:H;
    [|vm_compute in H; discriminate].
  exists k, w1. split; [reflexivity|].
  apply (discovery_failure_is_reported example_host
           (VObj [("cache", VBool true)]) (VFun 0) 0 example_world w1 k
           (Response 503 "down")).
  - split; reflexivity.
  - exact H.
  - simpl. lia.
Defined.

(** The handler of serviceDiscovery on a 200 response whose body decodes. *)
Lemma discovery_handler_decodes (host : Host) (options callback : value)
  (f : nat) (w w1 : world) (k : handler) (res : response) (data : value) :
  calls_back f (ServiceDiscovery options callback) ->
  serviceDiscovery host options callback w = (Ok k, w1) ->
  statusCode res = 200 ->
  discovery_data host (self w1) res = Some data ->
  k res w1 =
    _cacheOptions host data (extend discovery_defaults options)
      (call (VFun f) VNull data) w1.
Proof.
  intros Hcb H Hs Hdata. cbn [calls_back] in Hcb.
  discovery_handler H Hcb.
  rewrite Hs. cbn [Z.eqb Pos.eqb negb].
  unfold mbind at 1, M_bind at 1, this at 1.
  unfold discovery_data in Hdata.
  unfold mbind at 1, M_bind at 1, lift at 1.
  destruct (last_dot_piece (discovery (self w1))) as [piece|]; [|discriminate].
  destruct (strict_eq piece (VStr "xml")).
  - unfold xml2jsParser_parseString.
    destruct (xml_read host (body res)) as [msg| |root]; [discriminate| |];
      injection Hdata as <-; reflexivity.
  - unfold mbind at 1, M_bind at 1, JSON_parse_body. rewrite Hdata. reflexivity.
Qed.

(** X13: an uncached discovery hands the decoded document to the callback
    as it is: on a 200 response whose body decodes (as XML when the discovery
    URL ends in ".xml", as JSON otherwise), with a falsy cache option, the
    callback is invoked once with a null error and the document, and the
    client is unchanged. *)
Theorem uncached_discovery_returns_document (host : Host)
  (options callback : value) (f : nat)
  (w w1 : world) (k : handler) (res : response) (data : value) :
  calls_back f (ServiceDiscovery options callback) ->
  truthy (opt (extend discovery_defaults options) "cache") = false ->
  serviceDiscovery host options callback w = (Ok k, w1) ->
  statusCode res = 200 ->
  discovery_data host (self w1) res = Some data ->
  k res w1 =
    (Ok tt, World (self w1) (store w1) (log w1 ++ [Called f VNull data])).
Proof.
  intros Hcb Hc H Hs Hdata.
  rewrite (discovery_handler_decodes host options callback f w w1 k res data
             Hcb H Hs Hdata).
  now rewrite (cacheOptions_uncached _ _ _ _ Hc).
Qed.

Lemma uncached_discovery_returns_document_witness :
  exists k w1,
    serviceDiscovery example_host (VObj []) (VFun 0) example_world
      = (Ok k, w1) /\
    k (Response 200 discovery_json) w1 =
      (Ok tt, World (self w1) (store w1)
                (log w1 ++ [Called 0%nat VNull discovery_document])).
Proof.
  destruct (serviceDiscovery example_host (VObj []) (VFun 0) example_world)
    as [[k|e] w1] eqn:H; [|vm_compute in H; discriminate].
  exists k, w1. split; [reflexivity|].
  assert (self w1 = self example_world) as Hself.
  { change (invoke example_host (ServiceDiscovery (VObj []) (VFun 0))
              example_world = (Ok k, w1)) in H.
    exact (invoke_keeps_client_sync _ _ _ _ _ H). }
  apply (uncached_discovery_returns_document example_host (VObj []) (VFun 0) 0
           example_world w1 k (Response 200 discovery_json)
           discovery_document).
  - split; reflexivity.
  - reflexivity.
  - exact H.
  - reflexivity.
  - rewrite Hself. reflexivity.
Defined.

(** The slash test of [_cacheOptions] on a string. *)
Lemma slice_last_string (s : string) :
  exists last,
    slice_last (VStr s) = Ok last /\
    strict_eq last (VStr "/") = ends_with_slash (VStr s).
Proof.
  simpl. destruct (List.last _ None) as [c|]; eexists; split; try reflexivity.
  simpl. destruct (Ascii.eqb_spec c "/") as [->|Hne]; [reflexivity|].
  destruct (String.eqb_spec (String c EmptyString) "/") as [E|]; [|reflexivity].
  injection E as ->. contradiction.
Qed.

(** X14: a cached discovery configures the client from the selected
    candidate.  Given the candidates of the document that match the wanted
    specification and type, in document order, the one at the wanted index
    becomes the configuration: the client's endpoint is the candidate's url,
    with a slash appended unless it ends in one already, its format is "json"
    or "xml", its jurisdiction, apiKey and discovery are unchanged, and the
    callback then gets the unchanged document. *)
Theorem cached_discovery_configures_client (host : Host)
  (options callback : value) (f : nat)
  (w w1 : world) (k : handler) (res : response)
  (data all candidate formats : value) (endpoints : list value) (url : string) :
  calls_back f (ServiceDiscovery options callback) ->
  truthy (opt (extend discovery_defaults options) "cache") = true ->
  serviceDiscovery host options callback w = (Ok k, w1) ->
  statusCode res = 200 ->
  discovery_data host (self w1) res = Some data ->
  get_prop data "endpoints" = Ok all ->
  filter_result (endpoint_matches (extend discovery_defaults options))
    (collection_values all) = Ok endpoints ->
  get_elem host (VArr endpoints) (opt (extend discovery_defaults options) "index")
    = Ok candidate ->
  get_prop candidate "url" = Ok (VStr url) ->
  get_prop candidate "formats" = Ok formats ->
  exists fmt,
    (fmt = VStr "json" \/ fmt = VStr "xml") /\
    k res w1 =
      (Ok tt,
       World (Client (VStr (if ends_with_slash (VStr url)
                            then url else url +:+ "/"))
                     fmt (jurisdiction (self w1)) (apiKey (self w1))
                     (discovery (self w1)))
             (store w1) (log w1 ++ [Called f VNull data])).
Proof.
  intros Hcb Hc H Hs Hdata Hall Hfilter Hcand Hurl Hformats.
  rewrite (discovery_handler_decodes host options callback f w w1 k res data
             Hcb H Hs Hdata).
  unfold _cacheOptions. rewrite Hc. cbn [negb].
  unfold mbind at 1, M_bind at 1, lift at 1. rewrite Hall.
  unfold mbind at 1, M_bind at 1, lift at 1. rewrite Hfilter.
  unfold mbind at 1, M_bind at 1, lift at 1. rewrite Hcand.
  unfold mbind at 1, M_bind at 1, lift at 1. rewrite Hurl.
  unfold mbind at 1, M_bind at 1, set_endpoint at 1.
  destruct (slice_last_string url) as (last & Hlast & Hslash).
  unfold mbind at 1, M_bind at 1, lift at 1. rewrite Hlast, Hslash.
  set (fmt := if truthy (VNum (indexOf formats
                    (VBool (negb (strict_eq (VStr "application/json")
                                            (VNum (-1)))))))
              then VStr "json" else VStr "xml").
  exists fmt. split.
  { subst fmt.
    match goal with
    | |- context [if ?b then _ else _] => destruct b
    end; [left|right]; reflexivity. }
  destruct (ends_with_slash (VStr url)); cbn [negb].
  all: unfold mbind at 1, M_bind at 1; cbn [set_endpoint mret M_ret self
         store log endpoint format jurisdiction apiKey discovery].
  all: unfold mbind at 1, M_bind at 1, lift at 1; rewrite Hformats.
  all: unfold mbind at 1, M_bind at 1; subst fmt.
  all: match goal with
       | |- context [if ?b then set_format _ else _] => destruct b
       end; reflexivity.
Qed.

Lemma cached_discovery_configures_client_witness :
  exists k w1 fmt,
    serviceDiscovery example_host (VObj [("cache", VBool true)]) (VFun 0)
      example_world = (Ok k, w1) /\
    (fmt = VStr "json" \/ fmt = VStr "xml") /\
    k (Response 200 discovery_json) w1 =
      (Ok tt,
       World (Client (VStr "http://example.org/v2/") fmt
                     (jurisdiction (self w1)) (apiKey (self w1))
                     (discovery (self w1)))
             (store w1) (log w1 ++ [Called 0%nat VNull discovery_document])).
Proof.
  destruct (serviceDiscovery example_host (VObj [("cache", VBool true)])
              (VFun 0) example_world) as [[k|e] w1] eqn:H;
    [|vm_compute in H; discriminate].
  assert (self w1 = self example_world) as Hself.
  { change (invoke example_host
              (ServiceDiscovery (VObj [("cache", VBool true)]) (VFun 0))
              example_world = (Ok k, w1)) in H.
    exact (invoke_keeps_client_sync _ _ _ _ _ H). }
  destruct (cached_discovery_configures_client example_host
              (VObj [("cache", VBool true)]) (VFun 0) 0 example_world w1 k
              (Response 200 discovery_json) discovery_document
              (VArr [discovery_candidate]) discovery_candidate
              (VArr [VStr "text/xml"; VStr "application/json"])
              [discovery_candidate] "http://example.org/v2")
    as (fmt & Hfmt & Hrun).
  - split; reflexivity.
  - reflexivity.
  - exact H.
  - reflexivity.
  - rewrite Hself. reflexivity.
  - reflexivity.
  - reflexivity.
  - reflexivity.
  - reflexivity.
  - reflexivity.
  - exists k, w1, fmt. split; [reflexivity|]. split; [exact Hfmt|exact Hrun].
Defined.

(** ** Requests and their parameters *)

Lemma with_jurisdiction_params (c : client) (props : list (string * value)) :
  with_jurisdiction c (VObj props) = Ok (VObj (sent_params c props)).
Proof.
  unfold with_jurisdiction, sent_params.
  destruct (truthy (jurisdiction c)); reflexivity.
Qed.

Lemma get_with_params host path props (cb : value -> value -> M unit) w :
  _get host path (Some (VObj props)) cb w =
    (Ok (fun res : response =>
           if negb (statusCode res =? 200)
           then cb (VBool true) (VStr (api_failed (statusCode res)))
           else cb (VBool false) (VStr (body res))),
     World (self w) (store w)
       (log w ++ [Requested (HttpRequest GET (api_url host (self w) path)
                               (VObj (sent_params (self w) props)) None)])).
Proof.
  unfold _get, request. munfold. simpl.
  rewrite with_jurisdiction_params. reflexivity.
Qed.

(** X15: the jurisdiction parameter.  A GET made with the caller's
    parameter object carries, when the client has a (truthy) jurisdiction, a
    [jurisdiction_id] that is the caller's own if the caller gave a truthy
    one and the client's jurisdiction otherwise; every other parameter is
    the caller's.  A client without jurisdiction sends the caller's
    parameters as they are. *)
Theorem jurisdiction_is_attached (host : Host) (path : string)
  (props : list (string * value)) (cb : value -> value -> M unit) (w : world) :
  exists k q,
    _get host path (Some (VObj props)) cb w =
      (Ok k, World (self w) (store w)
               (log w ++ [Requested (HttpRequest GET (api_url host (self w) path)
                                       (VObj q) None)])) /\
    (truthy (jurisdiction (self w)) = true ->
     opt q "jurisdiction_id" =
       if truthy (opt props "jurisdiction_id")
       then opt props "jurisdiction_id" else jurisdiction (self w)) /\
    (forall key, key <> "jurisdiction_id"%string -> opt q key = opt props key) /\
    (truthy (jurisdiction (self w)) = false -> q = props).
Proof.
  eexists _, (sent_params (self w) props).
  split; [apply get_with_params|].
  unfold sent_params, opt.
  destruct (truthy (jurisdiction (self w))); repeat split; try discriminate.
  - intros _. now rewrite assoc_set_same.
  - intros key Hkey. rewrite assoc_set_other; [reflexivity|congruence].
Qed.

(** X16: serviceRequests with a list of ids asks for the collection, not
    for one request: the GET goes to [endpoint + "requests." + format] and its
    [service_request_id] parameter is the ids joined by commas. *)
Theorem serviceRequests_by_id_list (host : Host)
  (ids : list value) (props : list (string * value)) (callback : value)
  (w : world) :
  is_undefined (endpoint (self w)) = false ->
  exists k q,
    serviceRequests host (VArr ids) (VObj props) callback w =
      (Ok k, World (self w) (store w)
               (log w ++ [Requested (HttpRequest GET
                                       (api_url host (self w) "requests")
                                       (VObj q) None)])) /\
    opt q "service_request_id" = VStr (array_join host "," ids).
Proof.
  intros He. unfold serviceRequests.
  unfold mbind at 1, M_bind at 1, this at 1. rewrite He.
  cbn [isObject isArray isFunction negb andb truthy collection_values set_prop].
  unfold mbind at 1, M_bind at 1, lift at 1.
  rewrite get_with_params. eexists _, _. split; [reflexivity|].
  unfold sent_params, opt. destruct (truthy (jurisdiction (self w))).
  - rewrite assoc_set_other; [|discriminate]. now rewrite assoc_set_same.
  - now rewrite assoc_set_same.
Qed.

Lemma serviceRequests_by_id_list_witness :
  exists k q,
    serviceRequests example_host (VArr [VStr "101"; VStr "102"]) (VObj [])
        (VFun 0) example_world =
      (Ok k, World (self example_world) (store example_world)
               (log example_world ++
                [Requested (HttpRequest GET
                              (api_url example_host (self example_world)
                                 "requests")
                              (VObj q) None)])) /\
    opt q "service_request_id"
      = VStr (array_join example_host "," [VStr "101"; VStr "102"]).
Proof.
  apply (serviceRequests_by_id_list example_host [VStr "101"; VStr "102"] []
           (VFun 0) example_world).
  reflexivity.
Defined.

(** X17: serviceRequests with a single id asks for that request: for an id
    that is not an object, the GET goes to [endpoint + "requests/" + id + "."
    + format] when the id is truthy and to [endpoint + "requests." + format]
    when it is not (no id); no [service_request_id] parameter is added. *)
Theorem serviceRequests_by_id (host : Host)
  (id : value) (props : list (string * value)) (callback : value) (w : world) :
  is_undefined (endpoint (self w)) = false ->
  isObject id = false ->
  exists k,
    serviceRequests host id (VObj props) callback w =
      (Ok k, World (self w) (store w)
               (log w ++
                [Requested (HttpRequest GET
                   (api_url host (self w)
                      (if truthy id then "requests/" +:+ to_string host id
                       else "requests"))
                   (VObj (sent_params (self w) props)) None)])) /\
    opt (sent_params (self w) props) "service_request_id"
      = opt props "service_request_id".
Proof.
  intros He Hid. unfold serviceRequests.
  unfold mbind at 1, M_bind at 1, this at 1. rewrite He, Hid.
  cbn [isFunction negb andb].
  assert (isArray id = false) as Harr by (destruct id; [reflexivity|discriminate..]).
  rewrite Harr, Bool.andb_false_r, Bool.andb_true_r. cbn [negb].
  unfold mbind at 1, M_bind at 1, mret at 1, M_ret at 1.
  rewrite get_with_params. eexists. split; [reflexivity|].
  unfold sent_params, opt. destruct (truthy (jurisdiction (self w)));
    [|reflexivity].
  rewrite assoc_set_other; [reflexivity|discriminate].
Qed.

Lemma serviceRequests_by_id_witness :
  exists k,
    serviceRequests example_host (VStr "101") (VObj []) (VFun 0) example_world =
      (Ok k, World (self example_world) (store example_world)
               (log example_world ++
                [Requested (HttpRequest GET
                   (api_url example_host (self example_world)
                      (if truthy (VStr "101")
                       then "requests/" +:+ to_string example_host (VStr "101")
                       else "requests"))
                   (VObj (sent_params (self example_world) [])) None)])) /\
    opt (sent_params (self example_world) []) "service_request_id"
      = opt [] "service_request_id".
Proof.
  apply (serviceRequests_by_id example_host (VStr "101") [] (VFun 0)
           example_world).
  - reflexivity.
  - reflexivity.
Defined.

(** X18: where serviceList, serviceDefinition and token go.  With an
    endpoint configured, each always gets its request out, whatever its
    arguments: one GET to [endpoint + path + "." + format], the path being
    "services", "services/" + the service code, or "tokens/" + the token
    (code and token converted to strings), with no parameter but the
    client's jurisdiction, and no form; client and store are untouched. *)
Theorem get_operations_request (host : Host) (i : invocation)
  (path : string) (w : world) :
  get_path host i = Some path ->
  is_undefined (endpoint (self w)) = false ->
  exists k,
    invoke host i w =
      (Ok k,
       World (self w) (store w)
         (log w ++ [Requested (HttpRequest GET (api_url host (self w) path)
                                 (VObj (sent_params (self w) [])) None)])).
Proof.
  intros Hpath Hend.
  destruct i as [?options ?cb|?cb|?code ?cb|?data ?cb|?tok ?cb|?id ?params ?cb];
    try discriminate Hpath; injection Hpath as <-; cbn [invoke].
  - unfold serviceList. unfold mbind at 1, M_bind, this. rewrite Hend.
    unfold _get, request. munfold. cbn [self store log default].
    rewrite with_jurisdiction_params. eexists. reflexivity.
  - unfold serviceDefinition. unfold mbind at 1, M_bind, this. rewrite Hend.
    unfold _get, request. munfold. cbn [self store log default].
    rewrite with_jurisdiction_params. eexists. reflexivity.
  - unfold token. unfold mbind at 1, M_bind, this. rewrite Hend.
    unfold _get, request. munfold. cbn [self store log default].
    rewrite with_jurisdiction_params. eexists. reflexivity.
Qed.

Lemma get_operations_request_witness :
  exists k,
    invoke example_host (ServiceDefinition (VNum 33) (VFun 0)) example_world =
      (Ok k,
       World (self example_world) (store example_world)
         (log example_world ++
          [Requested (HttpRequest GET
                        (api_url example_host (self example_world)
                           "services/33")
                        (VObj (sent_params (self example_world) [])) None)])).
Proof.
  apply (get_operations_request example_host
           (ServiceDefinition (VNum 33) (VFun 0)) "services/33" example_world).
  - reflexivity.
  - reflexivity.
Defined.

(** ** Date coercion *)

Lemma assoc_set_idem {A} (k : string) (x : A) (props : list (string * A)) :
  assoc k props = Some x -> assoc_set k x props = props.
Proof.
  induction props as [|[k0 y] props IH]; simpl; [discriminate|].
  destruct (String.eqb_spec k0 k) as [->|Hk].
  - now intros [= ->].
  - intros H. now rewrite IH.
Qed.

Lemma new_Date_truthy host (v : value) : truthy (new_Date host v) = true.
Proof. reflexivity. Qed.

Lemma new_Date_idem host (v : value) :
  new_Date host (new_Date host v) = new_Date host v.
Proof. reflexivity. Qed.

Lemma opt_set_same (k : string) (x : value) (props : list (string * value)) :
  opt (assoc_set k x props) k = x.
Proof. unfold opt. now rewrite assoc_set_same. Qed.

Lemma opt_set_other (k k' : string) (x : value)
  (props : list (string * value)) :
  k <> k' -> opt (assoc_set k x props) k' = opt props k'.
Proof. intros H. unfold opt. now rewrite assoc_set_other. Qed.

Lemma opt_set_idem (k : string) (props : list (string * value)) :
  truthy (opt props k) = true -> assoc_set k (opt props k) props = props.
Proof.
  intros H. apply assoc_set_idem. unfold opt in *.
  destruct (assoc k props); [reflexivity|discriminate].
Qed.

Ltac opts :=
  repeat (change (default VUndef (assoc ?k ?p)) with (opt p k) in *);
  repeat first
    [ rewrite opt_set_same
    | rewrite opt_set_other by discriminate ].

(** What the body of the [_.each] callback makes of a mapping. *)
Lemma convert_request_object host (props : list (string * value)) :
  convert_request host (VObj props) =
    Ok (VObj
      (let p1 :=
         if truthy (opt props "requested_datetime")
         then assoc_set "updated_datetime"
                (new_Date host (opt props "updated_datetime"))
                (assoc_set "requested_datetime"
                   (new_Date host (opt props "requested_datetime")) props)
         else props in
       if truthy (opt props "expected_datetime")
       then assoc_set "expected_datetime"
              (new_Date host (opt props "expected_datetime")) p1
       else p1)).
Proof.
  unfold convert_request. cbn [get_prop set_prop].
  unfold mbind, result_bind, mret, result_ret. opts.
  destruct (truthy (opt props "requested_datetime")) eqn:Hr.
  - cbn [get_prop set_prop]. opts. rewrite new_Date_truthy.
    cbn [get_prop set_prop]. opts.
    destruct (truthy (opt props "expected_datetime")); reflexivity.
  - cbn [get_prop set_prop]. opts. rewrite Hr.
    cbn [get_prop set_prop]. opts.
    destruct (truthy (opt props "expected_datetime")); reflexivity.
Qed.

Lemma convert_request_other host (v : value) :
  (forall props, v <> VObj props) -> v <> VUndef -> v <> VNull ->
  convert_request host v = Ok v.
Proof.
  intros Hobj Hu Hn. destruct v as [[]|l|props]; try reflexivity.
  - contradiction.
  - contradiction.
  - now contradiction (Hobj props).
Qed.

Lemma convert_request_idem host (v v' : value) :
  convert_request host v = Ok v' -> convert_request host v' = Ok v'.
Proof.
  destruct v as [a|l|props].
  - destruct a; try discriminate; intros [= <-]; reflexivity.
  - intros [= <-]. reflexivity.
  - rewrite convert_request_object. intros [= <-].
    rewrite convert_request_object. do 2 f_equal. cbn zeta.
    destruct (truthy (opt props "requested_datetime")) eqn:Hr;
    destruct (truthy (opt props "expected_datetime")) eqn:He; opts;
      rewrite ?new_Date_truthy, ?new_Date_idem, ?Hr, ?He.
    + set (p1 := assoc_set "updated_datetime" _
                   (assoc_set "requested_datetime" _ props)).
      set (p2 := assoc_set "expected_datetime" _ p1).
      assert (assoc_set "requested_datetime"
                (new_Date host (opt props "requested_datetime")) p2 = p2) as ->.
      { apply assoc_set_idem. subst p2 p1.
        rewrite !(assoc_set_other _ "requested_datetime") by discriminate.
        apply assoc_set_same. }
      assert (assoc_set "updated_datetime"
                (new_Date host (opt props "updated_datetime")) p2 = p2) as ->.
      { apply assoc_set_idem. subst p2 p1.
        rewrite !(assoc_set_other "expected_datetime" "updated_datetime")
          by discriminate.
        apply assoc_set_same. }
      apply assoc_set_idem. subst p2. apply assoc_set_same.
    + set (p1 := assoc_set "updated_datetime" _
                   (assoc_set "requested_datetime" _ props)).
      assert (assoc_set "requested_datetime"
                (new_Date host (opt props "requested_datetime")) p1 = p1) as ->.
      { apply assoc_set_idem. subst p1.
        rewrite !(assoc_set_other _ "requested_datetime") by discriminate.
        apply assoc_set_same. }
      apply assoc_set_idem. subst p1. apply assoc_set_same.
    + apply assoc_set_idem. apply assoc_set_same.
    + reflexivity.
Qed.

Lemma each_result_idem (f : value -> result value) (l l' : list value) :
  (forall v v', f v = Ok v' -> f v' = Ok v') ->
  each_result f l = Ok l' -> each_result f l' = Ok l'.
Proof.
  intros Hf. revert l'. induction l as [|x l IH]; intros l'; simpl.
  - now intros [= <-].
  - destruct (f x) as [x'|] eqn:Hx; [|discriminate].
    destruct (each_result f l) as [rest|]; [|discriminate].
    intros [= <-]. simpl. rewrite (Hf _ _ Hx). now rewrite (IH rest).
Qed.

Lemma each_result_length (f : value -> result value) (l l' : list value) :
  each_result f l = Ok l' -> length l' = length l.
Proof.
  revert l'. induction l as [|x l IH]; intros l'; simpl.
  - now intros [= <-].
  - destruct (f x); [|discriminate].
    destruct (each_result f l) as [rest|]; [|discriminate].
    intros [= <-]. simpl. now rewrite (IH rest).
Qed.

Lemma map_snd_rekey (props : list (string * value)) (values : list value) :
  length values = length props ->
  map snd (zip_with (fun kv x => (kv.1, x)) props values) = values.
Proof.
  revert values. induction props as [|kv props IH]; intros [|v values]; simpl;
    try discriminate; [reflexivity|].
  intros [= H]. now rewrite IH.
Qed.

Lemma rekey_rekey (props : list (string * value)) (values : list value) :
  zip_with (fun kv x => (kv.1, x))
    (zip_with (fun kv x => (kv.1, x)) props values) values
  = zip_with (fun kv x => (kv.1, x)) props values.
Proof.
  revert values. induction props as [|kv props IH]; intros [|v values]; simpl;
    try reflexivity.
  now rewrite IH.
Qed.

(** X19: date coercion is idempotent.  Whatever _convertDates returns, it
    returns again unchanged when applied to it: dates that were made stay the
    same dates, and a second pass never throws. *)
Theorem convertDates_idempotent (host : Host) (requestData result : value) :
  _convertDates host requestData = Ok result ->
  _convertDates host result = Ok result.
Proof.
  destruct requestData as [a|l|props]; simpl.
  - destruct a; try (intros [= <-]; reflexivity).
    unfold mbind, result_bind, mret, result_ret.
    destruct (each_result _ _) eqn:E; [|discriminate].
    intros [= <-]. simpl. unfold mbind, result_bind. now rewrite E.
  - unfold mbind, result_bind, mret, result_ret.
    destruct (each_result (convert_request host) l) as [l'|] eqn:E;
      [|discriminate].
    intros [= <-]. simpl. unfold mbind, result_bind.
    now rewrite (each_result_idem _ _ _ (convert_request_idem host) E).
  - unfold mbind, result_bind, mret, result_ret.
    destruct (each_result (convert_request host) (map snd props))
      as [values|] eqn:E; [|discriminate].
    intros [= <-]. simpl. unfold mbind, result_bind.
    pose proof (each_result_length _ _ _ E) as Hlen.
    rewrite length_map in Hlen.
    rewrite (map_snd_rekey _ _ Hlen).
    rewrite (each_result_idem _ _ _ (convert_request_idem host) E).
    unfold mret, result_ret. now rewrite rekey_rekey.
Qed.

Lemma convertDates_idempotent_witness :
  _convertDates example_host
    (VArr [VObj [("requested_datetime", VStr "1970-01-01T00:00:01Z")]])
  = Ok (VArr [VObj [("requested_datetime", VDate (Some 1000));
                    ("updated_datetime", VDate None)]]) /\
  _convertDates example_host
    (VArr [VObj [("requested_datetime", VDate (Some 1000));
                 ("updated_datetime", VDate None)]])
  = Ok (VArr [VObj [("requested_datetime", VDate (Some 1000));
                    ("updated_datetime", VDate None)]]).
Proof.
  split; [reflexivity|].
  apply (convertDates_idempotent example_host
    (VArr [VObj [("requested_datetime", VStr "1970-01-01T00:00:01Z")]])).
  reflexivity.
Defined.


Lemma convert_request_coerces host (props : list (string * value)) :
  exists after,
    convert_request host (VObj props) = Ok after /\
    dates_coerced host (VObj props) after.
Proof.
  rewrite convert_request_object. eexists. split; [reflexivity|].
  eexists props, _. split; [reflexivity|]. split; [reflexivity|]. cbn zeta.
  destruct (truthy (opt props "requested_datetime")) eqn:Hr;
  destruct (truthy (opt props "expected_datetime")) eqn:He;
    (split; [|split]); intros; opts;
    rewrite ?opt_set_other by (intros E; now symmetry in E);
    reflexivity.
Qed.

(** X20: in a sequence of request mappings every request is coerced and
    nothing else happens.  The result is a sequence of the same length; in
    each request a truthy requested_datetime and a truthy expected_datetime
    have become dates, a falsy one is as it was, and every field other than
    the three date fields is as it was. *)
Theorem convertDates_coerces_each (host : Host) (requests : list value) :
  Forall (fun request => exists props, request = VObj props) requests ->
  exists converted,
    _convertDates host (VArr requests) = Ok (VArr converted) /\
    Forall2 (dates_coerced host) requests converted.
Proof.
  intros Hall. simpl. unfold mbind, result_bind, mret, result_ret.
  induction Hall as [|request requests [props ->] _ (converted & E & IH)].
  - exists []. split; [reflexivity|constructor].
  - destruct (convert_request_coerces host props) as (after & Ha & Hc).
    destruct (each_result (convert_request host) requests) as [rest|] eqn:Er;
      [|discriminate].
    injection E as <-.
    exists (after :: rest). split.
    + cbn [each_result]. now rewrite Ha, Er.
    + now constructor.
Qed.

Lemma convertDates_coerces_each_witness :
  Forall (fun request => exists props, request = VObj props)
    [VObj [("service_request_id", VNum 638344);
           ("requested_datetime", VStr "1970-01-01T00:00:01Z")]] /\
  exists converted,
    _convertDates example_host
      (VArr [VObj [("service_request_id", VNum 638344);
                   ("requested_datetime", VStr "1970-01-01T00:00:01Z")]])
      = Ok (VArr converted) /\
    Forall2 (dates_coerced example_host)
      [VObj [("service_request_id", VNum 638344);
             ("requested_datetime", VStr "1970-01-01T00:00:01Z")]]
      converted.
Proof.
  assert (Forall (fun request => exists props, request = VObj props)
    [VObj [("service_request_id", VNum 638344);
           ("requested_datetime", VStr "1970-01-01T00:00:01Z")]]) as H.
  { constructor; [|constructor]. eexists; reflexivity. }
  split; [exact H|].
  exact (convertDates_coerces_each example_host _ H).
Defined.

Lemma each_result_unchanged (f : value -> result value) (l : list value) :
  Forall (fun v => f v = Ok v) l -> each_result f l = Ok l.
Proof.
  induction 1 as [|v l Hv _ IH]; simpl; [reflexivity|].
  now rewrite Hv, IH.
Qed.

Lemma rekey_same (props : list (string * value)) :
  zip_with (fun kv x => (kv.1, x)) props (map snd props) = props.
Proof.
  induction props as [|[k v] props IH]; simpl; [reflexivity|].
  now rewrite IH.
Qed.

(** X21: a single request mapping is not coerced.  Given one mapping instead
    of a sequence, as the XML branch is for a response with one request,
    _.each visits the field values; when these are strings (as XML text is)
    none has date fields, and the mapping comes back as it was, its
    requested_datetime still a string. *)
Theorem convertDates_single_request_unchanged (host : Host)
  (props : list (string * value)) :
  Forall (fun field => exists text, field.2 = VStr text) props ->
  _convertDates host (VObj props) = Ok (VObj props).
Proof.
  intros Hall. simpl. unfold mbind, result_bind, mret, result_ret.
  rewrite each_result_unchanged.
  - now rewrite rekey_same.
  - apply Forall_map. eapply Forall_impl; [exact Hall|].
    intros [k v] [text Hv]. simpl in *. subst v. reflexivity.
Qed.

Lemma convertDates_single_request_unchanged_witness :
  Forall (fun field : string * value => exists text, field.2 = VStr text)
    [("service_request_id", VStr "638344");
     ("requested_datetime", VStr "1970-01-01T00:00:01Z")] /\
  _convertDates example_host
    (VObj [("service_request_id", VStr "638344");
           ("requested_datetime", VStr "1970-01-01T00:00:01Z")])
  = Ok (VObj [("service_request_id", VStr "638344");
              ("requested_datetime", VStr "1970-01-01T00:00:01Z")]).
Proof.
  assert (Forall (fun field : string * value => exists text, field.2 = VStr text)
    [("service_request_id", VStr "638344");
     ("requested_datetime", VStr "1970-01-01T00:00:01Z")]) as H.
  { repeat constructor; eexists; reflexivity. }
  split; [exact H|].
  exact (convertDates_single_request_unchanged example_host _ H).
Defined.

Lemma convert_request_throws host (v : value) (e : exn) :
  convert_request host v = Throw e -> v = VUndef \/ v = VNull.
Proof.
  destruct v as [a|elems|props].
  - destruct a; try discriminate; tauto.
  - discriminate.
  - rewrite convert_request_object. discriminate.
Qed.

Lemma each_result_null host (l : list value) :
  In VNull l -> ~ In VUndef l ->
  each_result (convert_request host) l
    = Throw (cannot_read "requested_datetime" "null").
Proof.
  induction l as [|v l IH]; simpl; [contradiction|].
  intros Hin Hun.
  destruct (convert_request host v) as [v'|e] eqn:E.
  - destruct Hin as [->|Hin]; [discriminate|].
    rewrite IH; [reflexivity|assumption|tauto].
  - destruct (convert_request_throws _ _ _ E) as [->| ->].
    + exfalso. apply Hun. now left.
    + now injection E as <-.
Qed.

(** X22: a single request mapping with a null field makes date coercion
    throw.  The XML parser is configured to turn an empty tag into null;
    _.each over a mapping that has no numeric [length] field visits its
    field values, and then reads requested_datetime of null, which is a
    TypeError, thrown instead of being passed to a callback. *)
Theorem convertDates_null_field_throws (host : Host)
  (props : list (string * value)) :
  (forall n, assoc "length" props <> Some (VNum n)) ->
  In VNull (map snd props) ->
  ~ In VUndef (map snd props) ->
  _convertDates host (VObj props)
    = Throw (cannot_read "requested_datetime" "null").
Proof.
  intros _ Hin Hun. simpl. unfold mbind, result_bind.
  now rewrite each_result_null.
Qed.

Lemma convertDates_null_field_throws_witness :
  (forall n, assoc "length" [("service_request_id", VStr "638344");
                             ("service_notice", VNull)] <> Some (VNum n)) /\
  In VNull (map snd [("service_request_id", VStr "638344");
                       ("service_notice", VNull)]) /\
  ~ In VUndef (map snd [("service_request_id", VStr "638344");
                          ("service_notice", VNull)]) /\
  _convertDates example_host
    (VObj [("service_request_id", VStr "638344"); ("service_notice", VNull)])
  = Throw (cannot_read "requested_datetime" "null").
Proof.
  assert (In VNull (map snd [("service_request_id", VStr "638344");
                               ("service_notice", VNull)])) as H1.
  { simpl. right. left. reflexivity. }
  assert (~ In VUndef (map snd [("service_request_id", VStr "638344");
                                  ("service_notice", VNull)])) as H2.
  { simpl. intros [H|[H|[]]]; discriminate. }
  assert (forall n, assoc "length" [("service_request_id", VStr "638344");
                                    ("service_notice", VNull)]
                    <> Some (VNum n)) as H0.
  { intros n. simpl. discriminate. }
  split; [exact H0|]. split; [exact H1|]. split; [exact H2|].
  exact (convertDates_null_field_throws example_host _ H0 H1 H2).
Defined.

(** ** The form of a submission *)

Lemma assoc_delete_same {A} (k : string) (props : list (string * A)) :
  assoc k (assoc_delete k props) = None.
Proof.
  induction props as [|[k0 y] props IH]; simpl; [reflexivity|].
  destruct (String.eqb_spec k0 k) as [->|Hk]; [exact IH|].
  simpl. destruct (String.eqb_spec k0 k); [contradiction|exact IH].
Qed.

Lemma assoc_delete_other {A} (k k' : string) (props : list (string * A)) :
  k <> k' -> assoc k' (assoc_delete k props) = assoc k' props.
Proof.
  intros Hne. induction props as [|[k0 y] props IH]; simpl; [reflexivity|].
  destruct (String.eqb_spec k0 k) as [->|Hk]; simpl.
  - destruct (String.eqb_spec k k'); [contradiction|exact IH].
  - destruct (String.eqb_spec k0 k'); [reflexivity|exact IH].
Qed.

Lemma obj_get_set_same (o : hobj) (k : string) (x : hval) :
  plain_key k -> obj_get (obj_set o k x) k = x.
Proof.
  intros [Hi Hl]. unfold obj_get, obj_set. rewrite Hi.
  destruct (elements o); simpl; rewrite ?Hl, ?Hi, assoc_set_same; reflexivity.
Qed.

Lemma obj_get_set_other (o : hobj) (k k' : string) (x : hval) :
  plain_key k -> k <> k' -> obj_get (obj_set o k x) k' = obj_get o k'.
Proof.
  intros [Hi Hl] Hne. unfold obj_get, obj_set. rewrite Hi.
  destruct (elements o); simpl; rewrite assoc_set_other by exact Hne;
    reflexivity.
Qed.

Lemma obj_get_delete_same (o : hobj) (k : string) :
  plain_key k -> obj_get (obj_delete o k) k = hundefined.
Proof.
  intros [Hi Hl]. unfold obj_get, obj_delete.
  destruct (elements o); simpl; rewrite ?Hl, ?Hi, assoc_delete_same;
    reflexivity.
Qed.

Lemma obj_get_delete_other (o : hobj) (k k' : string) :
  k <> k' -> obj_get (obj_delete o k) k' = obj_get o k'.
Proof.
  intros Hne. unfold obj_get, obj_delete.
  destruct (elements o); simpl; rewrite assoc_delete_other by exact Hne;
    reflexivity.
Qed.

Lemma deref_insert (h : heap) (l : positive) (o : hobj) :
  deref (<[l := o]> h) l = o.
Proof. unfold deref. now rewrite lookup_insert_eq. Qed.

Lemma deref_insert_ne (h : heap) (l l' : positive) (o : hobj) :
  l <> l' -> deref (<[l := o]> h) l' = deref h l'.
Proof. intros H. unfold deref. now rewrite lookup_insert_ne. Qed.

Lemma attribute_field_plain (k : string) : plain_key (attribute_field k).
Proof.
  unfold plain_key, index_of_key, attribute_field. split; [|reflexivity].
  simpl. now destruct (NilEmpty.uint_of_string _).
Qed.

Lemma append_bracket_inj (k k' : string) :
  k +:+ "]" = k' +:+ "]" -> k = k'.
Proof.
  revert k'. induction k as [|c k IH]; intros [|c' k']; simpl.
  - reflexivity.
  - intros [= <- H]. destruct k'; discriminate.
  - intros [= -> H]. destruct k; discriminate.
  - intros [= -> H]. f_equal. now apply IH.
Qed.

Lemma attribute_field_inj (k k' : string) :
  attribute_field k = attribute_field k' -> k = k'.
Proof.
  unfold attribute_field. intros H. apply append_bracket_inj.
  now injection H.
Qed.

Lemma attribute_field_not_attributes (k : string) :
  attribute_field k <> "attributes"%string.
Proof. unfold attribute_field. simpl. discriminate. Qed.

Lemma attribute_field_not_api_key (k : string) :
  "api_key"%string <> attribute_field k.
Proof. unfold attribute_field. simpl. discriminate. Qed.

(** The loop over the attributes: it never throws, writes only to [data],
    and there only to the [attribute[...]] fields. *)
Lemma flatten_attributes_spec (l : positive) (attributes : hval)
  (keys : list string) :
  hisObject attributes = true ->
  forall h,
    obj_get (deref h l) "attributes" = attributes ->
    exists h',
      flatten_attributes (HRef l) keys h = Ok h' /\
      (forall l0, l0 <> l -> h' !! l0 = h !! l0) /\
      (forall k', (forall k, In k keys -> k' <> attribute_field k) ->
          obj_get (deref h' l) k' = obj_get (deref h l) k') /\
      (forall la, attributes = HRef la -> la <> l ->
          forall k, In k keys ->
            obj_get (deref h' l) (attribute_field k) = obj_get (deref h la) k).
Proof.
  intros Hobj. induction keys as [|k0 rest IH]; intros h Hattr.
  - exists h. repeat split; auto. intros la _ _ k [].
  - assert (exists x, hget_prop h attributes k0 = Ok x /\
              forall la, attributes = HRef la -> x = obj_get (deref h la) k0)
      as (x & Hx & Hxa).
    { destruct attributes as [[]|la]; try discriminate Hobj; simpl;
        eexists; (split; [reflexivity|]); intros la0 H;
        first [discriminate H | now injection H as <-]. }
    set (h1 := <[l := obj_set (deref h l) (attribute_field k0) x]> h).
    destruct (IH h1) as (h' & Hf & Hother & Hkeep & Hcopy).
    { unfold h1. rewrite deref_insert.
      rewrite obj_get_set_other
        by first [apply attribute_field_plain
                 |apply attribute_field_not_attributes].
      exact Hattr. }
    exists h'. split; [|split; [|split]].
    + cbn [flatten_attributes hget_prop]. unfold mbind, result_bind.
      rewrite Hattr, Hx. exact Hf.
    + intros l0 Hl0. rewrite Hother by exact Hl0.
      unfold h1. now rewrite lookup_insert_ne.
    + intros k' Hk'. rewrite Hkeep.
      * unfold h1. rewrite deref_insert.
        rewrite obj_get_set_other
          by first [apply attribute_field_plain
                   |intros E; apply (Hk' k0); [now left|now symmetry]].
        reflexivity.
      * intros k Hk. apply Hk'. now right.
    + intros la Hla Hne k Hk.
      destruct (in_dec String.string_dec k rest) as [Hin|Hnot].
      * rewrite (Hcopy la Hla Hne k Hin). unfold h1.
        now rewrite deref_insert_ne.
      * destruct Hk as [<-|Hk]; [|contradiction].
        rewrite Hkeep.
        -- unfold h1. rewrite deref_insert.
           rewrite obj_get_set_same by apply attribute_field_plain.
           now apply Hxa.
        -- intros k Hk E. apply attribute_field_inj in E. now subst k.
Qed.

(** X23: the attributes loop of submitRequest.  When [data.attributes] is
    an object other than [data] itself, the loop gives [data] a field
    [attribute[k]] for every enumerable key [k] of the attributes, holding
    that attribute's value; it changes no other field of [data] and no other
    object, and it does not throw. *)
Theorem attributes_are_flattened (l la : positive) (h : heap) :
  obj_get (deref h l) "attributes" = HRef la ->
  la <> l ->
  exists h',
    flatten_attributes (HRef l) (hkeys h (HRef la)) h = Ok h' /\
    (forall k, In k (obj_keys (deref h la)) ->
       obj_get (deref h' l) (attribute_field k) = obj_get (deref h la) k) /\
    (forall k', (forall k, k' <> attribute_field k) ->
       obj_get (deref h' l) k' = obj_get (deref h l) k') /\
    (forall l0, l0 <> l -> h' !! l0 = h !! l0).
Proof.
  intros Hattr Hne.
  destruct (flatten_attributes_spec l (HRef la) (hkeys h (HRef la))
              eq_refl h Hattr) as (h' & Hf & Hother & Hkeep & Hcopy).
  exists h'. repeat split.
  - exact Hf.
  - intros k Hk. now apply (Hcopy la eq_refl Hne).
  - intros k' Hk'. apply Hkeep. intros k _. apply Hk'.
  - exact Hother.
Qed.

Lemma attributes_are_flattened_witness :
  obj_get (deref example_store 1%positive) "attributes" = HRef 2%positive /\
  (2 <> 1)%positive /\
  exists h',
    flatten_attributes (HRef 1%positive)
      (hkeys example_store (HRef 2%positive)) example_store = Ok h' /\
    (forall k, In k (obj_keys (deref example_store 2%positive)) ->
       obj_get (deref h' 1%positive) (attribute_field k)
       = obj_get (deref example_store 2%positive) k) /\
    (forall k', (forall k, k' <> attribute_field k) ->
       obj_get (deref h' 1%positive) k'
       = obj_get (deref example_store 1%positive) k') /\
    (forall l0, l0 <> 1%positive -> h' !! l0 = example_store !! l0).
Proof.
  assert (obj_get (deref example_store 1%positive) "attributes"
          = HRef 2%positive) as H1 by reflexivity.
  assert (2 <> 1)%positive as H2 by lia.
  split; [exact H1|]. split; [exact H2|].
  exact (attributes_are_flattened 1%positive 2%positive example_store H1 H2).
Defined.

Lemma clone_deep_ref (l : positive) (h : heap) (v : hval) (h' : heap) :
  clone_deep (HRef l) h = (v, h') -> exists l', v = HRef l'.
Proof.
  unfold clone_deep. cbn [baseClone stack_find].
  destruct (clone_each _ _ _ _) as [[stack h1]|].
  - intros [= <- _]. eauto.
  - intros [= <- _]. eauto.
Qed.

Lemma api_key_plain : plain_key "api_key".
Proof. split; reflexivity. Qed.

Lemma attributes_plain : plain_key "attributes".
Proof. split; reflexivity. Qed.

(** The form [submitRequest] prepares from an object. *)
Lemma prepare_form_object (c : client) (l : positive) (key : atom)
  (w : world) :
  apiKey c = VAtom key -> key <> AUndef ->
  exists l' h',
    prepare_form c (HRef l) w = (Ok (HRef l'), World (self w) h' (log w)) /\
    obj_get (deref h' l') "api_key" = HAtom key /\
    obj_get (deref h' l') "attributes" = hundefined.
Proof.
  intros Hkey Hdef. unfold prepare_form. munfold. simpl.
  destruct (clone_deep (HRef l) (store w)) as [data h0] eqn:Hclone.
  destruct (clone_deep_ref _ _ _ _ Hclone) as [l' ->].
  rewrite Hkey.
  assert (is_undefined (VAtom key) = false) as ->
    by (destruct key; [contradiction|reflexivity..]).
  cbn [alloc_value hset_prop hget_prop fst snd].
  set (h1 := <[l' := obj_set (deref h0 l') "api_key" (HAtom key)]> h0).
  assert (obj_get (deref h1 l') "api_key" = HAtom key) as Hk1.
  { unfold h1. rewrite deref_insert. apply obj_get_set_same, api_key_plain. }
  set (attributes := obj_get (deref h1 l') "attributes").
  destruct (hisObject attributes) eqn:Hobj.
  - destruct (flatten_attributes_spec l' attributes (hkeys h1 attributes)
                Hobj h1 eq_refl) as (h2 & Hf & _ & Hkeep & _).
    rewrite Hf. cbn [hdelete_prop].
    eexists l', _. split; [reflexivity|]. rewrite deref_insert. split.
    + rewrite obj_get_delete_other by discriminate.
      rewrite Hkeep; [exact Hk1|].
      intros k _. apply attribute_field_not_api_key.
    + apply obj_get_delete_same, attributes_plain.
  - cbn [hdelete_prop].
    eexists l', _. split; [reflexivity|]. rewrite deref_insert. split.
    + now rewrite obj_get_delete_other by discriminate.
    + apply obj_get_delete_same, attributes_plain.
Qed.

(** X24: what a submission sends.  With an endpoint and an API key
    configured, submitRequest called with an object always gets its request
    out: one POST to [endpoint + "requests." + format], whose form is an
    object with the client's key as [api_key] (whatever [api_key] the
    caller's data had) and without an [attributes] field. *)
Theorem submitted_form_carries_api_key (host : Host) (l : positive)
  (key : atom) (callback : value) (w : world) :
  is_undefined (endpoint (self w)) = false ->
  apiKey (self w) = VAtom key ->
  key <> AUndef ->
  exists l' k w1,
    submitRequest host (HRef l) callback w = (Ok k, w1) /\
    self w1 = self w /\
    log w1 = log w ++
      [Requested (HttpRequest POST (api_url host (self w) "requests")
                    (VObj (sent_params (self w) [])) (Some (HRef l')))] /\
    obj_get (deref (store w1) l') "api_key" = HAtom key /\
    obj_get (deref (store w1) l') "attributes" = hundefined.
Proof.
  intros Hend Hkey Hdef.
  destruct (prepare_form_object (self w) l key w Hkey Hdef)
    as (l' & h' & Hprep & Hk & Ha).
  exists l'. unfold submitRequest.
  unfold mbind at 1, M_bind, this. rewrite Hend.
  unfold mbind at 1, M_bind. rewrite Hprep.
  unfold _post, request. munfold. cbn [self store log default].
  rewrite with_jurisdiction_params. cbn [self store log].
  eexists _, _. split; [reflexivity|]. cbn [self store log]. auto.
Qed.

Lemma submitted_form_carries_api_key_witness :
  exists l' k w1,
    submitRequest example_host example_data (VFun 0) example_world_with_data
      = (Ok k, w1) /\
    self w1 = self example_world_with_data /\
    log w1 = log example_world_with_data ++
      [Requested (HttpRequest POST
                    (api_url example_host (self example_world_with_data)
                       "requests")
                    (VObj (sent_params (self example_world_with_data) []))
                    (Some (HRef l')))] /\
    obj_get (deref (store w1) l') "api_key" = HAtom (AStr "secret") /\
    obj_get (deref (store w1) l') "attributes" = hundefined.
Proof.
  apply (submitted_form_carries_api_key example_host 1%positive
           (AStr "secret") (VFun 0) example_world_with_data).
  - reflexivity.
  - reflexivity.
  - discriminate.
Defined.

(** ** XML responses that do not parse, and service definitions *)

(** X25: an XML parse error is reported and then thrown over.  When the
    status is a success, the format is "xml" and the parser rejects the body,
    serviceList, serviceDefinition, token and serviceRequests invoke the
    callback with the parser's error and then go on to read their first field
    off the undefined document, which throws a TypeError; submitRequest
    prints the error instead of calling back, and throws the same way. *)
Theorem xml_parse_error_reports_then_throws (host : Host) (i : invocation)
  (f : nat) (w w1 : world) (k : handler) (res : response) (msg : string) :
  calls_back f i ->
  endpoint_operation i = true ->
  invoke host i w = (Ok k, w1) ->
  transport_ok i res = true ->
  strict_eq (format (self w1)) (VStr "xml") = true ->
  xml_read host (body res) = XmlError msg ->
  k res w1 =
    (Throw (cannot_read (xml_root_field i) "undefined"),
     World (self w1) (store w1)
       (log w1 ++ [parse_error_event f i (VError (Error msg))])).
Proof.
  intros Hcb He H Hok Hfmt Hxml.
  handler_of H Hcb; try discriminate.
  all: cbn [xml_root_field parse_error_event].
  all: try (apply negb_true_iff in Hok).
  all: rewrite Hok; cbn [negb truthy atom_truthy body_text].
  all: unfold mbind at 1, M_bind at 1, this at 1; rewrite Hfmt.
  all: unfold xml2jsParser_parseString; rewrite Hxml.
  all: reflexivity.
Qed.

Lemma xml_parse_error_reports_then_throws_witness :
  exists k w1,
    invoke example_host (Token (VStr "12345") (VFun 0)) xml_world
      = (Ok k, w1) /\
    k (Response 200 "oops") w1 =
      (Throw (cannot_read "service_requests" "undefined"),
       World (self w1) (store w1)
         (log w1 ++
          [Called 0%nat
             (VError (Error "Non-whitespace before first tag.")) VUndef])).
Proof.
  destruct (invoke example_host (Token (VStr "12345") (VFun 0)) xml_world)
    as [[k|e] w1] eqn:H; [|vm_compute in H; discriminate].
  exists k, w1. split; [reflexivity|].
  apply (xml_parse_error_reports_then_throws example_host
           (Token (VStr "12345") (VFun 0)) 0 xml_world w1 k
           (Response 200 "oops") "Non-whitespace before first tag.").
  - reflexivity.
  - reflexivity.
  - exact H.
  - reflexivity.
  - rewrite (invoke_keeps_client_sync _ _ _ _ _ H). reflexivity.
  - reflexivity.
Defined.

(** The XML branch of serviceDefinition up to the document. *)
Lemma serviceDefinition_xml_handler (host : Host) (service_code : value)
  (f : nat) (w w1 : world) (k : handler) (res : response) (root : xml) :
  serviceDefinition host service_code (VFun f) w = (Ok k, w1) ->
  statusCode res = 200 ->
  strict_eq (format (self w1)) (VStr "xml") = true ->
  xml_read host (body res) = XmlRoot root ->
  k res w1 =
    (data ← lift (get_prop (xml2js_document root) "service_definition");
     attributes ← lift (get_prop data "attributes");
     attribute ← lift (get_prop attributes "attribute");
     data ← lift (set_prop data "attributes" attribute);
     call (VFun f) VNull data) w1.
Proof.
  intros H Hs Hfmt Hxml.
  unfold serviceDefinition in H.
  apply bind_Ok_inv in H as (c & w0 & _ & H).
  destruct (is_undefined (endpoint c)); [discriminate|].
  apply get_inv in H as [(e & [=] & _)|(q & [= ->] & _)].
  cbn beta. rewrite Hs. cbn [Z.eqb Pos.eqb negb truthy atom_truthy body_text].
  unfold mbind at 1, M_bind at 1, this at 1. rewrite Hfmt.
  unfold xml2jsParser_parseString. rewrite Hxml.
  cbn [truthy atom_truthy].
  unfold mbind at 1, M_bind at 1, mret at 1, M_ret at 1.
  reflexivity.
Qed.

(** X26: decoding an XML service definition.  With format "xml" and a 200
    response whose document has a [service_definition] mapping, the callback
    is invoked once with a null error and that mapping, in which
    [attributes] has been replaced by what was [attributes.attribute].
    Every other field of the definition is as the document has it. *)
Theorem xml_service_definition_attributes (host : Host) (service_code : value)
  (f : nat) (w w1 : world) (k : handler) (res : response) (root : xml)
  (props : list (string * value)) (attribute : value) :
  serviceDefinition host service_code (VFun f) w = (Ok k, w1) ->
  statusCode res = 200 ->
  strict_eq (format (self w1)) (VStr "xml") = true ->
  xml_read host (body res) = XmlRoot root ->
  get_prop (xml2js_document root) "service_definition" = Ok (VObj props) ->
  get_prop (opt props "attributes") "attribute" = Ok attribute ->
  exists definition,
    k res w1 =
      (Ok tt,
       World (self w1) (store w1)
         (log w1 ++ [Called f VNull (VObj definition)])) /\
    opt definition "attributes" = attribute /\
    forall key, key <> "attributes"%string ->
                opt definition key = opt props key.
Proof.
  intros H Hs Hfmt Hxml Hdef Hattr.
  rewrite (serviceDefinition_xml_handler host service_code f w w1 k res root
             H Hs Hfmt Hxml).
  exists (assoc_set "attributes" attribute props). split; [|split].
  - unfold mbind at 1, M_bind at 1, lift at 1. rewrite Hdef.
    unfold mbind at 1, M_bind at 1, lift at 1. cbn [get_prop].
    change (default VUndef (assoc "attributes" props))
      with (opt props "attributes").
    unfold mbind at 1, M_bind at 1, lift at 1. rewrite Hattr.
    reflexivity.
  - apply opt_set_same.
  - intros key Hkey. apply opt_set_other. congruence.
Qed.

Lemma xml_service_definition_attributes_witness :
  exists k w1 definition,
    serviceDefinition definition_host (VStr "DMV66") (VFun 0) xml_world
      = (Ok k, w1) /\
    k (Response 200 definition_xml) w1 =
      (Ok tt,
       World (self w1) (store w1)
         (log w1 ++ [Called 0%nat VNull (VObj definition)])) /\
    opt definition "attributes" = VObj [("code", VStr "WHISHETN")] /\
    forall key, key <> "attributes"%string ->
                opt definition key
                = opt [("service_code", VStr "DMV66");
                       ("attributes",
                        VObj [("attribute",
                               VObj [("code", VStr "WHISHETN")])])] key.
Proof.
  destruct (serviceDefinition definition_host (VStr "DMV66") (VFun 0)
              xml_world) as [[k|e] w1] eqn:H;
    [|vm_compute in H; discriminate].
  assert (self w1 = self xml_world) as Hself.
  { change (invoke definition_host
              (ServiceDefinition (VStr "DMV66") (VFun 0)) xml_world
            = (Ok k, w1)) in H.
    exact (invoke_keeps_client_sync _ _ _ _ _ H). }
  destruct (xml_service_definition_attributes definition_host (VStr "DMV66")
              0 xml_world w1 k (Response 200 definition_xml) definition_root
              [("service_code", VStr "DMV66");
               ("attributes",
                VObj [("attribute", VObj [("code", VStr "WHISHETN")])])]
              (VObj [("code", VStr "WHISHETN")]))
    as (definition & Hrun & Hattr & Hrest).
  - exact H.
  - reflexivity.
  - rewrite Hself. reflexivity.
  - reflexivity.
  - reflexivity.
  - reflexivity.
  - exists k, w1, definition. auto.
Defined.

(** X27: an XML service definition without attributes is not survived.
    When the [service_definition] of the document has no [attributes] field
    (a service that takes none), serviceDefinition throws the TypeError of
    reading [attribute] off undefined from its response handler; the callback
    is not invoked. *)
Theorem xml_service_definition_without_attributes_throws (host : Host)
  (service_code : value) (f : nat) (w w1 : world) (k : handler)
  (res : response) (root : xml) (props : list (string * value)) :
  serviceDefinition host service_code (VFun f) w = (Ok k, w1) ->
  statusCode res = 200 ->
  strict_eq (format (self w1)) (VStr "xml") = true ->
  xml_read host (body res) = XmlRoot root ->
  get_prop (xml2js_document root) "service_definition" = Ok (VObj props) ->
  assoc "attributes" props = None ->
  k res w1 = (Throw (cannot_read "attribute" "undefined"), w1).
Proof.
  intros H Hs Hfmt Hxml Hdef Hnone.
  rewrite (serviceDefinition_xml_handler host service_code f w w1 k res root
             H Hs Hfmt Hxml).
  unfold mbind at 1, M_bind at 1, lift at 1. rewrite Hdef.
  unfold mbind at 1, M_bind at 1, lift at 1. cbn [get_prop].
  rewrite Hnone. reflexivity.
Qed.

Lemma xml_service_definition_without_attributes_throws_witness :
  exists k w1,
    serviceDefinition definition_host (VStr "DMV66") (VFun 0) xml_world
      = (Ok k, w1) /\
    k (Response 200 bare_definition_xml) w1
      = (Throw (cannot_read "attribute" "undefined"), w1).
Proof.
  destruct (serviceDefinition definition_host (VStr "DMV66") (VFun 0)
              xml_world) as [[k|e] w1] eqn:H;
    [|vm_compute in H; discriminate].
  exists k, w1. split; [reflexivity|].
  apply (xml_service_definition_without_attributes_throws definition_host
           (VStr "DMV66") 0 xml_world w1 k (Response 200 bare_definition_xml)
           bare_definition_root [("service_code", VStr "DMV66")]).
  - exact H.
  - reflexivity.
  - change (serviceDefinition definition_host (VStr "DMV66") (VFun 0))
      with (invoke definition_host
              (ServiceDefinition (VStr "DMV66") (VFun 0))) in H.
    rewrite (invoke_keeps_client_sync _ _ _ _ _ H). reflexivity.
  - reflexivity.
  - reflexivity.
  - reflexivity.
Defined.
